(** * Banana marketplace: catalog, product and farm-profile views

    A shallow embedding of the view handlers of the marketplace client
    (Market, ProductDetail, AddProduct, ManageProducts, UpdateProfile) and of
    the generated database types they are written against, together with the
    properties of the catalog and farm directory that the handlers implement.

    The handlers are asynchronous functions that talk to a hosted relational
    store through a query builder, update React component state, raise toasts
    and navigate.  They are embedded as state-passing functions over a [World]
    (the tables of the store, the replies the store is going to give, and a
    trace of everything the handler did), with the component state passed
    explicitly. *)

From Stdlib Require Import ZArith QArith String Ascii List Bool Lia.
From stdpp Require Import base option list sorting gmap strings.

Local Open Scope string_scope.
Local Open Scope Z_scope.

(** ** JavaScript strings

    Strings are sequences of code units; the embedding covers the code units
    0..255 (the Latin-1 range), one [ascii] per code unit. *)

Module Js.

Definition code (c : ascii) : N := N_of_ascii c.

(** WhiteSpace and LineTerminator code units of the range: TAB, LF, VT, FF,
    CR, SP and NBSP. *)
Definition isWhiteSpace (c : ascii) : bool :=
  let n := code c in
  ((9 <=? n) && (n <=? 13) || (n =? 32) || (n =? 160))%N.

Fixpoint trimStart (s : string) : string :=
  match s with
  | EmptyString => EmptyString
  | String c s' => if isWhiteSpace c then trimStart s' else s
  end.

Fixpoint trimEnd (s : string) : string :=
  match s with
  | EmptyString => EmptyString
  | String c s' =>
      match trimEnd s' with
      | EmptyString => if isWhiteSpace c then EmptyString else String c EmptyString
      | t => String c t
      end
  end.

(** [s.trim()] *)
Definition trim (s : string) : string := trimEnd (trimStart s).

(** Lower-casing of one code unit: A-Z, and the upper-case letters of the
    Latin-1 supplement (all of 0xC0..0xDE but the multiplication sign). *)
Definition lowerChar (c : ascii) : ascii :=
  let n := code c in
  if ((65 <=? n) && (n <=? 90) || (192 <=? n) && (n <=? 222) && negb (n =? 215))%N
  then ascii_of_N (n + 32) else c.

(** [s.toLowerCase()] *)
Fixpoint toLowerCase (s : string) : string :=
  match s with
  | EmptyString => EmptyString
  | String c s' => String (lowerChar c) (toLowerCase s')
  end.

(** [s.startsWith(t)] *)
Fixpoint startsWith (s t : string) {struct t} : bool :=
  match t, s with
  | EmptyString, _ => true
  | String _ _, EmptyString => false
  | String b t', String a s' => bool_decide (a = b) && startsWith s' t'
  end.

(** [s.includes(t)] *)
Fixpoint includes (s t : string) : bool :=
  startsWith s t ||
  match s with
  | EmptyString => false
  | String _ s' => includes s' t
  end.

(** Truthiness of a string: only the empty string is falsy. *)
Definition truthy (s : string) : bool :=
  match s with EmptyString => false | _ => true end.

(** [s || null] on a string *)
Definition or_null (s : string) : option string :=
  if truthy s then Some s else None.

(** ** JavaScript numbers

    A number is NaN, an infinity or a finite value.  Finite values are kept
    as exact rationals: the rounding of a finite non-zero value to the
    nearest double is not part of the embedding, but the two places where
    rounding changes the class of a value are, namely underflow to zero and
    overflow to an infinity. *)

Inductive number : Type :=
| NaN
| Infinity (negative : bool)
| Num (q : Q).

Definition isNaN (x : number) : bool :=
  match x with NaN => true | _ => false end.

(** [x <= 0] *)
Definition le_zero (x : number) : bool :=
  match x with
  | NaN => false
  | Infinity negative => negative
  | Num q => Qle_bool q 0
  end.

(** Half of the smallest positive double, and the midpoint between the
    largest finite double and 2^1024: at or below the first a magnitude
    rounds to zero, at or above the second it rounds to an infinity. *)
Definition underflow_bound : Q := 1 # (2 ^ 1075).
Definition overflow_bound : Q := inject_Z (2 ^ 1024 - 2 ^ 970).

(** The number a sign and an exact magnitude denote. *)
Definition toNumber (negative : bool) (magnitude : Q) : number :=
  if Qle_bool magnitude underflow_bound then Num 0
  else if Qle_bool overflow_bound magnitude then Infinity negative
  else Num (if negative then Qopp magnitude else magnitude).

Definition digitValue (c : ascii) : option Z :=
  let n := code c in
  if ((48 <=? n) && (n <=? 57))%N then Some (Z.of_N n - 48) else None.

Definition hexDigitValue (c : ascii) : option Z :=
  let n := code c in
  if ((48 <=? n) && (n <=? 57))%N then Some (Z.of_N n - 48)
  else if ((97 <=? n) && (n <=? 102))%N then Some (Z.of_N n - 87)
  else if ((65 <=? n) && (n <=? 70))%N then Some (Z.of_N n - 55)
  else None.

(** The longest prefix of [s] made of digits (as valued by [digit]), read in
    the given radix after the digits already accumulated in [acc]: the value,
    the number of digits read and the rest of the string. *)
Fixpoint readDigits (digit : ascii -> option Z) (radix : Z) (s : string)
    (acc : Z) (count : nat) : Z * nat * string :=
  match s with
  | EmptyString => (acc, count, s)
  | String c s' =>
      match digit c with
      | Some d => readDigits digit radix s' (radix * acc + d) (S count)
      | None => (acc, count, s)
      end
  end.

(** An optional sign in front of [s]: whether it is a minus, and the rest. *)
Definition readSign (s : string) : bool * string :=
  match s with
  | String "-" s' => (true, s')
  | String "+" s' => (false, s')
  | _ => (false, s)
  end.

(** [parseInt(s)] with no radix argument. *)
Definition parseInt (s : string) : number :=
  let '(negative, s1) := readSign (trimStart s) in
  let '(digit, radix, s2) :=
    match s1 with
    | String "0" (String "x" r) | String "0" (String "X" r) => (hexDigitValue, 16, r)
    | _ => (digitValue, 10, s1)
    end in
  let '(value, count, _) := readDigits digit radix s2 0 0%nat in
  match count with
  | O => NaN
  | _ => toNumber negative (inject_Z value)
  end.

(** The exponent part at the head of [s], if there is a complete one. *)
Definition readExponent (s : string) : Z :=
  match s with
  | String "e" r | String "E" r =>
      let '(negative, r1) := readSign r in
      let '(e, count, _) := readDigits digitValue 10 r1 0 0%nat in
      match count with
      | O => 0
      | _ => if negative then - e else e
      end
  | _ => 0
  end.

(** [10 ^ e] as a rational, for any integer [e]. *)
Definition pow10 (e : Z) : Q :=
  if 0 <=? e then inject_Z (10 ^ e) else 1 # Z.to_pos (10 ^ (- e)).

(** [parseFloat(s)]: the longest prefix of the trimmed string that is a
    decimal literal. *)
Definition parseFloat (s : string) : number :=
  let '(negative, s1) := readSign (trimStart s) in
  if startsWith s1 "Infinity" then Infinity negative else
  let '(int_value, int_count, s2) := readDigits digitValue 10 s1 0 0%nat in
  let '(mantissa, frac_count, s3) :=
    match s2 with
    | String "." r => readDigits digitValue 10 r int_value 0%nat
    | _ => (int_value, 0%nat, s2)
    end in
  match int_count, frac_count with
  | O, O => NaN
  | _, _ =>
      let e := readExponent s3 - Z.of_nat frac_count in
      toNumber negative (Qmult (inject_Z mantissa) (pow10 e))
  end.

End Js.

(** ** The database types

    The row types of the generated type mapping, with [string | null] as
    [option string] and the enumerations as inductive types. *)

Module Enums.

Inductive order_status : Type :=
| pending | confirmed | shipped | delivered | cancelled | reviewed.

Inductive product_type : Type := shoot | fruit.

Inductive user_role : Type := user | farm | admin.

#[global] Instance order_status_eq_dec : EqDecision order_status.
Proof. solve_decision. Defined.

#[global] Instance product_type_eq_dec : EqDecision product_type.
Proof. solve_decision. Defined.

(** The string each value is at run time. *)
Definition order_status_str (s : order_status) : string :=
  match s with
  | pending => "pending" | confirmed => "confirmed" | shipped => "shipped"
  | delivered => "delivered" | cancelled => "cancelled" | reviewed => "reviewed"
  end.

Definition product_type_str (t : product_type) : string :=
  match t with shoot => "shoot" | fruit => "fruit" end.

End Enums.

(** [Constants.public.Enums] *)
Module Constants.

Definition order_status : list Enums.order_status :=
  [Enums.pending; Enums.confirmed; Enums.shipped; Enums.delivered;
   Enums.cancelled; Enums.reviewed].

Definition product_type : list Enums.product_type := [Enums.shoot; Enums.fruit].

Definition user_role : list Enums.user_role := [Enums.user; Enums.farm; Enums.admin].

End Constants.

Module farm_profiles.

Record Row : Type := {
  created_at : option string;
  farm_description : option string;
  farm_image_url : option string;
  farm_location : string;
  farm_name : string;
  id : string;
  rating : option Js.number;
  total_reviews : option Js.number;
  total_sales : option Js.number;
  updated_at : option string;
  user_id : string;
  verified : option bool;
}.

(** The columns the program ever writes in an update of this table. *)
Module Update.
Record t : Type := {
  farm_name : string;
  farm_location : string;
  farm_description : option string;
}.
End Update.

Definition apply_update (u : Update.t) (r : Row) : Row :=
  {| created_at := created_at r;
     farm_description := Update.farm_description u;
     farm_image_url := farm_image_url r;
     farm_location := Update.farm_location u;
     farm_name := Update.farm_name u;
     id := id r;
     rating := rating r;
     total_reviews := total_reviews r;
     total_sales := total_sales r;
     updated_at := updated_at r;
     user_id := user_id r;
     verified := verified r |}.

End farm_profiles.

Module products.

Record Row : Type := {
  available_quantity : Js.number;
  created_at : option string;
  cultivar_id : option string;
  description : option string;
  expiry_date : option string;
  farm_id : string;
  harvest_date : string;
  id : string;
  image_url : option string;
  is_active : option bool;
  name : string;
  price_per_unit : Js.number;
  product_type : Enums.product_type;
  unit : string;
  updated_at : option string;
}.

(** The columns the program supplies in an insert into this table; the
    store fills in [id], [created_at] and [updated_at], and [cultivar_id]
    is left null. *)
Module Insert.
Record t : Type := {
  farm_id : string;
  name : string;
  description : option string;
  product_type : Enums.product_type;
  price_per_unit : Js.number;
  available_quantity : Js.number;
  unit : string;
  harvest_date : string;
  expiry_date : option string;
  image_url : option string;
  is_active : bool;
}.
End Insert.

(** The columns the program ever writes in an update of this table. *)
Module Update.
Record t : Type := { is_active : bool }.
End Update.

Definition new_row (uuid now : string) (i : Insert.t) : Row :=
  {| available_quantity := Insert.available_quantity i;
     created_at := Some now;
     cultivar_id := None;
     description := Insert.description i;
     expiry_date := Insert.expiry_date i;
     farm_id := Insert.farm_id i;
     harvest_date := Insert.harvest_date i;
     id := uuid;
     image_url := Insert.image_url i;
     is_active := Some (Insert.is_active i);
     name := Insert.name i;
     price_per_unit := Insert.price_per_unit i;
     product_type := Insert.product_type i;
     unit := Insert.unit i;
     updated_at := Some now |}.

Definition apply_update (u : Update.t) (r : Row) : Row :=
  {| available_quantity := available_quantity r;
     created_at := created_at r;
     cultivar_id := cultivar_id r;
     description := description r;
     expiry_date := expiry_date r;
     farm_id := farm_id r;
     harvest_date := harvest_date r;
     id := id r;
     image_url := image_url r;
     is_active := Some (Update.is_active u);
     name := name r;
     price_per_unit := price_per_unit r;
     product_type := product_type r;
     unit := unit r;
     updated_at := updated_at r |}.

End products.

Module profiles.

Record Row : Type := {
  address : option string;
  avatar_url : option string;
  created_at : option string;
  full_name : string;
  id : string;
  phone : option string;
  updated_at : option string;
}.

Definition apply_update (name : string) (phone' address' : option string)
    (r : Row) : Row :=
  {| address := address';
     avatar_url := avatar_url r;
     created_at := created_at r;
     full_name := name;
     id := id r;
     phone := phone';
     updated_at := updated_at r |}.

End profiles.

(** ** The store and what a handler does to the world

    A handler reaches the store only through requests.  Each request is
    answered by the next [outcome] of the world: the store either fails the
    request with an error object or serves it (for an insert, with the id
    and the timestamp it generates).  The outcomes are a stream indexed by
    the number of requests sent so far. *)

Record Db : Type := {
  db_products : list products.Row;
  db_farm_profiles : list farm_profiles.Row;
  db_profiles : list profiles.Row;
}.

(** The [error] of a reply: its message, and whether the client library
    hands it over as an instance of [Error]. *)
Record PostgrestError : Type := {
  instanceof_Error : bool;
  message : string;
}.

Inductive outcome : Type :=
| Fails (e : PostgrestError)
| Serves (uuid now : string).

Inductive request : Type :=
| ReqSelect (table : string)
| ReqInsertProduct (payload : products.Insert.t)
| ReqUpdateProduct (payload : products.Update.t) (id : string)
| ReqUpdateFarmProfile (payload : farm_profiles.Update.t) (id : string)
| ReqUpdateProfile (full_name : string) (phone address : option string) (id : string).

Inductive event : Type :=
| Sent (r : request)
| ToastError (msg : string)
| ToastSuccess (msg : string)
| Navigate (path : string).

Record World : Type := {
  db : Db;
  backend : nat -> outcome;
  clock : nat;
  trace : list event;
}.

Definition emit (e : event) (w : World) : World :=
  {| db := db w; backend := backend w; clock := clock w; trace := trace w ++ [e] |}.

Definition set_db (d : Db) (w : World) : World :=
  {| db := d; backend := backend w; clock := clock w; trace := trace w |}.

Definition tick (w : World) : World :=
  {| db := db w; backend := backend w; clock := S (clock w); trace := trace w |}.

(** The reply [{ data, error }] of an awaited request. *)
Record Reply (A : Type) : Type := {
  data : A;
  error : option PostgrestError;
}.
Arguments data {A} _.
Arguments error {A} _.

(** Sending a request: it is recorded, and the next outcome is taken. *)
Definition send (r : request) (w : World) : World * outcome :=
  (tick (emit (Sent r) w), backend w (clock w)).

(** *** Reading: [from(table).select(..)] narrowed by filters

    A selection is evaluated on the rows of its table when it is awaited;
    the filters and the ordering are list functions applied in the order the
    builder chains them. *)

Definition eq_ {R V : Type} `{EqDecision V} (column : R -> V) (value : V)
    (rows : list R) : list R :=
  filter (fun r => column r = value) rows.

Definition in_ {R V : Type} `{EqDecision V} (column : R -> V) (values : list V)
    (rows : list R) : list R :=
  filter (fun r => column r ∈ values) rows.

(** [order(column, { ascending: true })] on a date column.  Dates are
    ISO [YYYY-MM-DD] strings, whose order as dates is their order as
    strings. *)
Definition date_le {R : Type} (column : R -> string) : relation R :=
  fun r1 r2 => String.le (column r1) (column r2).

#[global] Instance date_le_dec {R : Type} (column : R -> string) :
  RelDecision (date_le column).
Proof. intros r1 r2. unfold date_le. apply _. Defined.

Definition order_asc {R : Type} (column : R -> string) (rows : list R) : list R :=
  merge_sort (date_le column) rows.

(** [order(column, { ascending: false })] on a nullable timestamp column:
    latest first, with the rows whose timestamp is null before all others,
    as the store orders a descending column.  Timestamps are ISO strings of
    one time zone, compared as strings. *)
Definition timestamp_ge (a b : option string) : Prop :=
  match a, b with
  | None, _ => True
  | Some _, None => False
  | Some x, Some y => String.le y x
  end.

Definition latest_first {R : Type} (column : R -> option string) : relation R :=
  fun r1 r2 => timestamp_ge (column r1) (column r2).

#[global] Instance timestamp_ge_dec : RelDecision timestamp_ge.
Proof. intros [a|] [b|]; simpl; apply _. Defined.

#[global] Instance latest_first_dec {R : Type} (column : R -> option string) :
  RelDecision (latest_first column).
Proof. intros r1 r2. unfold latest_first. apply _. Defined.

Definition order_desc {R : Type} (column : R -> option string) (rows : list R)
    : list R :=
  merge_sort (latest_first column) rows.

(** Awaiting a selection that yields all its rows. *)
Definition await_rows {R : Type} (table : string) (rows : Db -> list R)
    (w : World) : World * Reply (option (list R)) :=
  let '(w, o) := send (ReqSelect table) w in
  match o with
  | Fails e => (w, {| data := None; error := Some e |})
  | Serves _ _ => (w, {| data := Some (rows (db w)); error := None |})
  end.

(** Awaiting a selection ended by [maybeSingle()]: no row is a null
    [data], one row is that row, and more rows are an error, which the
    client hands over as a plain object, no instance of [Error]. *)
Definition multiple_rows : PostgrestError :=
  {| instanceof_Error := false;
     message := "JSON object requested, multiple (or no) rows returned" |}.

Definition await_maybeSingle {R : Type} (table : string) (rows : Db -> list R)
    (w : World) : World * Reply (option R) :=
  let '(w, o) := send (ReqSelect table) w in
  match o with
  | Fails e => (w, {| data := None; error := Some e |})
  | Serves _ _ =>
      match rows (db w) with
      | [] => (w, {| data := None; error := None |})
      | [r] => (w, {| data := Some r; error := None |})
      | _ => (w, {| data := None; error := Some multiple_rows |})
      end
  end.

(** *** Writing *)

Definition update_where {R : Type} (matches : R -> bool) (change : R -> R)
    (rows : list R) : list R :=
  map (fun r => if matches r then change r else r) rows.

(** [from("products").insert(payload)] *)
Definition await_insert_product (payload : products.Insert.t)
    (w : World) : World * option PostgrestError :=
  let '(w, o) := send (ReqInsertProduct payload) w in
  match o with
  | Fails e => (w, Some e)
  | Serves uuid now =>
      (set_db {| db_products := db_products (db w) ++ [products.new_row uuid now payload];
                 db_farm_profiles := db_farm_profiles (db w);
                 db_profiles := db_profiles (db w) |} w, None)
  end.

(** [from("products").update(payload).eq("id", id)] *)
Definition await_update_product (payload : products.Update.t) (id : string)
    (w : World) : World * option PostgrestError :=
  let '(w, o) := send (ReqUpdateProduct payload id) w in
  match o with
  | Fails e => (w, Some e)
  | Serves _ _ =>
      (set_db {| db_products :=
                   update_where (fun r => bool_decide (products.id r = id))
                     (products.apply_update payload) (db_products (db w));
                 db_farm_profiles := db_farm_profiles (db w);
                 db_profiles := db_profiles (db w) |} w, None)
  end.

(** [from("farm_profiles").update(payload).eq("id", id)] *)
Definition await_update_farm_profile (payload : farm_profiles.Update.t)
    (id : string) (w : World) : World * option PostgrestError :=
  let '(w, o) := send (ReqUpdateFarmProfile payload id) w in
  match o with
  | Fails e => (w, Some e)
  | Serves _ _ =>
      (set_db {| db_products := db_products (db w);
                 db_farm_profiles :=
                   update_where (fun r => bool_decide (farm_profiles.id r = id))
                     (farm_profiles.apply_update payload) (db_farm_profiles (db w));
                 db_profiles := db_profiles (db w) |} w, None)
  end.

(** [from("profiles").update(payload).eq("id", id)] *)
Definition await_update_profile (full_name : string) (phone address : option string)
    (id : string) (w : World) : World * option PostgrestError :=
  let '(w, o) := send (ReqUpdateProfile full_name phone address id) w in
  match o with
  | Fails e => (w, Some e)
  | Serves _ _ =>
      (set_db {| db_products := db_products (db w);
                 db_farm_profiles := db_farm_profiles (db w);
                 db_profiles :=
                   update_where (fun r => bool_decide (profiles.id r = id))
                     (profiles.apply_update full_name phone address)
                     (db_profiles (db w)) |} w, None)
  end.

(** The message a handler shows for a caught value:
    [error instanceof Error ? error.message : fallback]. *)
Definition message_of (e : PostgrestError) (fallback : string) : string :=
  if instanceof_Error e then message e else fallback.

(** *** Handlers as computations

    A handler runs against the world and the state of its component.  It
    either throws or returns; [await] never throws by itself, the handlers
    throw the [error] of a reply themselves. *)

Definition Eff (S A : Type) : Type :=
  World * S -> World * S * (PostgrestError + A).

#[global] Instance Eff_ret {S : Type} : MRet (Eff S) := fun A a ws => (ws, inr a).

#[global] Instance Eff_bind {S : Type} : MBind (Eff S) := fun A B k m ws =>
  match m ws with
  | (ws', inl e) => (ws', inl e)
  | (ws', inr a) => k a ws'
  end.

Section Eff.
Context {S : Type}.

Definition throw {A : Type} (e : PostgrestError) : Eff S A :=
  fun ws => (ws, inl e).

(** [if (error) throw error;] *)
Definition throw_if (error : option PostgrestError) : Eff S unit :=
  match error with
  | Some e => throw e
  | None => mret tt
  end.

Definition await {A : Type} (call : World -> World * A) : Eff S A :=
  fun '(w, s) => let '(w', a) := call w in (w', s, inr a).

Definition action (e : event) : Eff S unit :=
  fun '(w, s) => (emit e w, s, inr tt).

Definition toast_error (msg : string) : Eff S unit := action (ToastError msg).
Definition toast_success (msg : string) : Eff S unit := action (ToastSuccess msg).
Definition navigate (path : string) : Eff S unit := action (Navigate path).

(** Reading the component state, and a state setter of the component. *)
Definition state : Eff S S := fun '(w, s) => (w, s, inr s).

Definition set (f : S -> S) : Eff S unit := fun '(w, s) => (w, f s, inr tt).

(** [try { body } catch (error) { handler } finally { cleanup }] *)
Definition try_catch_finally (body : Eff S unit)
    (handler : PostgrestError -> Eff S unit) (cleanup : Eff S unit) : Eff S unit :=
  fun ws =>
    match body ws with
    | (ws1, inr _) => cleanup ws1
    | (ws1, inl e) =>
        match handler e ws1 with
        | (ws2, inr _) => cleanup ws2
        | (ws2, inl e') =>
            match cleanup ws2 with
            | (ws3, inr _) => (ws3, inl e')
            | (ws3, inl e'') => (ws3, inl e'')
            end
        end
    end.

(** [try { body } catch (error) { handler }] *)
Definition try_catch (body : Eff S unit)
    (handler : PostgrestError -> Eff S unit) : Eff S unit :=
  try_catch_finally body handler (mret tt).

End Eff.

(** An event handler of a component with state [S]. *)
Definition Handler (S : Type) : Type := Eff S unit.

(** The world and the component state a handler leaves. *)
Definition run {S : Type} (h : Handler S) (w : World) (s : S) : World * S :=
  fst (h (w, s)).

(** ** Market: the public catalog *)

Module Market.

(** The farm attached to a product: the columns selected from
    [farm_profiles], or the placeholder object, which has no [user_id]. *)
Record Farm : Type := {
  user_id : option string;
  farm_name : string;
  farm_location : string;
  rating : option Js.number;
}.

(** A product of the component state: the spread row and [farm_profiles]. *)
Record Product : Type := {
  row : products.Row;
  farm_profiles : Farm;
}.

Record State : Type := {
  products : list Product;
  loading : bool;
  search : string;
  typeFilter : string;
}.

Definition initial : State :=
  {| products := []; loading := true; search := ""; typeFilter := "all" |}.

Definition setProducts (ps : list Product) (st : State) : State :=
  {| products := ps; loading := loading st; search := search st;
     typeFilter := typeFilter st |}.

Definition setLoading (b : bool) (st : State) : State :=
  {| products := products st; loading := b; search := search st;
     typeFilter := typeFilter st |}.

Definition setSearch (s : string) (st : State) : State :=
  {| products := products st; loading := loading st; search := s;
     typeFilter := typeFilter st |}.

Definition setTypeFilter (s : string) (st : State) : State :=
  {| products := products st; loading := loading st; search := search st;
     typeFilter := s |}.

(** [select("user_id, farm_name, farm_location, rating")] *)
Definition selected (f : farm_profiles.Row) : Farm :=
  {| user_id := Some (farm_profiles.user_id f);
     farm_name := farm_profiles.farm_name f;
     farm_location := farm_profiles.farm_location f;
     rating := farm_profiles.rating f |}.

Definition unknown_farm : Farm :=
  {| user_id := None;
     farm_name := "Unknown Farm";
     farm_location := "Unknown";
     rating := Some (Js.Num 0) |}.

(** [[...new Set(xs)]]: the distinct elements, in order of first occurrence. *)
Fixpoint distinct (seen xs : list string) : list string :=
  match xs with
  | [] => []
  | x :: xs' =>
      if decide (x ∈ seen) then distinct seen xs' else x :: distinct (x :: seen) xs'
  end.

(** [new Map(entries)]: a later entry replaces an earlier one of the same key. *)
Definition new_Map {V : Type} (entries : list (string * V)) : gmap string V :=
  fold_left (fun m kv => <[kv.1 := kv.2]> m) entries ∅.

Definition active_products (d : Db) : list products.Row :=
  order_asc products.harvest_date
    (eq_ products.is_active (Some true) (db_products d)).

Definition farms_of (farmIds : list string) (d : Db) : list farm_profiles.Row :=
  in_ farm_profiles.user_id farmIds (db_farm_profiles d).

Definition with_farm (farmMap : gmap string farm_profiles.Row)
    (p : products.Row) : Product :=
  {| row := p;
     farm_profiles :=
       match farmMap !! products.farm_id p with
       | Some f => selected f
       | None => unknown_farm
       end |}.

Definition fetchProducts : Handler State :=
  try_catch_finally
    (products_reply ← await (await_rows "products" active_products);
     throw_if (error products_reply);;
     let productsData := data products_reply in
     (* Fetch farm profiles separately *)
     let farmIds := distinct [] (products.farm_id <$> default [] productsData) in
     farms_reply ← await (await_rows "farm_profiles" (farms_of farmIds));
     throw_if (error farms_reply);;
     let farmsData := data farms_reply in
     (* Map farms to products *)
     let farmMap :=
       new_Map ((fun f => (farm_profiles.user_id f, f)) <$> default [] farmsData) in
     let productsWithFarms := with_farm farmMap <$> default [] productsData in
     set (setProducts productsWithFarms))
    (fun _ => toast_error "Failed to load products")
    (set (setLoading false)).

Definition matchesSearch (search : string) (p : Product) : bool :=
  Js.includes (Js.toLowerCase (products.name (row p))) (Js.toLowerCase search)
  || Js.includes (Js.toLowerCase (farm_name (farm_profiles p)))
       (Js.toLowerCase search).

Definition matchesType (typeFilter : string) (p : Product) : bool :=
  bool_decide (typeFilter = "all")
  || bool_decide (Enums.product_type_str (products.product_type (row p)) = typeFilter).

Definition filteredProducts (st : State) : list Product :=
  List.filter
    (fun p => matchesSearch (search st) p && matchesType (typeFilter st) p)
    (products st).

End Market.

(** ** ProductDetail: one product of the catalog *)

Module ProductDetail.

(** [select("id, farm_name, farm_location, rating, verified")] *)
Record Farm : Type := {
  id : string;
  farm_name : string;
  farm_location : string;
  rating : option Js.number;
  verified : option bool;
}.

Record Product : Type := {
  row : products.Row;
  farm_profiles : option Farm;
}.

Record State : Type := {
  loading : bool;
  product : option Product;
}.

Definition initial : State := {| loading := true; product := None |}.

Definition setProduct (p : option Product) (st : State) : State :=
  {| loading := loading st; product := p |}.

Definition setLoading (b : bool) (st : State) : State :=
  {| loading := b; product := product st |}.

Definition selected (f : farm_profiles.Row) : Farm :=
  {| id := farm_profiles.id f;
     farm_name := farm_profiles.farm_name f;
     farm_location := farm_profiles.farm_location f;
     rating := farm_profiles.rating f;
     verified := farm_profiles.verified f |}.

Definition active_product (id : string) (d : Db) : list products.Row :=
  eq_ products.is_active (Some true) (eq_ products.id id (db_products d)).

Definition farm_of (farm_id : string) (d : Db) : list Farm :=
  selected <$> eq_ farm_profiles.id farm_id (db_farm_profiles d).

(** [id] is the route parameter. *)
Definition loadProduct (id : string) : Handler State :=
  try_catch_finally
    ((* First get the product *)
     product_reply ← await (await_maybeSingle "products" (active_product id));
     throw_if (error product_reply);;
     match data product_reply with
     | None =>
         toast_error "Product not found";;
         navigate "/market"
     | Some productData =>
         (* Then get the farm profile *)
         farm_reply ← await (await_maybeSingle "farm_profiles"
                               (farm_of (products.farm_id productData)));
         throw_if (error farm_reply);;
         let data := {| row := productData; farm_profiles := data farm_reply |} in
         set (setProduct (Some data))
     end)
    (fun error =>
       toast_error (message_of error "Failed to load product");;
       navigate "/market")
    (set (setLoading false)).

End ProductDetail.

(** ** AddProduct: creating a product *)

Module AddProduct.

Record FormData : Type := {
  name : string;
  description : string;
  product_type : Enums.product_type;
  price_per_unit : string;
  available_quantity : string;
  unit : string;
  harvest_date : string;
  expiry_date : string;
  image_url : string;
}.

Record State : Type := {
  loading : bool;
  submitting : bool;
  farmId : option string;
  formData : FormData;
}.

Definition initial : State :=
  {| loading := true;
     submitting := false;
     farmId := None;
     formData :=
       {| name := ""; description := ""; product_type := Enums.fruit;
          price_per_unit := ""; available_quantity := ""; unit := "kg";
          harvest_date := ""; expiry_date := ""; image_url := "" |} |}.

Definition setLoading (b : bool) (st : State) : State :=
  {| loading := b; submitting := submitting st; farmId := farmId st;
     formData := formData st |}.

Definition setSubmitting (b : bool) (st : State) : State :=
  {| loading := loading st; submitting := b; farmId := farmId st;
     formData := formData st |}.

Definition setFarmId (id : option string) (st : State) : State :=
  {| loading := loading st; submitting := submitting st; farmId := id;
     formData := formData st |}.

Definition setFormData (f : FormData) (st : State) : State :=
  {| loading := loading st; submitting := submitting st; farmId := farmId st;
     formData := f |}.

(** [select("id")] of the farm profile of an account. *)
Definition farm_id_of (user_id : string) (d : Db) : list string :=
  farm_profiles.id <$> eq_ farm_profiles.user_id user_id (db_farm_profiles d).

(** [session] is the id of the signed-in account, if there is a session. *)
Definition checkFarmProfile (session : option string) : Handler State :=
  try_catch_finally
    (match session with
     | None => navigate "/auth/login"
     | Some user_id =>
         reply ← await (await_maybeSingle "farm_profiles" (farm_id_of user_id));
         throw_if (error reply);;
         match data reply with
         | None =>
             toast_error "You don't have a farm profile";;
             navigate "/dashboard"
         | Some farm_id => set (setFarmId (Some farm_id))
         end
     end)
    (fun error =>
       toast_error (message_of error "Failed to load farm profile");;
       navigate "/dashboard")
    (set (setLoading false)).

Definition handleSubmit : Handler State :=
  st ← state;
  let formData := formData st in
  match farmId st with
  | None | Some EmptyString => toast_error "No farm profile found"
  | Some farmId =>
      if negb (Js.truthy (Js.trim (name formData))) then
        toast_error "Product name is required"
      else
        let price := Js.parseFloat (price_per_unit formData) in
        if Js.isNaN price || Js.le_zero price then
          toast_error "Price must be greater than 0"
        else
          let quantity := Js.parseInt (available_quantity formData) in
          if Js.isNaN quantity || Js.le_zero quantity then
            toast_error "Quantity must be greater than 0"
          else if negb (Js.truthy (harvest_date formData)) then
            toast_error "Harvest date is required"
          else
            set (setSubmitting true);;
            try_catch_finally
              (error ← await (await_insert_product
                 {| products.Insert.farm_id := farmId;
                    products.Insert.name := Js.trim (name formData);
                    products.Insert.description :=
                      Js.or_null (Js.trim (description formData));
                    products.Insert.product_type := product_type formData;
                    products.Insert.price_per_unit := price;
                    products.Insert.available_quantity := quantity;
                    products.Insert.unit := unit formData;
                    products.Insert.harvest_date := harvest_date formData;
                    products.Insert.expiry_date := Js.or_null (expiry_date formData);
                    products.Insert.image_url :=
                      Js.or_null (Js.trim (image_url formData));
                    products.Insert.is_active := true |});
               throw_if error;;
               toast_success "Product added successfully";;
               navigate "/farm/products")
              (fun error => toast_error (message_of error "Failed to add product"))
              (set (setSubmitting false))
  end.

End AddProduct.

(** ** ManageProducts: a farm's own products *)

Module ManageProducts.

(** [select("id, name, product_type, price_per_unit, available_quantity,
    unit, harvest_date, is_active")] *)
Record Product : Type := {
  id : string;
  name : string;
  product_type : string;
  price_per_unit : Js.number;
  available_quantity : Js.number;
  unit : string;
  harvest_date : string;
  is_active : option bool;
}.

Record State : Type := {
  loading : bool;
  products : list Product;
  farmId : option string;
}.

Definition setProducts (ps : list Product) (st : State) : State :=
  {| loading := loading st; products := ps; farmId := farmId st |}.

Definition with_is_active (b : bool) (p : Product) : Product :=
  {| id := id p; name := name p; product_type := product_type p;
     price_per_unit := price_per_unit p;
     available_quantity := available_quantity p; unit := unit p;
     harvest_date := harvest_date p; is_active := Some b |}.

(** Truthiness of a [boolean | null]. *)
Definition truthy (b : option bool) : bool := default false b.

Definition toggleActive (productId : string) (currentState : option bool)
    : Handler State :=
  st ← state;
  try_catch
    (error ← await (await_update_product
       {| products.Update.is_active := negb (truthy currentState) |} productId);
     throw_if error;;
     set (setProducts
            ((fun p => if decide (id p = productId)
                       then with_is_active (negb (truthy currentState)) p
                       else p) <$> products st));;
     toast_success (if truthy currentState then "Product deactivated"
                    else "Product activated"))
    (fun error => toast_error (message_of error "Failed to update product")).

(** [confirmed] is the answer to the confirmation dialog. *)
Definition deleteProduct (confirmed : bool) (productId : string) : Handler State :=
  st ← state;
  if negb confirmed then mret tt
  else
    try_catch
      ((* Soft delete by setting is_active to false *)
       error ← await (await_update_product
         {| products.Update.is_active := false |} productId);
       throw_if error;;
       set (setProducts (filter (fun p => id p ≠ productId) (products st)));;
       toast_success "Product deleted")
      (fun error => toast_error (message_of error "Failed to delete product")).

Definition setLoading (b : bool) (st : State) : State :=
  {| loading := b; products := products st; farmId := farmId st |}.

Definition setFarmId (id : option string) (st : State) : State :=
  {| loading := loading st; products := products st; farmId := id |}.

(** The selected columns of a product row. *)
Definition selected (r : products.Row) : Product :=
  {| id := products.id r;
     name := products.name r;
     product_type := Enums.product_type_str (products.product_type r);
     price_per_unit := products.price_per_unit r;
     available_quantity := products.available_quantity r;
     unit := products.unit r;
     harvest_date := products.harvest_date r;
     is_active := products.is_active r |}.

(** The products of a farm, latest created first. *)
Definition products_of_farm (farm_id : string) (d : Db) : list Product :=
  selected <$> order_desc products.created_at
                 (eq_ products.farm_id farm_id (db_products d)).

(** [session] is the id of the signed-in account, if there is a session. *)
Definition loadProducts (session : option string) : Handler State :=
  try_catch_finally
    (match session with
     | None => navigate "/auth/login"
     | Some user_id =>
         farm_reply ← await (await_maybeSingle "farm_profiles"
                               (AddProduct.farm_id_of user_id));
         throw_if (error farm_reply);;
         match data farm_reply with
         | None =>
             toast_error "No farm profile found";;
             navigate "/dashboard"
         | Some farm_id =>
             set (setFarmId (Some farm_id));;
             reply ← await (await_rows "products" (products_of_farm farm_id));
             throw_if (error reply);;
             set (setProducts (default [] (data reply)))
         end
     end)
    (fun error => toast_error (message_of error "Failed to load products"))
    (set (setLoading false)).

(** The toggle button of a row of the table: it passes the [is_active] the
    view holds for the product. *)
Definition toggle_button (product : Product) : Handler State :=
  toggleActive (id product) (is_active product).

(** The delete button of a row of the table. *)
Definition delete_button (confirmed : bool) (product : Product) : Handler State :=
  deleteProduct confirmed (id product).

End ManageProducts.

(** ** UpdateProfile: the account's profile and its farm profile *)

Module UpdateProfile.

Record ProfileForm : Type := {
  full_name : string;
  phone : string;
  address : string;
}.

Record FarmForm : Type := {
  farm_name : string;
  farm_location : string;
  farm_description : string;
}.

Record State : Type := {
  loading : bool;
  saving : bool;
  profile : option profiles.Row;
  farmProfile : option farm_profiles.Row;
  isFarm : bool;
  profileForm : ProfileForm;
  farmForm : FarmForm;
}.

Definition setSaving (b : bool) (st : State) : State :=
  {| loading := loading st; saving := b; profile := profile st;
     farmProfile := farmProfile st; isFarm := isFarm st;
     profileForm := profileForm st; farmForm := farmForm st |}.

Definition saveProfile : Handler State :=
  st ← state;
  let profileForm := profileForm st in
  match profile st with
  | None => mret tt
  | Some profile =>
      if negb (Js.truthy (Js.trim (full_name profileForm))) then
        toast_error "Name is required"
      else
        set (setSaving true);;
        try_catch_finally
          (error ← await (await_update_profile
             (Js.trim (full_name profileForm))
             (Js.or_null (Js.trim (phone profileForm)))
             (Js.or_null (Js.trim (address profileForm)))
             (profiles.id profile));
           throw_if error;;
           toast_success "Profile updated")
          (fun error => toast_error (message_of error "Failed to update profile"))
          (set (setSaving false))
  end.

Definition saveFarmProfile : Handler State :=
  st ← state;
  let farmForm := farmForm st in
  match farmProfile st with
  | None => mret tt
  | Some farmProfile =>
      if negb (Js.truthy (Js.trim (farm_name farmForm))) then
        toast_error "Farm name is required"
      else if negb (Js.truthy (Js.trim (farm_location farmForm))) then
        toast_error "Farm location is required"
      else
        set (setSaving true);;
        try_catch_finally
          (error ← await (await_update_farm_profile
             {| farm_profiles.Update.farm_name := Js.trim (farm_name farmForm);
                farm_profiles.Update.farm_location :=
                  Js.trim (farm_location farmForm);
                farm_profiles.Update.farm_description :=
                  Js.or_null (Js.trim (farm_description farmForm)) |}
             (farm_profiles.id farmProfile));
           throw_if error;;
           toast_success "Farm profile updated")
          (fun error =>
             toast_error (message_of error "Failed to update farm profile"))
          (set (setSaving false))
  end.

Definition setLoading (b : bool) (st : State) : State :=
  {| loading := b; saving := saving st; profile := profile st;
     farmProfile := farmProfile st; isFarm := isFarm st;
     profileForm := profileForm st; farmForm := farmForm st |}.

Definition setProfile (p : option profiles.Row) (st : State) : State :=
  {| loading := loading st; saving := saving st; profile := p;
     farmProfile := farmProfile st; isFarm := isFarm st;
     profileForm := profileForm st; farmForm := farmForm st |}.

Definition setProfileForm (f : ProfileForm) (st : State) : State :=
  {| loading := loading st; saving := saving st; profile := profile st;
     farmProfile := farmProfile st; isFarm := isFarm st;
     profileForm := f; farmForm := farmForm st |}.

Definition setFarmProfile (p : option farm_profiles.Row) (st : State) : State :=
  {| loading := loading st; saving := saving st; profile := profile st;
     farmProfile := p; isFarm := isFarm st;
     profileForm := profileForm st; farmForm := farmForm st |}.

Definition setIsFarm (b : bool) (st : State) : State :=
  {| loading := loading st; saving := saving st; profile := profile st;
     farmProfile := farmProfile st; isFarm := b;
     profileForm := profileForm st; farmForm := farmForm st |}.

Definition setFarmForm (f : FarmForm) (st : State) : State :=
  {| loading := loading st; saving := saving st; profile := profile st;
     farmProfile := farmProfile st; isFarm := isFarm st;
     profileForm := profileForm st; farmForm := f |}.

Definition initial : State :=
  {| loading := true; saving := false; profile := None; farmProfile := None;
     isFarm := false;
     profileForm := {| full_name := ""; phone := ""; address := "" |};
     farmForm := {| farm_name := ""; farm_location := ""; farm_description := "" |} |}.

(** [s || ""] on a [string | null] *)
Definition or_empty (s : option string) : string := default "" s.

Definition profile_of (user_id : string) (d : Db) : list profiles.Row :=
  eq_ profiles.id user_id (db_profiles d).

Definition farm_profile_of (user_id : string) (d : Db) : list farm_profiles.Row :=
  eq_ farm_profiles.user_id user_id (db_farm_profiles d).

(** [session] is the id of the signed-in account, if there is a session. *)
Definition loadProfiles (session : option string) : Handler State :=
  try_catch_finally
    (match session with
     | None => navigate "/auth/login"
     | Some user_id =>
         (* Load user profile *)
         profile_reply ← await (await_maybeSingle "profiles" (profile_of user_id));
         throw_if (error profile_reply);;
         match data profile_reply with
         | Some profileData =>
             set (setProfile (Some profileData));;
             set (setProfileForm
                    {| full_name := profiles.full_name profileData;
                       phone := or_empty (profiles.phone profileData);
                       address := or_empty (profiles.address profileData) |})
         | None => mret tt
         end;;
         (* Check for farm profile *)
         farm_reply ← await (await_maybeSingle "farm_profiles"
                               (farm_profile_of user_id));
         throw_if (error farm_reply);;
         match data farm_reply with
         | Some farmData =>
             set (setFarmProfile (Some farmData));;
             set (setIsFarm true);;
             set (setFarmForm
                    {| farm_name := farm_profiles.farm_name farmData;
                       farm_location := farm_profiles.farm_location farmData;
                       farm_description :=
                         or_empty (farm_profiles.farm_description farmData) |})
         | None => mret tt
         end
     end)
    (fun error => toast_error (message_of error "Failed to load profile"))
    (set (setLoading false)).

End UpdateProfile.

(** ** Orders

    The program never writes an order.  The handlers that read the
    [orders] table take its rows as an argument; their requests go through
    the world like every other request. *)

Module orders.

Record Row : Type := {
  cancellation_reason : option string;
  cancelled_at : option string;
  confirmed_at : option string;
  created_at : option string;
  delivered_at : option string;
  delivery_address : string;
  delivery_notes : option string;
  farm_id : string;
  id : string;
  product_id : string;
  quantity : Js.number;
  shipped_at : option string;
  status : Enums.order_status;
  total_price : Js.number;
  tracking_number : option string;
  updated_at : option string;
  user_id : string;
}.

End orders.

(** ** Objects used as tables of strings

    [table[key]] on an object literal whose values are strings: the value of
    the own property of that name, or else the member of that name that
    every object inherits, which is not a string, or else undefined. *)

Module JsObject.

Definition inherited : list string :=
  ["constructor"; "__defineGetter__"; "__defineSetter__"; "hasOwnProperty";
   "__lookupGetter__"; "__lookupSetter__"; "isPrototypeOf";
   "propertyIsEnumerable"; "toString"; "valueOf"; "__proto__";
   "toLocaleString"].

Inductive value : Type :=
| Str (s : string)
| Inherited (name : string).

Fixpoint own (table : list (string * string)) (key : string) : option string :=
  match table with
  | [] => None
  | (k, v) :: rest =>
      match own rest key with
      | Some v' => Some v'
      | None => if decide (k = key) then Some v else None
      end
  end.

Definition get (table : list (string * string)) (key : string) : option value :=
  match own table key with
  | Some v => Some (Str v)
  | None => if decide (key ∈ inherited) then Some (Inherited key) else None
  end.

(** [table[key] || fallback] *)
Definition get_or (table : list (string * string)) (key fallback : string) : value :=
  match get table key with
  | Some (Str v) => if Js.truthy v then Str v else Str fallback
  | Some (Inherited name) => Inherited name
  | None => Str fallback
  end.

End JsObject.

(** ** Dashboard: the buyer's orders *)

Module Dashboard.

Definition colors : list (string * string) :=
  [ ("pending", "bg-yellow-100 text-yellow-800");
    ("confirmed", "bg-blue-100 text-blue-800");
    ("shipped", "bg-purple-100 text-purple-800");
    ("delivered", "bg-green-100 text-green-800");
    ("cancelled", "bg-red-100 text-red-800") ].

Definition getStatusColor (status : string) : JsObject.value :=
  JsObject.get_or colors status "bg-gray-100 text-gray-800".

End Dashboard.

(** ** FarmOrders: the orders a farm received *)

Module FarmOrders.

(** An order of the component state: the selected columns, the name of the
    product the order references and the name of the buyer's profile. *)
Record Order : Type := {
  id : string;
  user_id : string;
  status : string;
  total_price : Js.number;
  quantity : Js.number;
  created_at : option string;
  products : option string;
  profiles : option string;
}.

Record State : Type := {
  loading : bool;
  orders : list Order;
}.

Definition initial : State := {| loading := true; orders := [] |}.

Definition setLoading (b : bool) (st : State) : State :=
  {| loading := b; orders := orders st |}.

Definition setOrders (l : list Order) (st : State) : State :=
  {| loading := loading st; orders := l |}.

(** The embedded [products (name)] of an order: the name of the product
    whose [id] is the order's [product_id]. *)
Definition product_name (d : Db) (o : orders.Row) : option string :=
  products.name <$> head (eq_ products.id (orders.product_id o) (db_products d)).

(** The selected columns, before the buyer's profile is fetched. *)
Definition selected (d : Db) (o : orders.Row) : Order :=
  {| id := orders.id o;
     user_id := orders.user_id o;
     status := Enums.order_status_str (orders.status o);
     total_price := orders.total_price o;
     quantity := orders.quantity o;
     created_at := orders.created_at o;
     products := product_name d o;
     profiles := None |}.

Definition orders_of_farm (table : list orders.Row) (farm_id : string) (d : Db)
    : list Order :=
  selected d <$> order_desc orders.created_at (eq_ orders.farm_id farm_id table).

Definition full_name_of (user_id : string) (d : Db) : list string :=
  profiles.full_name <$> eq_ profiles.id user_id (db_profiles d).

Definition with_profile (profile : option string) (order : Order) : Order :=
  {| id := id order; user_id := user_id order; status := status order;
     total_price := total_price order; quantity := quantity order;
     created_at := created_at order; products := products order;
     profiles := profile |}.

(** The callback of the map over the orders: it fetches the profile of the
    buyer of one order and ignores the error of the reply. *)
Definition with_buyer (order : Order) : Eff State Order :=
  profile_reply ← await (await_maybeSingle "profiles"
                           (full_name_of (user_id order)));
  mret (with_profile (data profile_reply) order).

(** [session] is the id of the signed-in account, if there is a session,
    and [table] the rows of the [orders] table. *)
Definition loadOrders (session : option string) (table : list orders.Row)
    : Handler State :=
  try_catch_finally
    (match session with
     | None => navigate "/auth/login"
     | Some account =>
         farm_reply ← await (await_maybeSingle "farm_profiles"
                               (AddProduct.farm_id_of account));
         throw_if (error farm_reply);;
         match data farm_reply with
         | None =>
             toast_error "No farm profile found";;
             navigate "/dashboard"
         | Some farm_id =>
             (* Get orders *)
             orders_reply ← await (await_rows "orders" (orders_of_farm table farm_id));
             throw_if (error orders_reply);;
             (* Fetch profiles for each order *)
             ordersWithProfiles ←
               mapM with_buyer (default [] (data orders_reply));
             set (setOrders ordersWithProfiles)
         end
     end)
    (fun error => toast_error (message_of error "Failed to load orders"))
    (set (setLoading false)).

Definition colors : list (string * string) :=
  [ ("pending", "bg-yellow-100 text-yellow-800");
    ("confirmed", "bg-blue-100 text-blue-800");
    ("shipped", "bg-purple-100 text-purple-800");
    ("delivered", "bg-green-100 text-green-800");
    ("cancelled", "bg-red-100 text-red-800");
    ("reviewed", "bg-emerald-100 text-emerald-800") ].

Definition getStatusColor (status : string) : JsObject.value :=
  JsObject.get_or colors status "bg-gray-100 text-gray-800".

(** The customer and product cells of a row of the table. *)
Definition customer_cell (order : Order) : string :=
  match profiles order with
  | Some full_name => if Js.truthy full_name then full_name else "Unknown"
  | None => "Unknown"
  end.

Definition product_cell (order : Order) : string :=
  match products order with
  | Some name => if Js.truthy name then name else "N/A"
  | None => "N/A"
  end.

End FarmOrders.

(** ** FarmDashboard: a farm's figures *)

Module FarmDashboard.

Record Stats : Type := {
  totalProducts : nat;
  activeProducts : nat;
  totalOrders : nat;
  pendingOrders : nat;
}.

Record State : Type := {
  loading : bool;
  farm : option farm_profiles.Row;
  stats : Stats;
}.

Definition initial : State :=
  {| loading := true;
     farm := None;
     stats := {| totalProducts := 0; activeProducts := 0;
                 totalOrders := 0; pendingOrders := 0 |} |}.

Definition setLoading (b : bool) (st : State) : State :=
  {| loading := b; farm := farm st; stats := stats st |}.

Definition setFarm (f : option farm_profiles.Row) (st : State) : State :=
  {| loading := loading st; farm := f; stats := stats st |}.

Definition setStats (s : Stats) (st : State) : State :=
  {| loading := loading st; farm := farm st; stats := s |}.

Definition farm_of_account (account : string) (d : Db) : list farm_profiles.Row :=
  eq_ farm_profiles.user_id account (db_farm_profiles d).

(** [select("id, is_active")] of the products of a farm. *)
Definition product_flags (farm_id : string) (d : Db) : list (string * option bool) :=
  (fun p => (products.id p, products.is_active p))
  <$> eq_ products.farm_id farm_id (db_products d).

(** [select("id, status")] of the orders of a farm. *)
Definition order_statuses (table : list orders.Row) (farm_id : string) (d : Db)
    : list (string * string) :=
  (fun o => (orders.id o, Enums.order_status_str (orders.status o)))
  <$> eq_ orders.farm_id farm_id table.

(** [rows?.length || 0] *)
Definition count {A : Type} (rows : option (list A)) : nat :=
  match rows with
  | Some l => length l
  | None => 0
  end.

(** [rows?.filter(keep).length || 0] *)
Definition count_if {A : Type} (keep : A -> bool) (rows : option (list A)) : nat :=
  match rows with
  | Some l => length (List.filter keep l)
  | None => 0
  end.

(** [session] is the id of the signed-in account, if there is a session,
    and [table] the rows of the [orders] table. *)
Definition loadFarmData (session : option string) (table : list orders.Row)
    : Handler State :=
  try_catch_finally
    (match session with
     | None => navigate "/auth/login"
     | Some account =>
         (* Get farm profile *)
         farm_reply ← await (await_maybeSingle "farm_profiles"
                               (farm_of_account account));
         throw_if (error farm_reply);;
         match data farm_reply with
         | None =>
             toast_error "No farm profile found";;
             navigate "/dashboard"
         | Some farmData =>
             set (setFarm (Some farmData));;
             (* Get product stats *)
             products_reply ← await (await_rows "products"
                                 (product_flags (farm_profiles.id farmData)));
             throw_if (error products_reply);;
             (* Get order stats *)
             orders_reply ← await (await_rows "orders"
                               (order_statuses table (farm_profiles.id farmData)));
             throw_if (error orders_reply);;
             let products := data products_reply in
             let orders := data orders_reply in
             set (setStats
                    {| totalProducts := count products;
                       activeProducts :=
                         count_if (fun p => ManageProducts.truthy p.2) products;
                       totalOrders := count orders;
                       pendingOrders :=
                         count_if (fun o => bool_decide (o.2 = "pending")) orders |})
         end
     end)
    (fun error => toast_error (message_of error "Failed to load farm data"))
    (set (setLoading false)).

End FarmDashboard.

(** * Vocabulary of the properties *)







(** The store serves the [k]-th request from now. *)
Definition serves (w : World) (k : nat) : bool :=
  match backend w (k + clock w) with
  | Serves _ _ => true
  | Fails _ => false
  end.

(** The catalog the store holds: the active products by harvest date, each
    with the farm profile that [fetchProducts] finds for it. *)
Definition catalog (d : Db) : list Market.Product :=
  let productsData := Market.active_products d in
  let farmIds := Market.distinct [] (products.farm_id <$> productsData) in
  let farmsData := Market.farms_of farmIds d in
  Market.with_farm
    (Market.new_Map ((fun f => (farm_profiles.user_id f, f)) <$> farmsData))
  <$> productsData.

(** Harvest dates do not decrease along a list of catalog products. *)
Definition by_harvest_date : relation Market.Product :=
  fun p q => String.le (products.harvest_date (Market.row p))
                       (products.harvest_date (Market.row q)).

(** The checks [handleSubmit] makes on the form before it inserts. *)
Definition passes_validation (f : AddProduct.FormData) : Prop :=
  Js.trim (AddProduct.name f) <> "" /\
  Js.isNaN (Js.parseFloat (AddProduct.price_per_unit f)) = false /\
  Js.le_zero (Js.parseFloat (AddProduct.price_per_unit f)) = false /\
  Js.isNaN (Js.parseInt (AddProduct.available_quantity f)) = false /\
  Js.le_zero (Js.parseInt (AddProduct.available_quantity f)) = false /\
  AddProduct.harvest_date f <> "".

(** The payload [handleSubmit] builds from the form. *)
Definition payload_of (farmId : string) (f : AddProduct.FormData) : products.Insert.t :=
  {| products.Insert.farm_id := farmId;
     products.Insert.name := Js.trim (AddProduct.name f);
     products.Insert.description := Js.or_null (Js.trim (AddProduct.description f));
     products.Insert.product_type := AddProduct.product_type f;
     products.Insert.price_per_unit := Js.parseFloat (AddProduct.price_per_unit f);
     products.Insert.available_quantity :=
       Js.parseInt (AddProduct.available_quantity f);
     products.Insert.unit := AddProduct.unit f;
     products.Insert.harvest_date := AddProduct.harvest_date f;
     products.Insert.expiry_date := Js.or_null (AddProduct.expiry_date f);
     products.Insert.image_url := Js.or_null (Js.trim (AddProduct.image_url f));
     products.Insert.is_active := true |}.

(** The validation messages of [handleSubmit]. *)
Definition validation_messages : list string :=
  ["No farm profile found"; "Product name is required";
   "Price must be greater than 0"; "Quantity must be greater than 0";
   "Harvest date is required"].

#[global] Instance passes_validation_dec (f : AddProduct.FormData) :
  Decision (passes_validation f).
Proof. unfold passes_validation. apply _. Defined.

(** Two product rows that agree on every column but [is_active]. *)
Definition same_but_is_active (r r' : products.Row) : Prop :=
  products.available_quantity r' = products.available_quantity r /\
  products.created_at r' = products.created_at r /\
  products.cultivar_id r' = products.cultivar_id r /\
  products.description r' = products.description r /\
  products.expiry_date r' = products.expiry_date r /\
  products.farm_id r' = products.farm_id r /\
  products.harvest_date r' = products.harvest_date r /\
  products.id r' = products.id r /\
  products.image_url r' = products.image_url r /\
  products.name r' = products.name r /\
  products.price_per_unit r' = products.price_per_unit r /\
  products.product_type r' = products.product_type r /\
  products.unit r' = products.unit r /\
  products.updated_at r' = products.updated_at r.

(** What [deleteProduct] may do to a product row: nothing, or, for the row
    of the given id, set [is_active] to false. *)
Definition soft_deleted (productId : string) (r r' : products.Row) : Prop :=
  same_but_is_active r r' /\
  (r' = r \/ products.id r = productId /\ products.is_active r' = Some false).

(** Two farm-profile rows that agree on every column but the three
    editable ones. *)
Definition same_but_editable (r r' : farm_profiles.Row) : Prop :=
  farm_profiles.created_at r' = farm_profiles.created_at r /\
  farm_profiles.farm_image_url r' = farm_profiles.farm_image_url r /\
  farm_profiles.id r' = farm_profiles.id r /\
  farm_profiles.rating r' = farm_profiles.rating r /\
  farm_profiles.total_reviews r' = farm_profiles.total_reviews r /\
  farm_profiles.total_sales r' = farm_profiles.total_sales r /\
  farm_profiles.updated_at r' = farm_profiles.updated_at r /\
  farm_profiles.user_id r' = farm_profiles.user_id r /\
  farm_profiles.verified r' = farm_profiles.verified r.

(** What [saveFarmProfile] may do to a farm-profile row: nothing, or, for
    the row of the loaded farm profile, change the editable columns. *)
Definition profile_edited (target : option farm_profiles.Row)
    (r r' : farm_profiles.Row) : Prop :=
  same_but_editable r r' /\
  (r' = r \/ exists t, target = Some t /\ farm_profiles.id r = farm_profiles.id t).

(** The handlers embedded above, each with the arguments and the component
    state it is run with: every handler of the program that writes to the
    store (the one insert and the four updates), the two readers of the
    catalog and the farm lookup of the product form.  The other handlers of
    the program only select. *)
Inductive operation : Type :=
| Market_fetchProducts (st : Market.State)
| ProductDetail_loadProduct (id : string) (st : ProductDetail.State)
| AddProduct_checkFarmProfile (session : option string) (st : AddProduct.State)
| AddProduct_handleSubmit (st : AddProduct.State)
| ManageProducts_toggleActive (productId : string) (currentState : option bool)
    (st : ManageProducts.State)
| ManageProducts_deleteProduct (confirmed : bool) (productId : string)
    (st : ManageProducts.State)
| UpdateProfile_saveProfile (st : UpdateProfile.State)
| UpdateProfile_saveFarmProfile (st : UpdateProfile.State).

Definition perform (op : operation) (w : World) : World :=
  match op with
  | Market_fetchProducts st => (run Market.fetchProducts w st).1
  | ProductDetail_loadProduct id st => (run (ProductDetail.loadProduct id) w st).1
  | AddProduct_checkFarmProfile session st =>
      (run (AddProduct.checkFarmProfile session) w st).1
  | AddProduct_handleSubmit st => (run AddProduct.handleSubmit w st).1
  | ManageProducts_toggleActive productId currentState st =>
      (run (ManageProducts.toggleActive productId currentState) w st).1
  | ManageProducts_deleteProduct confirmed productId st =>
      (run (ManageProducts.deleteProduct confirmed productId) w st).1
  | UpdateProfile_saveProfile st => (run UpdateProfile.saveProfile w st).1
  | UpdateProfile_saveFarmProfile st => (run UpdateProfile.saveFarmProfile w st).1
  end.

(** ** A small store

    One farm with an active and a retired product, used to run the
    handlers on concrete inputs. *)

Definition suan_kluai : farm_profiles.Row :=
  {| farm_profiles.created_at := Some "2024-01-10T08:00:00Z";
     farm_profiles.farm_description := Some "Family banana orchard";
     farm_profiles.farm_image_url := None;
     farm_profiles.farm_location := "Chumphon";
     farm_profiles.farm_name := "Suan Kluai";
     farm_profiles.id := "farm-1";
     farm_profiles.rating := Some (Js.Num 4.5);
     farm_profiles.total_reviews := Some (Js.Num 12);
     farm_profiles.total_sales := Some (Js.Num 3400);
     farm_profiles.updated_at := Some "2024-02-01T08:00:00Z";
     farm_profiles.user_id := "user-1";
     farm_profiles.verified := Some true |}.

Definition kluai_hom : products.Row :=
  {| products.available_quantity := Js.Num 40;
     products.created_at := Some "2024-04-20T08:00:00Z";
     products.cultivar_id := None;
     products.description := Some "Sweet dessert bananas";
     products.expiry_date := Some "2024-05-15";
     products.farm_id := "farm-1";
     products.harvest_date := "2024-05-01";
     products.id := "prod-1";
     products.image_url := None;
     products.is_active := Some true;
     products.name := "Kluai Hom Thong";
     products.price_per_unit := Js.Num 35;
     products.product_type := Enums.fruit;
     products.unit := "kg";
     products.updated_at := Some "2024-04-20T08:00:00Z" |}.

Definition kluai_khai : products.Row :=
  {| products.available_quantity := Js.Num 0;
     products.created_at := Some "2024-03-01T08:00:00Z";
     products.cultivar_id := None;
     products.description := None;
     products.expiry_date := None;
     products.farm_id := "farm-1";
     products.harvest_date := "2024-03-15";
     products.id := "prod-2";
     products.image_url := None;
     products.is_active := Some false;
     products.name := "Kluai Khai";
     products.price_per_unit := Js.Num 50;
     products.product_type := Enums.fruit;
     products.unit := "bunch";
     products.updated_at := Some "2024-03-20T08:00:00Z" |}.



Definition orchard : Db :=
  {| db_products := [kluai_hom; kluai_khai];
     db_farm_profiles := [suan_kluai];
     db_profiles := [] |}.

(** A world in which the store serves every request. *)
Definition online (d : Db) : World :=
  {| db := d;
     backend := fun _ => Serves "prod-new" "2024-06-01T09:00:00Z";
     clock := 0;
     trace := [] |}.

(** The product form of the farm of the small store, filled in. *)
Definition listing (name price quantity harvest expiry : string) : AddProduct.State :=
  {| AddProduct.loading := false;
     AddProduct.submitting := false;
     AddProduct.farmId := Some "farm-1";
     AddProduct.formData :=
       {| AddProduct.name := name;
          AddProduct.description := "";
          AddProduct.product_type := Enums.fruit;
          AddProduct.price_per_unit := price;
          AddProduct.available_quantity := quantity;
          AddProduct.unit := "kg";
          AddProduct.harvest_date := harvest;
          AddProduct.expiry_date := expiry;
          AddProduct.image_url := "" |} |}.

(** The products view of the farm of the small store. *)
Definition my_products : ManageProducts.State :=
  {| ManageProducts.loading := false;
     ManageProducts.products :=
       [ {| ManageProducts.id := "prod-1";
            ManageProducts.name := "Kluai Hom Thong";
            ManageProducts.product_type := "fruit";
            ManageProducts.price_per_unit := Js.Num 35;
            ManageProducts.available_quantity := Js.Num 40;
            ManageProducts.unit := "kg";
            ManageProducts.harvest_date := "2024-05-01";
            ManageProducts.is_active := Some true |} ];
     ManageProducts.farmId := Some "farm-1" |}.

(** The profile view of the owner of the farm of the small store, with the
    farm form filled in. *)
Definition farm_form (name location description : string) : UpdateProfile.State :=
  {| UpdateProfile.loading := false;
     UpdateProfile.saving := false;
     UpdateProfile.profile := None;
     UpdateProfile.farmProfile := Some suan_kluai;
     UpdateProfile.isFarm := true;
     UpdateProfile.profileForm :=
       {| UpdateProfile.full_name := ""; UpdateProfile.phone := "";
          UpdateProfile.address := "" |};
     UpdateProfile.farmForm :=
       {| UpdateProfile.farm_name := name;
          UpdateProfile.farm_location := location;
          UpdateProfile.farm_description := description |} |}.

(** The error of a request that did not reach the store, a plain object
    as the client hands it over, and a world in which the store fails
    every request with it. *)
Definition unreachable : PostgrestError :=
  {| instanceof_Error := false; message := "TypeError: Failed to fetch" |}.

Definition offline (d : Db) : World :=
  {| db := d; backend := fun _ => Fails unreachable; clock := 0; trace := [] |}.

(** A product filed under the account of its farm rather than under the
    farm profile, and a store holding it. *)
Definition kluai_lep_mue_nang : products.Row :=
  {| products.available_quantity := Js.Num 15;
     products.created_at := Some "2024-04-25T08:00:00Z";
     products.cultivar_id := None;
     products.description := None;
     products.expiry_date := None;
     products.farm_id := "user-1";
     products.harvest_date := "2024-04-10";
     products.id := "prod-3";
     products.image_url := None;
     products.is_active := Some true;
     products.name := "Kluai Lep Mue Nang";
     products.price_per_unit := Js.Num 60;
     products.product_type := Enums.shoot;
     products.unit := "piece";
     products.updated_at := None |}.

Definition orchard_by_account : Db :=
  {| db_products := [kluai_hom; kluai_khai; kluai_lep_mue_nang];
     db_farm_profiles := [suan_kluai];
     db_profiles := [] |}.

(** The products view agrees with the store: each product it shows has,
    column by column, what the rows of that id in the store hold: the name,
    the type, the price, the quantity, the unit, the harvest date and
    [is_active]. *)
Definition view_agrees (st : ManageProducts.State) (d : Db) : Prop :=
  forall p r,
    p ∈ ManageProducts.products st -> r ∈ db_products d ->
    products.id r = ManageProducts.id p ->
    ManageProducts.name p = products.name r /\
    ManageProducts.product_type p =
      Enums.product_type_str (products.product_type r) /\
    ManageProducts.price_per_unit p = products.price_per_unit r /\
    ManageProducts.available_quantity p = products.available_quantity r /\
    ManageProducts.unit p = products.unit r /\
    ManageProducts.harvest_date p = products.harvest_date r /\
    ManageProducts.is_active p = products.is_active r.

(** The owner of the farm of the small store and a buyer, and the store
    with their profiles. *)
Definition somchai : profiles.Row :=
  {| profiles.address := None;
     profiles.avatar_url := None;
     profiles.created_at := Some "2024-01-09T08:00:00Z";
     profiles.full_name := "Somchai Jaidee";
     profiles.id := "user-1";
     profiles.phone := Some "0812345678";
     profiles.updated_at := None |}.

Definition malee : profiles.Row :=
  {| profiles.address := Some "12 Sukhumvit Road, Bangkok";
     profiles.avatar_url := None;
     profiles.created_at := Some "2024-02-11T08:00:00Z";
     profiles.full_name := "Malee Srisuk";
     profiles.id := "user-2";
     profiles.phone := None;
     profiles.updated_at := None |}.

Definition village : Db :=
  {| db_products := [kluai_hom; kluai_khai];
     db_farm_profiles := [suan_kluai];
     db_profiles := [somchai; malee] |}.

(** The profile row [saveProfile] writes over a row, and the farm-profile
    row [saveFarmProfile] writes over a row. *)
Definition saved_profile (form : UpdateProfile.ProfileForm) (r : profiles.Row)
    : profiles.Row :=
  {| profiles.address := Js.or_null (Js.trim (UpdateProfile.address form));
     profiles.avatar_url := profiles.avatar_url r;
     profiles.created_at := profiles.created_at r;
     profiles.full_name := Js.trim (UpdateProfile.full_name form);
     profiles.id := profiles.id r;
     profiles.phone := Js.or_null (Js.trim (UpdateProfile.phone form));
     profiles.updated_at := profiles.updated_at r |}.

Definition saved_farm_profile (form : UpdateProfile.FarmForm)
    (r : farm_profiles.Row) : farm_profiles.Row :=
  {| farm_profiles.created_at := farm_profiles.created_at r;
     farm_profiles.farm_description :=
       Js.or_null (Js.trim (UpdateProfile.farm_description form));
     farm_profiles.farm_image_url := farm_profiles.farm_image_url r;
     farm_profiles.farm_location := Js.trim (UpdateProfile.farm_location form);
     farm_profiles.farm_name := Js.trim (UpdateProfile.farm_name form);
     farm_profiles.id := farm_profiles.id r;
     farm_profiles.rating := farm_profiles.rating r;
     farm_profiles.total_reviews := farm_profiles.total_reviews r;
     farm_profiles.total_sales := farm_profiles.total_sales r;
     farm_profiles.updated_at := farm_profiles.updated_at r;
     farm_profiles.user_id := farm_profiles.user_id r;
     farm_profiles.verified := farm_profiles.verified r |}.

(** A farm profile as [saveFarmProfile] stores it: name and location
    trimmed and not empty, the description null or trimmed and not empty. *)
Definition farm_profile_normal (f : farm_profiles.Row) : Prop :=
  Js.trim (farm_profiles.farm_name f) = farm_profiles.farm_name f /\
  farm_profiles.farm_name f <> "" /\
  Js.trim (farm_profiles.farm_location f) = farm_profiles.farm_location f /\
  farm_profiles.farm_location f <> "" /\
  match farm_profiles.farm_description f with
  | None => True
  | Some d => Js.trim d = d /\ d <> ""
  end.

#[global] Instance farm_profile_normal_dec (f : farm_profiles.Row) :
  Decision (farm_profile_normal f).
Proof.
  unfold farm_profile_normal.
  destruct (farm_profiles.farm_description f); apply _.
Defined.

(** Orders of the small store: two for its farm, one of them still
    pending, and one for another farm. *)
Definition an_order (id farm_id user_id product_id created_at : string)
    (status : Enums.order_status) : orders.Row :=
  {| orders.cancellation_reason := None;
     orders.cancelled_at := None;
     orders.confirmed_at := None;
     orders.created_at := Some created_at;
     orders.delivered_at := None;
     orders.delivery_address := "12 Sukhumvit Road, Bangkok";
     orders.delivery_notes := None;
     orders.farm_id := farm_id;
     orders.id := id;
     orders.product_id := product_id;
     orders.quantity := Js.Num 2;
     orders.shipped_at := None;
     orders.status := status;
     orders.total_price := Js.Num 70;
     orders.tracking_number := None;
     orders.updated_at := None;
     orders.user_id := user_id |}.

Definition ledger : list orders.Row :=
  [ an_order "order-1" "farm-1" "user-2" "prod-1" "2024-05-02T10:00:00Z" Enums.pending;
    an_order "order-2" "farm-1" "user-7" "prod-2" "2024-03-16T10:00:00Z" Enums.reviewed;
    an_order "order-3" "farm-9" "user-2" "prod-9" "2024-05-03T10:00:00Z" Enums.pending ].

(** The class every status falls back to. *)
Definition gray : string := "bg-gray-100 text-gray-800".

(** An order of the view carries the buyer's name of a profile of the
    buyer's id, or none. *)
Definition buyer_attached (d : Db) (base order : FarmOrders.Order) : Prop :=
  exists profile,
    order = FarmOrders.with_profile profile base /\
    forall name, profile = Some name ->
      exists pr, pr ∈ db_profiles d /\
                 profiles.id pr = FarmOrders.user_id base /\
                 name = profiles.full_name pr.

(** A world in which the store serves the first two requests and fails
    every later one. *)
Definition flaky (d : Db) : World :=
  {| db := d;
     backend := fun n => if (n <? 2)%nat then Serves "" "2024-06-01T09:00:00Z"
                         else Fails unreachable;
     clock := 0;
     trace := [] |}.

(** A world in which the store serves the first request and fails every
    later one. *)
Definition served_once (d : Db) : World :=
  {| db := d;
     backend := fun n => if (n <? 1)%nat then Serves "" "2024-06-01T09:00:00Z"
                         else Fails unreachable;
     clock := 0;
     trace := [] |}.

(** From [w] to [w'] the store was only read: it holds what it held, and
    every request sent in between is a selection. *)
Definition only_reads (w w' : World) : Prop :=
  db w' = db w /\
  exists events,
    trace w' = (trace w ++ events)%list /\
    Forall (fun e => forall r, e = Sent r -> exists table, r = ReqSelect table) events.

(** * Properties *)

(** ** Strings *)

Section Strings.










Lemma trim_blank_iff (s : string) :
  Js.truthy (Js.trim s) = false <-> Js.trim s = EmptyString.
Proof. destruct (Js.trim s); simpl; split; congruence. Qed.

End Strings.

(** ** The order-status enumeration *)

Section OrderStatus.

Lemma order_status_all (s : Enums.order_status) : s ∈ Constants.order_status.
Proof. destruct s; unfold Constants.order_status; set_solver. Qed.

Lemma order_status_NoDup : NoDup Constants.order_status.
Proof. by apply (bool_decide_unpack _). Qed.

End OrderStatus.

(** ** Running handlers *)

Ltac unfold_eff :=
  unfold run, Handler, try_catch, try_catch_finally, throw_if, throw, await,
    toast_error, toast_success, navigate, action, state, set,
    mbind, mret, Eff_bind, Eff_ret in *.

Ltac unfold_store :=
  unfold await_rows, await_maybeSingle, await_insert_product,
    await_update_product, await_update_farm_profile, await_update_profile,
    send in *.

Lemma serves_0 (w : World) :
  serves w 0 = true -> exists uuid now, backend w (clock w) = Serves uuid now.
Proof. unfold serves. simpl. destruct (backend w (clock w)); [done | eauto]. Qed.

Lemma serves_1 (w : World) :
  serves w 1 = true -> exists uuid now, backend w (S (clock w)) = Serves uuid now.
Proof. unfold serves. simpl. destruct (backend w (S (clock w))); [done | eauto]. Qed.

(** ** The catalog listing *)

Section Catalog.

#[local] Instance date_le_total {R : Type} (column : R -> string) :
  Total (date_le column).
Proof. intros r1 r2. unfold date_le. apply (total String.le). Qed.

#[local] Instance date_le_trans {R : Type} (column : R -> string) :
  Transitive (date_le column).
Proof. intros r1 r2 r3. unfold date_le. apply (transitivity (R := String.le)). Qed.

Lemma elem_of_active_products (d : Db) (p : products.Row) :
  p ∈ Market.active_products d <->
  p ∈ db_products d /\ products.is_active p = Some true.
Proof.
  unfold Market.active_products, order_asc, eq_.
  rewrite merge_sort_Permutation, list_elem_of_filter. tauto.
Qed.

Lemma active_products_sorted (d : Db) :
  StronglySorted (date_le products.harvest_date) (Market.active_products d).
Proof. apply StronglySorted_merge_sort; apply _. Qed.

Lemma with_farm_rows (m : gmap string farm_profiles.Row) (l : list products.Row) :
  Market.row <$> (Market.with_farm m <$> l) = l.
Proof. induction l as [|p l IH]; [done |]. csimpl. by f_equal. Qed.

Lemma catalog_rows (d : Db) :
  Market.row <$> catalog d = Market.active_products d.
Proof. apply with_farm_rows. Qed.

Lemma catalog_sorted (d : Db) : StronglySorted by_harvest_date (catalog d).
Proof.
  unfold catalog. eapply StronglySorted_fmap; [| apply active_products_sorted].
  intros p q H. exact H.
Qed.

(** What [fetchProducts] leaves: the catalog when the store serves both
    requests, and the product list it found otherwise. *)
Lemma fetchProducts_products (w : World) (st : Market.State) :
  Market.products (run Market.fetchProducts w st).2 =
    if serves w 0 && serves w 1 then catalog (db w) else Market.products st.
Proof.
  unfold serves, catalog, Market.fetchProducts. unfold_eff. unfold_store. simpl.
  destruct (backend w (clock w)); simpl; [done |].
  destruct (backend w (S (clock w))); simpl; done.
Qed.

Lemma fetchProducts_db (w : World) (st : Market.State) :
  db (run Market.fetchProducts w st).1 = db w.
Proof.
  unfold Market.fetchProducts. unfold_eff. unfold_store. simpl.
  destruct (backend w (clock w)); simpl; [done |].
  destruct (backend w (S (clock w))); simpl; done.
Qed.

End Catalog.

Section CatalogJoin.

Lemma new_Map_lookup_None {V : Type} (entries : list (string * V)) (k : string) :
  k ∉ entries.*1 -> Market.new_Map entries !! k = None.
Proof.
  unfold Market.new_Map. generalize (∅ : gmap string V) (lookup_empty (M := gmap string) (A := V) k).
  induction entries as [|[k' v] entries IH]; intros m Hm Hk; [done |].
  simpl. apply IH.
  - rewrite lookup_insert_ne; [done |]. intros ->. apply Hk. simpl. left.
  - intros H. apply Hk. simpl. by right.
Qed.

Lemma new_Map_lookup_Some {V : Type} (entries : list (string * V)) (k : string) (v : V) :
  Market.new_Map entries !! k = Some v -> (k, v) ∈ entries.
Proof.
  unfold Market.new_Map.
  assert (forall m : gmap string V,
    fold_left (fun m kv => <[kv.1 := kv.2]> m) entries m !! k = Some v ->
    (k, v) ∈ entries \/ m !! k = Some v) as H.
  { induction entries as [|[k' v'] entries IH]; intros m Hm; [by right |].
    simpl in Hm. destruct (IH _ Hm) as [H | H].
    - left. by right.
    - destruct (decide (k' = k)) as [-> | Hne].
      + rewrite lookup_insert_eq in H. injection H as ->. left. left.
      + rewrite lookup_insert_ne in H by done. by right. }
  intros Hm. destruct (H ∅ Hm) as [? | He]; [done |].
  by rewrite lookup_empty in He.
Qed.

(** The farm attached to a listed product is found by [user_id]: it is a
    farm profile whose [user_id] is the product's [farm_id], or the
    placeholder. *)
Lemma catalog_farm (d : Db) (p : Market.Product) :
  p ∈ catalog d ->
  Market.farm_profiles p = Market.unknown_farm \/
  exists f, f ∈ db_farm_profiles d /\
    farm_profiles.user_id f = products.farm_id (Market.row p) /\
    Market.farm_profiles p = Market.selected f.
Proof.
  unfold catalog. rewrite list_elem_of_fmap. intros [r [-> _]].
  unfold Market.with_farm. simpl.
  destruct (Market.new_Map _ !! products.farm_id r) as [f|] eqn:E; [| by left].
  right. exists f. apply new_Map_lookup_Some in E.
  apply list_elem_of_fmap in E as [f' [E Hf]]. injection E as E ->.
  unfold Market.farms_of, in_ in Hf. apply list_elem_of_filter in Hf as [_ Hf].
  done.
Qed.

Lemma catalog_unknown_farm (d : Db) (p : products.Row) :
  p ∈ db_products d -> products.is_active p = Some true ->
  (forall f, f ∈ db_farm_profiles d ->
     farm_profiles.user_id f <> products.farm_id p) ->
  {| Market.row := p; Market.farm_profiles := Market.unknown_farm |} ∈ catalog d.
Proof.
  intros Hp Hactive Hnone. unfold catalog. apply list_elem_of_fmap.
  exists p. split; [| by apply elem_of_active_products].
  unfold Market.with_farm. rewrite new_Map_lookup_None; [done |].
  rewrite <- list_fmap_compose. intros H.
  apply list_elem_of_fmap in H as [f [E Hf]]. simpl in E.
  unfold Market.farms_of, in_ in Hf. apply list_elem_of_filter in Hf as [_ Hf].
  by apply (Hnone f).
Qed.

End CatalogJoin.

Section CatalogClaims.

(** C1 (the code departs from the claim).  The farm attached by the
    listing is looked up by [user_id], not by [id]: for a product whose
    [farm_id] is the [id] of its farm profile, as [AddProduct] stores it
    and [ProductDetail] reads it, the listing attaches the placeholder
    instead of the farm profile the product references, while the detail
    view of the same product shows that farm profile. *)
Theorem C1_listing_joins_on_user_id :
  products.farm_id kluai_hom = farm_profiles.id suan_kluai /\
  Market.products (run Market.fetchProducts (online orchard) Market.initial).2 =
    [ {| Market.row := kluai_hom; Market.farm_profiles := Market.unknown_farm |} ] /\
  ProductDetail.product
    (run (ProductDetail.loadProduct "prod-1") (online orchard)
       ProductDetail.initial).2 =
    Some {| ProductDetail.row := kluai_hom;
            ProductDetail.farm_profiles := Some (ProductDetail.selected suan_kluai) |}.
Proof. repeat split; vm_compute; reflexivity. Qed.

(** The same on a product made by the program itself: the owner of the
    farm opens the product form, which loads the [id] of the farm profile,
    and submits a product; the listing then shows the new product under
    the placeholder farm. *)
Example own_product_listed_without_farm :
  let '(w1, form) :=
    run (AddProduct.checkFarmProfile (Some "user-1")) (online orchard)
      AddProduct.initial in
  let filled :=
    AddProduct.setFormData
      (AddProduct.formData (listing "Kluai Nam Wa" "25" "20" "2024-04-01" "")) form in
  let '(w2, _) := run AddProduct.handleSubmit w1 filled in
  let '(_, market) := run Market.fetchProducts w2 Market.initial in
  AddProduct.farmId form = Some (farm_profiles.id suan_kluai) /\
  (fun p => (products.name (Market.row p), products.farm_id (Market.row p),
             Market.farm_name (Market.farm_profiles p)))
    <$> Market.products market =
    [ ("Kluai Nam Wa", "farm-1", "Unknown Farm");
      ("Kluai Hom Thong", "farm-1", "Unknown Farm") ].
Proof. vm_compute. split; reflexivity. Qed.

(** C2.  Every product of the list that [fetchProducts] loads is a product
    of the store with [is_active = true], so a product that is not active
    is never listed, and the list is in ascending order of harvest date.
    This holds of the list loaded into the fresh component, and of the list
    of a component in any state whenever the handler replaces it. *)
Theorem C2_listing_active_by_harvest_date (w : World) :
  let listing_of st := Market.products (run Market.fetchProducts w st).2 in
  let active_by_date listed :=
    Forall (fun p => Market.row p ∈ db_products (db w) /\
                     products.is_active (Market.row p) = Some true) listed /\
    StronglySorted by_harvest_date listed in
  active_by_date (listing_of Market.initial) /\
  forall st, listing_of st = Market.products st \/ active_by_date (listing_of st).
Proof.
  assert (Forall (fun p => Market.row p ∈ db_products (db w) /\
                           products.is_active (Market.row p) = Some true)
            (catalog (db w)) /\
          StronglySorted by_harvest_date (catalog (db w))) as Hcatalog.
  { split; [| apply catalog_sorted].
    apply Forall_forall. intros p Hp.
    apply elem_of_active_products. rewrite <- catalog_rows.
    apply list_elem_of_fmap. by exists p. }
  cbv zeta. split.
  - rewrite fetchProducts_products.
    destruct (serves w 0 && serves w 1); [exact Hcatalog | split; constructor].
  - intros st. rewrite fetchProducts_products.
    destruct (serves w 0 && serves w 1); [by right | by left].
Qed.



(** C10.  When the store serves the listing and no farm profile is found
    for an active product's [farm_id], the product is listed all the same,
    with the placeholder farm, and no failure is reported. *)
Theorem C10_unmatched_farm_placeholder (w : World) (st : Market.State)
    (p : products.Row) :
  serves w 0 = true -> serves w 1 = true ->
  p ∈ db_products (db w) -> products.is_active p = Some true ->
  (forall f, f ∈ db_farm_profiles (db w) ->
     farm_profiles.user_id f <> products.farm_id p) ->
  let '(w', st') := run Market.fetchProducts w st in
  {| Market.row := p;
     Market.farm_profiles :=
       {| Market.user_id := None; Market.farm_name := "Unknown Farm";
          Market.farm_location := "Unknown"; Market.rating := Some (Js.Num 0) |} |}
    ∈ Market.products st' /\
  trace w' = (trace w ++ [Sent (ReqSelect "products");
                          Sent (ReqSelect "farm_profiles")])%list.
Proof.
  intros H0 H1 Hp Hactive Hnone.
  destruct (run Market.fetchProducts w st) as [w' st'] eqn:E.
  split.
  - replace st' with (run Market.fetchProducts w st).2 by (by rewrite E).
    rewrite fetchProducts_products, H0, H1. simpl.
    by apply catalog_unknown_farm.
  - replace w' with (run Market.fetchProducts w st).1 by (by rewrite E).
    apply serves_0 in H0 as (u0 & n0 & H0). apply serves_1 in H1 as (u1 & n1 & H1).
    unfold Market.fetchProducts. unfold_eff. unfold_store. simpl.
    rewrite H0. simpl. rewrite H1. simpl. by rewrite <- app_assoc.
Qed.

Lemma C10_unmatched_farm_placeholder_witness :
  {| Market.row := kluai_hom; Market.farm_profiles := Market.unknown_farm |}
    ∈ Market.products (run Market.fetchProducts (online orchard) Market.initial).2.
Proof.
  pose proof (C10_unmatched_farm_placeholder (online orchard) Market.initial kluai_hom) as H.
  destruct (run Market.fetchProducts (online orchard) Market.initial) as [w' st'].
  apply H; try reflexivity.
  - left.
  - intros f Hf. apply list_elem_of_singleton in Hf as ->. discriminate.
Defined.

End CatalogClaims.

(** ** The product detail lookup *)

Section ProductDetailClaims.

Lemma filter_key_none {R : Type} (key : R -> string) (l : list R) (k : string) :
  (forall r, r ∈ l -> key r <> k) -> eq_ key k l = [].
Proof.
  unfold eq_. induction l as [|x l IH]; intros H; [done |].
  rewrite filter_cons_False by (apply H; left).
  apply IH. intros r Hr. apply H. by right.
Qed.

Lemma filter_key_NoDup {R : Type} (key : R -> string) (l : list R) (r : R) :
  NoDup (key <$> l) -> r ∈ l -> eq_ key (key r) l = [r].
Proof.
  induction l as [|x l IH]; intros Hnd Hr; [by apply elem_of_nil in Hr |].
  apply NoDup_cons in Hnd as [Hx Hnd]. unfold eq_ in *.
  apply elem_of_cons in Hr as [-> | Hr].
  - rewrite filter_cons_True by done. f_equal.
    apply filter_key_none. intros y Hy E. apply Hx.
    rewrite <- E. apply list_elem_of_fmap. by exists y.
  - rewrite filter_cons_False; [by apply IH |].
    intros E. apply Hx. rewrite E. apply list_elem_of_fmap. by exists r.
Qed.

Lemma filter_key_at_most_one {R : Type} (key : R -> string) (l : list R) (k : string) :
  NoDup (key <$> l) ->
  (eq_ key k l = [] /\ forall r, r ∈ l -> key r <> k) \/
  (exists r, eq_ key k l = [r] /\ r ∈ l /\ key r = k).
Proof.
  intros Hnd. destruct (decide (Exists (fun r => key r = k) l)) as [Hex | Hno].
  - right. apply Exists_exists in Hex as [r [Hr <-]]. exists r.
    by rewrite filter_key_NoDup.
  - left. rewrite <- Forall_Exists_neg, Forall_forall in Hno.
    split; [by apply filter_key_none | done].
Qed.

(** C3.  With the primary keys of the store unique and the store serving
    the request for the product, the detail lookup behaves as follows.
    When the product of the given id is active and the store serves the
    request for its farm, it loads that product together with its farm
    info: the [id], [farm_name], [farm_location], [rating] and [verified]
    of the farm profile whose [id] is the product's [farm_id], or no farm
    when there is no such profile.  When there is no active product of that
    id, also when the product of that id exists and is not active, it sends
    the one request, shows "Product not found", goes back to the market and
    loads no product. *)
Theorem C3_loadProduct (w : World) (st : ProductDetail.State) (id : string) :
  NoDup (products.id <$> db_products (db w)) ->
  NoDup (farm_profiles.id <$> db_farm_profiles (db w)) ->
  serves w 0 = true ->
  let '(w', st') := run (ProductDetail.loadProduct id) w st in
  (serves w 1 = true ->
   forall p, p ∈ db_products (db w) -> products.id p = id ->
     products.is_active p = Some true ->
     exists farm,
       ProductDetail.product st' =
         Some {| ProductDetail.row := p; ProductDetail.farm_profiles := farm |} /\
       (forall f, f ∈ db_farm_profiles (db w) ->
          farm_profiles.id f = products.farm_id p ->
          exists loaded,
            farm = Some loaded /\
            ProductDetail.id loaded = farm_profiles.id f /\
            ProductDetail.farm_name loaded = farm_profiles.farm_name f /\
            ProductDetail.farm_location loaded = farm_profiles.farm_location f /\
            ProductDetail.rating loaded = farm_profiles.rating f /\
            ProductDetail.verified loaded = farm_profiles.verified f) /\
       ((forall f, f ∈ db_farm_profiles (db w) ->
           farm_profiles.id f <> products.farm_id p) -> farm = None) /\
       trace w' = (trace w ++ [Sent (ReqSelect "products");
                               Sent (ReqSelect "farm_profiles")])%list) /\
  ((forall p, p ∈ db_products (db w) -> products.id p = id ->
      products.is_active p <> Some true) ->
   ProductDetail.product st' = ProductDetail.product st /\
   ProductDetail.loading st' = false /\
   db w' = db w /\
   trace w' = (trace w ++ [Sent (ReqSelect "products");
                           ToastError "Product not found";
                           Navigate "/market"])%list).
Proof.
  intros Hproducts Hfarms H0.
  apply serves_0 in H0 as (u0 & n0 & H0).
  unfold ProductDetail.loadProduct, ProductDetail.active_product. unfold_eff. unfold_store.
  simpl. rewrite H0. simpl.
  destruct (filter_key_at_most_one products.id (db_products (db w)) id Hproducts)
    as [[E Hnone] | (p & E & Hp & Hid)]; rewrite E.
  - (* no product of that id at all *)
    simpl. split.
    + intros _ p Hp Hid _. by destruct (Hnone p Hp).
    + intros _. repeat split. by rewrite <- !app_assoc.
  - destruct (decide (products.is_active p = Some true)) as [Hactive | Hinactive].
    + (* the product is active *)
      unfold eq_ at 1. rewrite filter_cons_True by done. simpl.
      destruct (backend w (S (clock w))) as [e | u1 n1] eqn:H1; simpl.
      { split.
        - intros Hs. apply serves_1 in Hs as (u & n & Hs). congruence.
        - intros Hall. by destruct (Hall p Hp Hid). }
      unfold ProductDetail.farm_of.
      destruct (filter_key_at_most_one farm_profiles.id (db_farm_profiles (db w))
                  (products.farm_id p) Hfarms)
        as [[Ef Hnof] | (f & Ef & Hf & Hfid)]; rewrite Ef; simpl.
      * split; [| intros Hall; by destruct (Hall p Hp Hid)].
        intros _ p' Hp' Hid' _.
        assert (p' = p) as ->.
        { pose proof (filter_key_NoDup products.id _ p' Hproducts Hp') as E'.
          rewrite Hid', E in E'. by injection E'. }
        exists None. repeat split.
        -- intros f Hf Hfid. by destruct (Hnof f Hf).
        -- by rewrite <- !app_assoc.
      * split; [| intros Hall; by destruct (Hall p Hp Hid)].
        intros _ p' Hp' Hid' _.
        assert (p' = p) as ->.
        { pose proof (filter_key_NoDup products.id _ p' Hproducts Hp') as E'.
          rewrite Hid', E in E'. by injection E'. }
        exists (Some (ProductDetail.selected f)). split; [done |]. split; [| split].
        -- intros f' Hf' Hfid'.
           pose proof (filter_key_NoDup farm_profiles.id _ f' Hfarms Hf') as E'.
           rewrite Hfid', Ef in E'. injection E' as ->.
           by exists (ProductDetail.selected f').
        -- intros Hall. by destruct (Hall f Hf).
        -- by rewrite <- !app_assoc.
    + (* the product of that id is not active *)
      unfold eq_ at 1. rewrite filter_cons_False by done. simpl. split.
      * intros _ p' Hp' Hid' Hactive'.
        assert (p' = p) as ->.
        { pose proof (filter_key_NoDup products.id _ p' Hproducts Hp') as E'.
          rewrite Hid', E in E'. by injection E'. }
        done.
      * intros _. repeat split. by rewrite <- !app_assoc.
Qed.

Lemma C3_loadProduct_witness :
  ProductDetail.product
    (run (ProductDetail.loadProduct "prod-1") (online orchard) ProductDetail.initial).2 =
    Some {| ProductDetail.row := kluai_hom;
            ProductDetail.farm_profiles :=
              Some {| ProductDetail.id := "farm-1";
                      ProductDetail.farm_name := "Suan Kluai";
                      ProductDetail.farm_location := "Chumphon";
                      ProductDetail.rating := Some (Js.Num 4.5);
                      ProductDetail.verified := Some true |} |} /\
  (let '(w', st') :=
     run (ProductDetail.loadProduct "prod-2") (served_once orchard)
       ProductDetail.initial in
   ProductDetail.product st' = None /\
   trace w' = [Sent (ReqSelect "products"); ToastError "Product not found";
               Navigate "/market"]).
Proof.
  assert (NoDup (products.id <$> db_products orchard)) as Hp
    by (by apply (bool_decide_unpack _)).
  assert (NoDup (farm_profiles.id <$> db_farm_profiles orchard)) as Hf
    by (by apply (bool_decide_unpack _)).
  split.
  - pose proof (C3_loadProduct (online orchard) ProductDetail.initial "prod-1"
                  Hp Hf eq_refl) as H.
    destruct (run (ProductDetail.loadProduct "prod-1") (online orchard)
                ProductDetail.initial) as [w' st'].
    destruct H as [H _]. cbn [snd].
    destruct (H eq_refl kluai_hom) as (farm & -> & Hfarm & _); [left | done | done |].
    destruct (Hfarm suan_kluai) as (loaded & -> & H1 & H2 & H3 & H4 & H5);
      [left | done |].
    destruct loaded. simpl in H1, H2, H3, H4, H5. by subst.
  - pose proof (C3_loadProduct (served_once orchard) ProductDetail.initial "prod-2"
                  Hp Hf eq_refl) as H.
    destruct (run (ProductDetail.loadProduct "prod-2") (served_once orchard)
                ProductDetail.initial) as [w' st'].
    destruct H as [_ H].
    destruct H as (Hproduct & _ & _ & Htrace).
    + intros p Hin Hid. unfold orchard in Hin. simpl in Hin.
      apply elem_of_cons in Hin as [-> | Hin]; [discriminate Hid |].
      apply list_elem_of_singleton in Hin as ->. discriminate.
    + split; [exact Hproduct | exact Htrace].
Defined.

End ProductDetailClaims.

(** ** The order-status enumeration *)

Section OrderStatusClaims.

(** C8 (as stated, refuted).  No five values make up the order-status
    enumeration. *)
Lemma C8_order_status_not_five_values :
  ~ exists l : list Enums.order_status,
      length l = 5%nat /\ forall s : Enums.order_status, s ∈ l.
Proof.
  intros (l & Hlen & Hall).
  assert (Constants.order_status ⊆+ l) as Hsub.
  { apply NoDup_submseteq; [apply order_status_NoDup | auto]. }
  apply submseteq_length in Hsub. rewrite Hlen in Hsub. simpl in Hsub. lia.
Qed.

(** C8 (as amended).  The order-status enumeration has exactly six values:
    pending, confirmed, shipped, delivered, cancelled and reviewed, each a
    distinct string at run time. *)
Theorem C8_order_status_six_values :
  length Constants.order_status = 6%nat /\
  NoDup Constants.order_status /\
  (forall s : Enums.order_status, s ∈ Constants.order_status) /\
  Enums.order_status_str <$> Constants.order_status =
    ["pending"; "confirmed"; "shipped"; "delivered"; "cancelled"; "reviewed"] /\
  NoDup (Enums.order_status_str <$> Constants.order_status).
Proof.
  split; [reflexivity |]. split; [apply order_status_NoDup |].
  split; [apply order_status_all |]. split; [reflexivity |].
  by apply (bool_decide_unpack _).
Qed.

End OrderStatusClaims.

(** ** Creating a product *)

Section AddProductClaims.

#[local] Arguments Js.parseFloat : simpl never.
#[local] Arguments Js.parseInt : simpl never.
#[local] Arguments Js.trim : simpl never.

Lemma truthy_false_iff (s : string) : Js.truthy s = false <-> s = "".
Proof. destruct s; simpl; split; congruence. Qed.

Lemma truthy_true_iff (s : string) : Js.truthy s = true <-> s <> "".
Proof. destruct s; simpl; split; congruence. Qed.

(** A form that fails a check is turned down with one toast, and nothing
    else happens. *)
Lemma handleSubmit_rejected (w : World) (st : AddProduct.State) :
  ~ passes_validation (AddProduct.formData st) ->
  exists msg, msg ∈ validation_messages /\
    run AddProduct.handleSubmit w st = (emit (ToastError msg) w, st).
Proof.
  intros Hinvalid. unfold AddProduct.handleSubmit, validation_messages. unfold_eff. simpl.
  destruct (AddProduct.farmId st) as [[|c fid]|];
    [eexists; split; [| reflexivity]; set_solver | | eexists; split; [| reflexivity]; set_solver].
  destruct (Js.truthy (Js.trim _)) eqn:Hname; simpl;
    [| eexists; split; [| reflexivity]; set_solver].
  destruct (Js.isNaN (Js.parseFloat _)) eqn:Hp1; simpl;
    [eexists; split; [| reflexivity]; set_solver |].
  destruct (Js.le_zero (Js.parseFloat _)) eqn:Hp2; simpl;
    [eexists; split; [| reflexivity]; set_solver |].
  destruct (Js.isNaN (Js.parseInt _)) eqn:Hq1; simpl;
    [eexists; split; [| reflexivity]; set_solver |].
  destruct (Js.le_zero (Js.parseInt _)) eqn:Hq2; simpl;
    [eexists; split; [| reflexivity]; set_solver |].
  destruct (Js.truthy (AddProduct.harvest_date _)) eqn:Hh; simpl;
    [| eexists; split; [| reflexivity]; set_solver].
  exfalso. apply Hinvalid. unfold passes_validation.
  apply truthy_true_iff in Hname, Hh. done.
Qed.

(** What a form that passes the checks leads to, with a farm id loaded. *)
Lemma handleSubmit_valid (w : World) (st : AddProduct.State) (fid : string) :
  AddProduct.farmId st = Some fid -> fid <> "" ->
  passes_validation (AddProduct.formData st) ->
  let payload := payload_of fid (AddProduct.formData st) in
  let sent := tick (emit (Sent (ReqInsertProduct payload)) w) in
  run AddProduct.handleSubmit w st =
    match backend w (clock w) with
    | Serves uuid now =>
        (emit (Navigate "/farm/products")
           (emit (ToastSuccess "Product added successfully")
              (set_db {| db_products :=
                           db_products (db w) ++ [products.new_row uuid now payload];
                         db_farm_profiles := db_farm_profiles (db w);
                         db_profiles := db_profiles (db w) |} sent)),
         AddProduct.setSubmitting false (AddProduct.setSubmitting true st))
    | Fails e =>
        (emit (ToastError (message_of e "Failed to add product")) sent,
         AddProduct.setSubmitting false (AddProduct.setSubmitting true st))
    end.
Proof.
  intros Hfid Hne (Hname & Hp1 & Hp2 & Hq1 & Hq2 & Hh).
  apply truthy_true_iff in Hname, Hh.
  unfold AddProduct.handleSubmit, payload_of. unfold_eff. unfold_store. simpl.
  rewrite Hfid. destruct fid as [|c fid]; [done |].
  rewrite Hname, Hp1, Hp2, Hq1, Hq2, Hh. simpl.
  destruct (backend w (clock w)); reflexivity.
Qed.

(** C4 (as stated, refuted).  A quantity that is not an integer is not
    turned down: the form with quantity "3.7", a number that is no integer,
    passes the checks and is inserted with quantity 3. *)
Lemma C4_fractional_quantity_inserted :
  let st := listing "Kluai Nam Wa" "25" "3.7" "2024-06-01" "" in
  (exists q, Js.parseFloat (AddProduct.available_quantity (AddProduct.formData st)) = Js.Num q /\
             forall z : Z, ~ Qeq q (inject_Z z)) /\
  let '(w', st') := run AddProduct.handleSubmit (online orchard) st in
  trace w' =
    [ Sent (ReqInsertProduct
        {| products.Insert.farm_id := "farm-1";
           products.Insert.name := "Kluai Nam Wa";
           products.Insert.description := None;
           products.Insert.product_type := Enums.fruit;
           products.Insert.price_per_unit := Js.Num 25;
           products.Insert.available_quantity := Js.Num 3;
           products.Insert.unit := "kg";
           products.Insert.harvest_date := "2024-06-01";
           products.Insert.expiry_date := None;
           products.Insert.image_url := None;
           products.Insert.is_active := true |});
      ToastSuccess "Product added successfully";
      Navigate "/farm/products" ] /\
  length (db_products (db w')) = 3%nat.
Proof.
  split.
  - eexists. split; [vm_compute; reflexivity |].
    intros z H. unfold Qeq in H. simpl in H. lia.
  - vm_compute. split; reflexivity.
Qed.

(** C4 (as amended).  [handleSubmit] turns the form down with one
    validation message, sends nothing to the store and changes nothing,
    whenever the trimmed name is empty, [parseFloat] of the price is NaN or
    is at most 0, [parseInt] of the quantity is NaN or is at most 0, or the
    harvest date is empty; and an insert is sent only for a form that
    passes all of these checks. *)
Theorem C4_validation_before_insert (w : World) (st : AddProduct.State) :
  let f := AddProduct.formData st in
  let '(w', st') := run AddProduct.handleSubmit w st in
  (Js.trim (AddProduct.name f) = "" \/
   Js.isNaN (Js.parseFloat (AddProduct.price_per_unit f)) = true \/
   Js.le_zero (Js.parseFloat (AddProduct.price_per_unit f)) = true \/
   Js.isNaN (Js.parseInt (AddProduct.available_quantity f)) = true \/
   Js.le_zero (Js.parseInt (AddProduct.available_quantity f)) = true \/
   AddProduct.harvest_date f = "" ->
   db w' = db w /\ st' = st /\
   exists msg, msg ∈ validation_messages /\
               trace w' = (trace w ++ [ToastError msg])%list) /\
  (forall events payload,
     trace w' = (trace w ++ events)%list ->
     Sent (ReqInsertProduct payload) ∈ events ->
     passes_validation f).
Proof.
  simpl. destruct (decide (passes_validation (AddProduct.formData st))) as [Hvalid | Hinvalid].
  - destruct (run AddProduct.handleSubmit w st) as [w' st']. split; [| done].
    destruct Hvalid as (Hname & Hp1 & Hp2 & Hq1 & Hq2 & Hh).
    intros [H | [H | [H | [H | [H | H]]]]]; congruence.
  - destruct (handleSubmit_rejected w st Hinvalid) as (msg & Hmsg & ->). split.
    + intros _. repeat split. by exists msg.
    + intros events payload Hevents Hsent. simpl in Hevents.
      apply app_inv_head in Hevents as <-.
      apply list_elem_of_singleton in Hsent. discriminate Hsent.
Qed.

Lemma C4_validation_before_insert_witness :
  let '(w', st') :=
    run AddProduct.handleSubmit (online orchard)
      (listing "   " "25" "20" "2024-06-01" "") in
  db w' = orchard /\ exists msg, trace w' = [ToastError msg].
Proof.
  pose proof (C4_validation_before_insert (online orchard)
                (listing "   " "25" "20" "2024-06-01" "")) as H.
  cbv zeta in H.
  destruct (run AddProduct.handleSubmit (online orchard)
              (listing "   " "25" "20" "2024-06-01" "")) as [w' st'].
  destruct H as [H _].
  destruct H as (Hdb & _ & msg & _ & Htrace); [left; reflexivity |].
  split; [exact Hdb | by exists msg].
Defined.

(** C5 (as stated, refuted).  A form whose expiry date is earlier than its
    harvest date is not turned down: the insert is sent with both dates and
    the store, serving it, holds the product. *)
Lemma C5_expiry_before_harvest_inserted :
  let st := listing "Kluai Nam Wa" "25" "20" "2024-06-01" "2024-05-01" in
  let f := AddProduct.formData st in
  (AddProduct.expiry_date f <> "" /\
   String.ltb (AddProduct.expiry_date f) (AddProduct.harvest_date f) = true) /\
  let '(w', st') := run AddProduct.handleSubmit (online orchard) st in
  trace w' =
    [ Sent (ReqInsertProduct
        {| products.Insert.farm_id := "farm-1";
           products.Insert.name := "Kluai Nam Wa";
           products.Insert.description := None;
           products.Insert.product_type := Enums.fruit;
           products.Insert.price_per_unit := Js.Num 25;
           products.Insert.available_quantity := Js.Num 20;
           products.Insert.unit := "kg";
           products.Insert.harvest_date := "2024-06-01";
           products.Insert.expiry_date := Some "2024-05-01";
           products.Insert.image_url := None;
           products.Insert.is_active := true |});
      ToastSuccess "Product added successfully";
      Navigate "/farm/products" ] /\
  (products.harvest_date <$> db_products (db w'),
   products.expiry_date <$> db_products (db w')) =
    (["2024-05-01"; "2024-03-15"; "2024-06-01"],
     [Some "2024-05-15"; None; Some "2024-05-01"]).
Proof.
  split.
  - split; [discriminate | reflexivity].
  - vm_compute. split; reflexivity.
Qed.

(** C5 (as amended).  [handleSubmit] does not compare the expiry date with
    the harvest date: for a form that passes the checks of name, price,
    quantity and harvest date, with a farm id loaded, the insert is sent
    with the expiry date as entered (null when empty), whatever the order
    of the two dates, and the store, when it serves the request, holds the
    new product with these dates. *)
Theorem C5_expiry_date_passed_through (w : World) (st : AddProduct.State)
    (fid : string) :
  AddProduct.farmId st = Some fid -> fid <> "" ->
  passes_validation (AddProduct.formData st) ->
  let f := AddProduct.formData st in
  let '(w', st') := run AddProduct.handleSubmit w st in
  exists payload rest,
    trace w' = (trace w ++ Sent (ReqInsertProduct payload) :: rest)%list /\
    products.Insert.harvest_date payload = AddProduct.harvest_date f /\
    products.Insert.expiry_date payload =
      (if decide (AddProduct.expiry_date f = "") then None
       else Some (AddProduct.expiry_date f)) /\
    (forall uuid now, backend w (clock w) = Serves uuid now ->
       db_products (db w') =
         (db_products (db w) ++ [products.new_row uuid now payload])%list).
Proof.
  intros Hfid Hne Hvalid. simpl.
  rewrite (handleSubmit_valid w st fid Hfid Hne Hvalid).
  assert (Js.or_null (AddProduct.expiry_date (AddProduct.formData st)) =
          (if decide (AddProduct.expiry_date (AddProduct.formData st) = "")
           then None else Some (AddProduct.expiry_date (AddProduct.formData st))))
    as Hexpiry.
  { unfold Js.or_null. by destruct (AddProduct.expiry_date _). }
  destruct (backend w (clock w)) as [e | uuid now];
    exists (payload_of fid (AddProduct.formData st)); eexists;
    (split; [simpl; rewrite <- ?app_assoc; reflexivity |]);
    (split; [reflexivity |]); (split; [exact Hexpiry |]).
  - intros uuid now H. discriminate H.
  - intros uuid' now' H. injection H as <- <-. reflexivity.
Qed.

Lemma C5_expiry_date_passed_through_witness :
  let '(w', st') :=
    run AddProduct.handleSubmit (online orchard)
      (listing "Kluai Nam Wa" "25" "20" "2024-06-01" "2024-05-01") in
  exists payload rest,
    trace w' = Sent (ReqInsertProduct payload) :: rest /\
    products.Insert.harvest_date payload = "2024-06-01" /\
    products.Insert.expiry_date payload = Some "2024-05-01".
Proof.
  assert (passes_validation
            (AddProduct.formData
               (listing "Kluai Nam Wa" "25" "20" "2024-06-01" "2024-05-01")))
    as Hvalid by (by apply (bool_decide_unpack _); vm_compute).
  pose proof (C5_expiry_date_passed_through (online orchard)
                (listing "Kluai Nam Wa" "25" "20" "2024-06-01" "2024-05-01")
                "farm-1" eq_refl ltac:(discriminate) Hvalid) as H.
  cbv zeta in H.
  destruct (run AddProduct.handleSubmit (online orchard)
              (listing "Kluai Nam Wa" "25" "20" "2024-06-01" "2024-05-01"))
    as [w' st'].
  destruct H as (payload & rest & Htrace & Hharvest & Hexpiry & _).
  exists payload, rest. done.
Defined.

End AddProductClaims.

(** ** Writes to the store *)

Section Writes.

#[local] Arguments Js.trim : simpl never.
#[local] Arguments Js.parseFloat : simpl never.
#[local] Arguments Js.parseInt : simpl never.

Lemma Forall2_update_where {R : Type} (P : relation R) (matches : R -> bool)
    (change : R -> R) (l : list R) :
  (forall r, P r r) -> (forall r, matches r = true -> P r (change r)) ->
  Forall2 P l (update_where matches change l).
Proof.
  intros Hrefl Hchange. unfold update_where.
  induction l as [|r l IH]; simpl; constructor; [| exact IH].
  destruct (matches r) eqn:E; auto.
Qed.

Lemma Forall2_same {R : Type} (P : relation R) (l : list R) :
  (forall r, P r r) -> Forall2 P l l.
Proof. intros H. induction l; constructor; auto. Qed.

Lemma same_but_is_active_refl (r : products.Row) : same_but_is_active r r.
Proof. unfold same_but_is_active. tauto. Qed.

Lemma same_but_is_active_update (u : products.Update.t) (r : products.Row) :
  same_but_is_active r (products.apply_update u r).
Proof. unfold same_but_is_active. simpl. tauto. Qed.

Lemma same_but_editable_refl (r : farm_profiles.Row) : same_but_editable r r.
Proof. unfold same_but_editable. tauto. Qed.

Lemma same_but_editable_update (u : farm_profiles.Update.t) (r : farm_profiles.Row) :
  same_but_editable r (farm_profiles.apply_update u r).
Proof. unfold same_but_editable. simpl. tauto. Qed.

Lemma deleteProduct_rows (w : World) (st : ManageProducts.State)
    (confirmed : bool) (productId : string) :
  Forall2 (soft_deleted productId) (db_products (db w))
    (db_products (db (run (ManageProducts.deleteProduct confirmed productId) w st).1)).
Proof.
  assert (forall r, soft_deleted productId r r) as Hrefl.
  { intros r. split; [apply same_but_is_active_refl | by left]. }
  unfold ManageProducts.deleteProduct. unfold_eff. unfold_store. simpl.
  destruct confirmed; simpl; [| by apply Forall2_same].
  destruct (backend w (clock w)); simpl; [by apply Forall2_same |].
  apply Forall2_update_where; [exact Hrefl |].
  intros r Hr. apply bool_decide_eq_true in Hr.
  split; [apply same_but_is_active_update | right; by split].
Qed.

Lemma toggleActive_rows (w : World) (st : ManageProducts.State)
    (productId : string) (currentState : option bool) :
  Forall2 same_but_is_active (db_products (db w))
    (db_products (db (run (ManageProducts.toggleActive productId currentState) w st).1)).
Proof.
  unfold ManageProducts.toggleActive. unfold_eff. unfold_store. simpl.
  destruct (backend w (clock w)); simpl;
    [by apply Forall2_same, same_but_is_active_refl |].
  apply Forall2_update_where;
    auto using same_but_is_active_refl, same_but_is_active_update.
Qed.

Lemma loadProduct_db (w : World) (st : ProductDetail.State) (id : string) :
  db (run (ProductDetail.loadProduct id) w st).1 = db w.
Proof.
  unfold ProductDetail.loadProduct. unfold_eff. unfold_store. simpl.
  destruct (backend w (clock w)); simpl; [done |].
  destruct (ProductDetail.active_product id (db w)) as [|p [|p' l]]; simpl; [done | | done].
  destruct (backend w (S (clock w))); simpl; [done |].
  destruct (ProductDetail.farm_of (products.farm_id p) (db w)) as [|f [|f' l]]; done.
Qed.

Lemma checkFarmProfile_db (w : World) (st : AddProduct.State)
    (session : option string) :
  db (run (AddProduct.checkFarmProfile session) w st).1 = db w.
Proof.
  unfold AddProduct.checkFarmProfile. unfold_eff. unfold_store. simpl.
  destruct session as [user_id|]; simpl; [| done].
  destruct (backend w (clock w)); simpl; [done |].
  destruct (AddProduct.farm_id_of user_id (db w)) as [|f [|f' l]]; done.
Qed.

Lemma handleSubmit_rows (w : World) (st : AddProduct.State) :
  exists new, db_products (db (run AddProduct.handleSubmit w st).1) =
              (db_products (db w) ++ new)%list.
Proof.
  destruct (decide (passes_validation (AddProduct.formData st))) as [Hvalid | Hinvalid].
  - destruct (AddProduct.farmId st) as [[|c fid]|] eqn:Hfid.
    + exists []. unfold AddProduct.handleSubmit. unfold_eff. simpl. rewrite Hfid.
      simpl. by rewrite app_nil_r.
    + assert (String c fid <> "") as Hne by done.
      rewrite (handleSubmit_valid w st _ Hfid Hne Hvalid).
      destruct (backend w (clock w)); simpl; [exists []; by rewrite app_nil_r |].
      by eexists.
    + exists []. unfold AddProduct.handleSubmit. unfold_eff. simpl. rewrite Hfid.
      simpl. by rewrite app_nil_r.
  - destruct (handleSubmit_rejected w st Hinvalid) as (msg & _ & ->).
    exists []. simpl. by rewrite app_nil_r.
Qed.

Lemma saveProfile_products (w : World) (st : UpdateProfile.State) :
  db_products (db (run UpdateProfile.saveProfile w st).1) = db_products (db w).
Proof.
  unfold UpdateProfile.saveProfile. unfold_eff. unfold_store. simpl.
  destruct (UpdateProfile.profile st); simpl; [| done].
  destruct (Js.truthy _); simpl; [| done].
  destruct (backend w (clock w)); done.
Qed.

(** What [saveFarmProfile] does, case by case. *)
Lemma saveFarmProfile_cases (w : World) (st : UpdateProfile.State) :
  let form := UpdateProfile.farmForm st in
  let '(w', st') := run UpdateProfile.saveFarmProfile w st in
  db_products (db w') = db_products (db w) /\
  db_profiles (db w') = db_profiles (db w) /\
  Forall2 (profile_edited (UpdateProfile.farmProfile st))
    (db_farm_profiles (db w)) (db_farm_profiles (db w')) /\
  (Js.trim (UpdateProfile.farm_name form) = "" \/
   Js.trim (UpdateProfile.farm_location form) = "" ->
   db w' = db w /\ st' = st /\
   (trace w' = trace w \/ exists msg, trace w' = (trace w ++ [ToastError msg])%list)).
Proof.
  assert (forall r, profile_edited (UpdateProfile.farmProfile st) r r) as Hrefl.
  { intros r. split; [apply same_but_editable_refl | by left]. }
  unfold UpdateProfile.saveFarmProfile. unfold_eff. unfold_store. simpl.
  destruct (UpdateProfile.farmProfile st) as [t|]; simpl;
    [| repeat split; auto using Forall2_same].
  destruct (Js.truthy (Js.trim (UpdateProfile.farm_name _))) eqn:Hname; simpl;
    [| repeat split; eauto using Forall2_same].
  destruct (Js.truthy (Js.trim (UpdateProfile.farm_location _))) eqn:Hloc; simpl;
    [| repeat split; eauto using Forall2_same].
  apply truthy_true_iff in Hname, Hloc.
  destruct (backend w (clock w)); simpl.
  - split; [done |]. split; [done |]. split; [by apply Forall2_same |].
    intros [? | ?]; done.
  - split; [done |]. split; [done |]. split; [| intros [? | ?]; done].
    apply Forall2_update_where; [exact Hrefl |].
    intros r Hr. apply bool_decide_eq_true in Hr.
    split; [apply same_but_editable_update | right; by exists t].
Qed.

(** C6.  [deleteProduct] removes no product row: row by row, the products
    table after it is the table before it, but for [is_active] of the row
    of the given id, which is set to false; and no handler of the program
    removes a product row: after any of them every row is still in its
    place, unchanged but for [is_active], with new rows only added behind. *)
Theorem C6_delete_is_soft (w : World) :
  (forall (st : ManageProducts.State) (confirmed : bool) (productId : string),
     Forall2 (soft_deleted productId) (db_products (db w))
       (db_products
          (db (run (ManageProducts.deleteProduct confirmed productId) w st).1))) /\
  (forall op : operation,
     exists rows new,
       db_products (db (perform op w)) = (rows ++ new)%list /\
       Forall2 same_but_is_active (db_products (db w)) rows).
Proof.
  split; [intros; apply deleteProduct_rows |].
  assert (Forall2 same_but_is_active (db_products (db w)) (db_products (db w)))
    as Hsame by apply Forall2_same, same_but_is_active_refl.
  intros [st | id st | session st | st | productId currentState st
         | confirmed productId st | st | st]; simpl.
  - exists (db_products (db w)), []. by rewrite fetchProducts_db, app_nil_r.
  - exists (db_products (db w)), []. by rewrite loadProduct_db, app_nil_r.
  - exists (db_products (db w)), []. by rewrite checkFarmProfile_db, app_nil_r.
  - destruct (handleSubmit_rows w st) as [new ->]. by exists (db_products (db w)), new.
  - eexists _, []. rewrite app_nil_r. split; [reflexivity | apply toggleActive_rows].
  - eexists _, []. rewrite app_nil_r. split; [reflexivity |].
    eapply Forall2_impl; [apply deleteProduct_rows |]. by intros r r' [H _].
  - exists (db_products (db w)), []. by rewrite saveProfile_products, app_nil_r.
  - exists (db_products (db w)), []. rewrite app_nil_r. split; [| done].
    pose proof (saveFarmProfile_cases w st) as H. cbv zeta in H.
    destruct (run UpdateProfile.saveFarmProfile w st) as [w' st']. by destruct H.
Qed.

(** C7.  [saveFarmProfile] writes the three editable columns only: row by
    row, the farm-profile table after it agrees with the table before it on
    rating, total_reviews, total_sales and every other column that is not
    farm_name, farm_location or farm_description, only the row of the loaded
    farm profile may differ at all, and the other tables are as they were;
    and when the farm name or the farm location is blank, it turns the form
    down and sends nothing to the store. *)
Theorem C7_saveFarmProfile_editable_only (w : World) (st : UpdateProfile.State) :
  let form := UpdateProfile.farmForm st in
  let '(w', st') := run UpdateProfile.saveFarmProfile w st in
  Forall2 (profile_edited (UpdateProfile.farmProfile st))
    (db_farm_profiles (db w)) (db_farm_profiles (db w')) /\
  db_products (db w') = db_products (db w) /\
  db_profiles (db w') = db_profiles (db w) /\
  (Js.trim (UpdateProfile.farm_name form) = "" \/
   Js.trim (UpdateProfile.farm_location form) = "" ->
   db w' = db w /\
   (trace w' = trace w \/ exists msg, trace w' = (trace w ++ [ToastError msg])%list)).
Proof.
  pose proof (saveFarmProfile_cases w st) as H. cbv zeta in *.
  destruct (run UpdateProfile.saveFarmProfile w st) as [w' st'].
  destruct H as (Hproducts & Hprofiles & Hfarms & Hblank).
  split; [done |]. split; [done |]. split; [done |].
  intros Hb. by destruct (Hblank Hb) as (? & ? & ?).
Qed.

Lemma C7_saveFarmProfile_editable_only_witness :
  let '(w', st') :=
    run UpdateProfile.saveFarmProfile (online orchard)
      (farm_form "  " "Chumphon" "Bananas since 1990") in
  db w' = orchard.
Proof.
  pose proof (C7_saveFarmProfile_editable_only (online orchard)
                (farm_form "  " "Chumphon" "Bananas since 1990")) as H.
  cbv zeta in H.
  destruct (run UpdateProfile.saveFarmProfile (online orchard)
              (farm_form "  " "Chumphon" "Bananas since 1990")) as [w' st'].
  destruct H as (_ & _ & _ & H).
  destruct H as [H _]; [left; reflexivity | exact H].
Defined.

(** A served edit on the small store: the three columns change, the
    derived columns stay. *)
Example saveFarmProfile_on_orchard :
  db_farm_profiles
    (db (run UpdateProfile.saveFarmProfile (online orchard)
           (farm_form " Suan Kluai Hom " "Ranong" "")).1) =
  [ {| farm_profiles.created_at := Some "2024-01-10T08:00:00Z";
       farm_profiles.farm_description := None;
       farm_profiles.farm_image_url := None;
       farm_profiles.farm_location := "Ranong";
       farm_profiles.farm_name := "Suan Kluai Hom";
       farm_profiles.id := "farm-1";
       farm_profiles.rating := Some (Js.Num 4.5);
       farm_profiles.total_reviews := Some (Js.Num 12);
       farm_profiles.total_sales := Some (Js.Num 3400);
       farm_profiles.updated_at := Some "2024-02-01T08:00:00Z";
       farm_profiles.user_id := "user-1";
       farm_profiles.verified := Some true |} ].
Proof. vm_compute. reflexivity. Qed.

(** A confirmed delete on the small store: both rows stay, the first one
    retired; the view drops the product from its own list. *)
Example deleteProduct_on_orchard :
  let '(w', st') :=
    run (ManageProducts.deleteProduct true "prod-1") (online orchard) my_products in
  (products.id <$> db_products (db w'), products.is_active <$> db_products (db w')) =
    (["prod-1"; "prod-2"], [Some false; Some false]) /\
  ManageProducts.products st' = [] /\
  trace w' = [ Sent (ReqUpdateProduct {| products.Update.is_active := false |} "prod-1");
               ToastSuccess "Product deleted" ].
Proof. vm_compute. repeat split; reflexivity. Qed.

End Writes.

(** * Further properties of the handlers *)

(** ** Trimming *)

Section Trim.

Lemma trimStart_head (s : string) :
  match Js.trimStart s with
  | EmptyString => True
  | String c _ => Js.isWhiteSpace c = false
  end.
Proof.
  induction s as [|c s IH]; simpl; [done |].
  destruct (Js.isWhiteSpace c) eqn:E; [exact IH | exact E].
Qed.

Lemma trimEnd_keeps_head (c : ascii) (s : string) :
  Js.isWhiteSpace c = false -> exists t, Js.trimEnd (String c s) = String c t.
Proof.
  intros H. simpl. destruct (Js.trimEnd s) as [|d t].
  - rewrite H. by exists EmptyString.
  - by exists (String d t).
Qed.

Lemma trimEnd_idempotent (s : string) : Js.trimEnd (Js.trimEnd s) = Js.trimEnd s.
Proof.
  induction s as [|c s IH]; simpl; [done |].
  destruct (Js.trimEnd s) as [|d t] eqn:E.
  - destruct (Js.isWhiteSpace c) eqn:Hc; simpl; [done | by rewrite Hc].
  - simpl in *. by rewrite IH.
Qed.

Lemma trim_idempotent (s : string) : Js.trim (Js.trim s) = Js.trim s.
Proof.
  unfold Js.trim. pose proof (trimStart_head s) as H.
  destruct (Js.trimStart s) as [|c t]; [done |].
  destruct (trimEnd_keeps_head c t H) as [u E]. rewrite E.
  simpl Js.trimStart. rewrite H, <- E. apply trimEnd_idempotent.
Qed.

Lemma trim_empty : Js.trim "" = "".
Proof. reflexivity. Qed.

End Trim.

(** ** Creating a product, continued *)

Section AddProductMore.

#[local] Arguments Js.parseFloat : simpl never.
#[local] Arguments Js.parseInt : simpl never.
#[local] Arguments Js.trim : simpl never.

Lemma or_null_not_empty (s : string) : Js.or_null s <> Some "".
Proof. unfold Js.or_null. destruct s; simpl; congruence. Qed.

(** What [handleSubmit] does, in every case: it turns the form down with a
    validation message, or it sends the insert of the payload of the form. *)
Lemma handleSubmit_cases (w : World) (st : AddProduct.State) :
  (exists msg, msg ∈ validation_messages /\
     run AddProduct.handleSubmit w st = (emit (ToastError msg) w, st)) \/
  (exists fid rest st',
     AddProduct.farmId st = Some fid /\ fid <> "" /\
     passes_validation (AddProduct.formData st) /\
     (run AddProduct.handleSubmit w st).2 = st' /\
     Forall (fun e => forall r, e <> Sent r) rest /\
     trace (run AddProduct.handleSubmit w st).1 =
       (trace w ++ Sent (ReqInsertProduct (payload_of fid (AddProduct.formData st)))
                   :: rest)%list).
Proof.
  destruct (decide (passes_validation (AddProduct.formData st))) as [Hvalid | Hinvalid];
    [| left; by apply handleSubmit_rejected].
  destruct (AddProduct.farmId st) as [[|c fid]|] eqn:Hfid.
  - left. exists "No farm profile found". split; [set_solver |].
    unfold AddProduct.handleSubmit. unfold_eff. simpl. by rewrite Hfid.
  - right. assert (String c fid <> "") as Hne by done.
    exists (String c fid). rewrite (handleSubmit_valid w st _ Hfid Hne Hvalid).
    destruct (backend w (clock w)); simpl; eexists _, _;
      (split; [done |]); (split; [done |]); (split; [done |]);
      (split; [reflexivity |]);
      (split; [| rewrite <- ?app_assoc; reflexivity]);
      repeat constructor; intros r; discriminate.
  - left. exists "No farm profile found". split; [set_solver |].
    unfold AddProduct.handleSubmit. unfold_eff. simpl. by rewrite Hfid.
Qed.

(** X1.  Whatever the form, a product that [handleSubmit] sends to the
    store has a trimmed, non-empty name, a price and a quantity that are
    numbers above 0, a harvest date, the farm id the form has loaded, is
    active, and has null rather than empty optional texts. *)
Theorem X1_inserted_product_well_formed (w : World) (st : AddProduct.State)
    (events : list event) (payload : products.Insert.t) :
  trace (run AddProduct.handleSubmit w st).1 = (trace w ++ events)%list ->
  Sent (ReqInsertProduct payload) ∈ events ->
  Js.trim (products.Insert.name payload) = products.Insert.name payload /\
  products.Insert.name payload <> "" /\
  Js.isNaN (products.Insert.price_per_unit payload) = false /\
  Js.le_zero (products.Insert.price_per_unit payload) = false /\
  Js.isNaN (products.Insert.available_quantity payload) = false /\
  Js.le_zero (products.Insert.available_quantity payload) = false /\
  products.Insert.harvest_date payload <> "" /\
  products.Insert.is_active payload = true /\
  AddProduct.farmId st = Some (products.Insert.farm_id payload) /\
  products.Insert.farm_id payload <> "" /\
  products.Insert.description payload <> Some "" /\
  products.Insert.expiry_date payload <> Some "" /\
  products.Insert.image_url payload <> Some "".
Proof.
  intros Htrace Hsent.
  destruct (handleSubmit_cases w st) as [(msg & _ & E) | (fid & rest & st' & Hfid & Hne & Hvalid & _ & Hrest & E)].
  - rewrite E in Htrace. simpl in Htrace. apply app_inv_head in Htrace as <-.
    apply list_elem_of_singleton in Hsent. discriminate Hsent.
  - rewrite E in Htrace. apply app_inv_head in Htrace as <-.
    apply elem_of_cons in Hsent as [Hsent | Hsent].
    + injection Hsent as ->.
      destruct Hvalid as (Hname & Hp1 & Hp2 & Hq1 & Hq2 & Hh). simpl.
      repeat split; auto using trim_idempotent, or_null_not_empty.
    + rewrite Forall_forall in Hrest. by destruct (Hrest _ Hsent (ReqInsertProduct payload)).
Qed.

Lemma X1_inserted_product_well_formed_witness :
  exists payload,
    products.Insert.name payload = "Kluai Nam Wa" /\
    AddProduct.farmId (listing " Kluai Nam Wa " "25" "20" "2024-06-01" "") =
      Some (products.Insert.farm_id payload).
Proof.
  eexists. 
  pose proof (X1_inserted_product_well_formed (online orchard)
                (listing " Kluai Nam Wa " "25" "20" "2024-06-01" "") _ _
                eq_refl ltac:(left)) as H.
  split; [| apply H]. reflexivity.
Defined.

(** X2.  When the store fails the insert of a form that passes the checks,
    [handleSubmit] shows the error (its message, or "Failed to add product"
    when the error is no [Error]), stays on the form, keeps what was typed,
    leaves the store as it was and is ready to submit again. *)
Theorem X2_failed_insert_leaves_form (w : World) (st : AddProduct.State)
    (fid : string) (e : PostgrestError) :
  AddProduct.farmId st = Some fid -> fid <> "" ->
  passes_validation (AddProduct.formData st) ->
  backend w (clock w) = Fails e ->
  let '(w', st') := run AddProduct.handleSubmit w st in
  db w' = db w /\
  trace w' = (trace w ++
              [Sent (ReqInsertProduct (payload_of fid (AddProduct.formData st)));
               ToastError (if instanceof_Error e then message e
                           else "Failed to add product")])%list /\
  AddProduct.formData st' = AddProduct.formData st /\
  AddProduct.farmId st' = AddProduct.farmId st /\
  AddProduct.submitting st' = false.
Proof.
  intros Hfid Hne Hvalid Hfail.
  rewrite (handleSubmit_valid w st fid Hfid Hne Hvalid), Hfail. simpl.
  repeat split. by rewrite <- app_assoc.
Qed.

End AddProductMore.

(** ** The catalog, continued *)

Section CatalogMore.

Lemma elem_of_distinct (seen xs : list string) (x : string) :
  x ∈ Market.distinct seen xs <-> x ∈ xs /\ x ∉ seen.
Proof.
  revert seen. induction xs as [|y xs IH]; intros seen; simpl.
  - split; [intros H; by apply elem_of_nil in H | intros [H _]; by apply elem_of_nil in H].
  - destruct (decide (y ∈ seen)) as [Hy | Hy].
    + rewrite IH, elem_of_cons. split; [tauto |].
      intros [[-> | H] Hx]; [done | tauto].
    + rewrite !elem_of_cons, IH, elem_of_cons. split.
      * intros [-> | [H Hx]]; [tauto | tauto].
      * intros [[-> | H] Hx]; [by left |].
        destruct (decide (x = y)) as [-> | Hne]; [by left | right; tauto].
Qed.

Lemma new_Map_lookup_is_Some {V : Type} (entries : list (string * V)) (k : string) :
  k ∈ entries.*1 -> is_Some (Market.new_Map entries !! k).
Proof.
  unfold Market.new_Map.
  assert (forall m : gmap string V,
    k ∈ entries.*1 \/ is_Some (m !! k) ->
    is_Some (fold_left (fun m kv => <[kv.1 := kv.2]> m) entries m !! k)) as H.
  { induction entries as [|[k' v'] entries IH]; intros m Hm; simpl.
    - destruct Hm as [Hm | Hm]; [by apply elem_of_nil in Hm | done].
    - apply IH. destruct Hm as [Hm | Hm].
      + simpl in Hm. apply elem_of_cons in Hm as [-> | Hm]; [right | by left].
        rewrite lookup_insert_eq. by eexists.
      + right. destruct (decide (k' = k)) as [-> | Hne].
        * rewrite lookup_insert_eq. by eexists.
        * by rewrite lookup_insert_ne. }
  intros Hk. apply H. by left.
Qed.

Lemma NoDup_keys_agree {V : Type} (entries : list (string * V)) (k : string)
    (v v' : V) :
  NoDup entries.*1 -> (k, v) ∈ entries -> (k, v') ∈ entries -> v = v'.
Proof.
  induction entries as [|[k0 v0] entries IH]; intros Hnd H H';
    [by apply elem_of_nil in H |].
  simpl in Hnd. apply NoDup_cons in Hnd as [Hk0 Hnd].
  apply elem_of_cons in H as [H | H]; apply elem_of_cons in H' as [H' | H'].
  - congruence.
  - injection H as -> ->. destruct Hk0. apply list_elem_of_fmap. by exists (k0, v').
  - injection H' as -> ->. destruct Hk0. apply list_elem_of_fmap. by exists (k0, v).
  - by apply IH.
Qed.

Lemma sublist_NoDup_fmap {A B : Type} (f : A -> B) (l k : list A) :
  l `sublist_of` k -> NoDup (f <$> k) -> NoDup (f <$> l).
Proof.
  intros Hsub.
  assert ((f <$> l) `sublist_of` (f <$> k)) as Hmap.
  { induction Hsub; csimpl; [constructor | by apply sublist_skip | by apply sublist_cons]. }
  intros Hnd. by eapply sublist_NoDup.
Qed.

(** The farm the listing attaches when the account ids of the farm
    profiles are unique. *)
Lemma catalog_farm_of_user (d : Db) (p : Market.Product) (f : farm_profiles.Row) :
  NoDup (farm_profiles.user_id <$> db_farm_profiles d) ->
  p ∈ catalog d -> f ∈ db_farm_profiles d ->
  farm_profiles.user_id f = products.farm_id (Market.row p) ->
  Market.farm_profiles p = Market.selected f.
Proof.
  intros Hnd Hp Hf Hkey. unfold catalog in Hp.
  apply list_elem_of_fmap in Hp as [r [-> Hr]]. simpl in *.
  set (farmIds := Market.distinct [] (products.farm_id <$> Market.active_products d)) in *.
  assert (f ∈ Market.farms_of farmIds d) as Hfetched.
  { unfold Market.farms_of, in_. apply list_elem_of_filter. split; [| done].
    rewrite Hkey. apply elem_of_distinct. split; [| apply not_elem_of_nil].
    apply list_elem_of_fmap. by exists r. }
  set (entries := (fun f => (farm_profiles.user_id f, f)) <$> Market.farms_of farmIds d).
  assert (NoDup entries.*1) as Hkeys.
  { unfold entries. rewrite <- list_fmap_compose.
    apply (sublist_NoDup_fmap _ _ (db_farm_profiles d)); [| done].
    unfold Market.farms_of, in_. apply sublist_filter. }
  assert ((products.farm_id r, f) ∈ entries) as Hentry.
  { unfold entries. apply list_elem_of_fmap. exists f. by rewrite Hkey. }
  destruct (new_Map_lookup_is_Some entries (products.farm_id r)) as [f' Hf'].
  { apply list_elem_of_fmap. by exists (products.farm_id r, f). }
  unfold Market.with_farm. simpl. fold farmIds. fold entries. rewrite Hf'.
  apply new_Map_lookup_Some in Hf'.
  by rewrite (NoDup_keys_agree entries _ f f' Hkeys Hentry Hf').
Qed.

(** X7.  When the store serves the two requests, the list that
    [fetchProducts] loads holds the active products of the store, each as
    often as the store holds it and none else. *)
Theorem X7_listing_complete (w : World) (st : Market.State) :
  serves w 0 = true -> serves w 1 = true ->
  Market.row <$> Market.products (run Market.fetchProducts w st).2
  ≡ₚ filter (fun p => products.is_active p = Some true) (db_products (db w)).
Proof.
  intros H0 H1. rewrite fetchProducts_products, H0, H1. simpl.
  rewrite catalog_rows. unfold Market.active_products, order_asc, eq_.
  apply merge_sort_Permutation.
Qed.

Lemma X7_listing_complete_witness :
  Market.row <$> Market.products (run Market.fetchProducts (online orchard) Market.initial).2
  ≡ₚ [kluai_hom].
Proof.
  exact (X7_listing_complete (online orchard) Market.initial eq_refl eq_refl).
Defined.

(** X8.  The farm that [fetchProducts] attaches to a product is found by
    account: with unique account ids among the farm profiles, a listed
    product whose [farm_id] is the [user_id] of a farm profile carries the
    name, location and rating of that profile, and a listed product carries
    the placeholder only if no farm profile has that [user_id]. *)
Theorem X8_listing_farm_by_account (w : World) (st : Market.State)
    (p : Market.Product) :
  NoDup (farm_profiles.user_id <$> db_farm_profiles (db w)) ->
  serves w 0 = true -> serves w 1 = true ->
  p ∈ Market.products (run Market.fetchProducts w st).2 ->
  (forall f, f ∈ db_farm_profiles (db w) ->
     farm_profiles.user_id f = products.farm_id (Market.row p) ->
     Market.user_id (Market.farm_profiles p) = Some (farm_profiles.user_id f) /\
     Market.farm_name (Market.farm_profiles p) = farm_profiles.farm_name f /\
     Market.farm_location (Market.farm_profiles p) = farm_profiles.farm_location f /\
     Market.rating (Market.farm_profiles p) = farm_profiles.rating f) /\
  (Market.farm_profiles p =
     {| Market.user_id := None; Market.farm_name := "Unknown Farm";
        Market.farm_location := "Unknown"; Market.rating := Some (Js.Num 0) |} ->
   forall f, f ∈ db_farm_profiles (db w) ->
     farm_profiles.user_id f <> products.farm_id (Market.row p)).
Proof.
  intros Hnd H0 H1. rewrite fetchProducts_products, H0, H1. simpl. intros Hp.
  split.
  - intros f Hf Hkey. by rewrite (catalog_farm_of_user (db w) p f Hnd Hp Hf Hkey).
  - intros Hunknown f Hf Hkey.
    rewrite (catalog_farm_of_user (db w) p f Hnd Hp Hf Hkey) in Hunknown.
    discriminate Hunknown.
Qed.

End CatalogMore.

Section CatalogViews.

Lemma X8_listing_farm_by_account_witness :
  Market.farm_profiles <$>
    head (Market.products
            (run Market.fetchProducts (online orchard_by_account) Market.initial).2) =
  Some {| Market.user_id := Some "user-1"; Market.farm_name := "Suan Kluai";
          Market.farm_location := "Chumphon"; Market.rating := Some (Js.Num 4.5) |}.
Proof.
  assert (NoDup (farm_profiles.user_id <$> db_farm_profiles orchard_by_account))
    as Hnd by (by apply (bool_decide_unpack _)).
  pose proof (fun p => X8_listing_farm_by_account (online orchard_by_account)
                         Market.initial p Hnd eq_refl eq_refl) as H.
  destruct (Market.products
              (run Market.fetchProducts (online orchard_by_account) Market.initial).2)
    as [|p l] eqn:E; [vm_compute in E; discriminate E |].
  simpl. f_equal.
  destruct (H p ltac:(left)) as [Hfound _].
  destruct (Hfound suan_kluai) as (H1 & H2 & H3 & H4);
    [left | vm_compute in E; injection E as <- _; reflexivity |].
  destruct (Market.farm_profiles p). simpl in H1, H2, H3, H4. by subst.
Defined.

(** X9.  When the store fails one of the two requests, [fetchProducts]
    keeps the list it had, changes nothing in the store and ends with the
    one toast "Failed to load products", whatever the error says; and in
    every case it ends the loading state and leaves the search string and
    the type filter alone. *)
Theorem X9_listing_failure (w : World) (st : Market.State) :
  let '(w', st') := run Market.fetchProducts w st in
  Market.loading st' = false /\
  Market.search st' = Market.search st /\
  Market.typeFilter st' = Market.typeFilter st /\
  db w' = db w /\
  (serves w 0 && serves w 1 = false ->
   Market.products st' = Market.products st /\
   exists selects,
     Forall (fun e => exists table, e = Sent (ReqSelect table)) selects /\
     trace w' = (trace w ++ selects ++ [ToastError "Failed to load products"])%list).
Proof.
  unfold serves, Market.fetchProducts. unfold_eff. unfold_store. simpl.
  destruct (backend w (clock w)); simpl.
  - repeat split. exists [Sent (ReqSelect "products")].
    split; [repeat constructor; by eexists | by rewrite <- app_assoc].
  - destruct (backend w (S (clock w))); simpl; [| repeat split; done].
    repeat split.
    exists [Sent (ReqSelect "products"); Sent (ReqSelect "farm_profiles")].
    split; [repeat constructor; by eexists | by rewrite <- !app_assoc].
Qed.

Lemma X9_listing_failure_witness :
  trace (run Market.fetchProducts (offline orchard) Market.initial).1 =
    [Sent (ReqSelect "products"); ToastError "Failed to load products"].
Proof.
  pose proof (X9_listing_failure (offline orchard) Market.initial) as H.
  destruct (run Market.fetchProducts (offline orchard) Market.initial) as [w' st'] eqn:E.
  destruct H as (_ & _ & _ & _ & H).
  destruct H as (_ & selects & _ & H); [reflexivity |].
  vm_compute in E. injection E as <- _. reflexivity.
Defined.

Lemma filter_sublist {A : Type} (keep : A -> bool) (l : list A) :
  List.filter keep l `sublist_of` l.
Proof.
  induction l as [|x l IH]; simpl; [constructor |].
  destruct (keep x); [by apply sublist_skip | by apply sublist_cons].
Qed.

Lemma StronglySorted_sublist {A : Type} (R : relation A) (l k : list A) :
  l `sublist_of` k -> StronglySorted R k -> StronglySorted R l.
Proof.
  intros Hsub. induction Hsub as [|x l k Hsub IH|x l k Hsub IH]; intros Hk.
  - constructor.
  - apply StronglySorted_inv in Hk as [Hk Hx]. constructor; [by apply IH |].
    rewrite Forall_forall in *. intros y Hy. apply Hx. by eapply elem_of_sublist.
  - apply StronglySorted_inv in Hk as [Hk _]. by apply IH.
Qed.

(** X10.  Whatever is typed into the search box and chosen as type, the
    products shown after [fetchProducts] are products of the loaded list in
    the order of that list: they are active products of the store, in
    ascending order of harvest date. *)
Theorem X10_shown_products_active_by_date (w : World) (search typeFilter : string) :
  let loaded := (run Market.fetchProducts w Market.initial).2 in
  let shown :=
    Market.filteredProducts
      (Market.setTypeFilter typeFilter (Market.setSearch search loaded)) in
  shown `sublist_of` Market.products loaded /\
  Forall (fun p => Market.row p ∈ db_products (db w) /\
                   products.is_active (Market.row p) = Some true) shown /\
  StronglySorted by_harvest_date shown.
Proof.
  cbv zeta. set (loaded := (run Market.fetchProducts w Market.initial).2).
  assert (Market.filteredProducts
            (Market.setTypeFilter typeFilter (Market.setSearch search loaded))
          `sublist_of` Market.products loaded) as Hsub by apply filter_sublist.
  split; [exact Hsub |].
  assert (Forall (fun p => Market.row p ∈ db_products (db w) /\
                           products.is_active (Market.row p) = Some true)
            (Market.products loaded) /\
          StronglySorted by_harvest_date (Market.products loaded)) as [Hactive Hsorted].
  { unfold loaded. rewrite fetchProducts_products.
    destruct (serves w 0 && serves w 1); [| split; constructor].
    split; [| apply catalog_sorted].
    apply Forall_forall. intros p Hp.
    apply elem_of_active_products. rewrite <- catalog_rows.
    apply list_elem_of_fmap. by exists p. }
  split; [| by eapply StronglySorted_sublist].
  rewrite Forall_forall in *. intros p Hp. apply Hactive. by eapply elem_of_sublist.
Qed.

(** X11.  For any search string, the products shown under the type filter
    "all" are those shown under "fruit" together with those shown under
    "shoot": every product shows under exactly one of the two types. *)
Theorem X11_type_filter_partition (st : Market.State) :
  Market.filteredProducts (Market.setTypeFilter "all" st)
  ≡ₚ Market.filteredProducts (Market.setTypeFilter "fruit" st)
     ++ Market.filteredProducts (Market.setTypeFilter "shoot" st).
Proof.
  unfold Market.filteredProducts. simpl.
  induction (Market.products st) as [|p l IH]; simpl; [done |].
  assert (Market.matchesType "all" p = true) as -> by reflexivity.
  destruct (Market.matchesSearch (Market.search st) p); simpl; [| exact IH].
  destruct (products.product_type (Market.row p)) eqn:E.
  - assert (Market.matchesType "fruit" p = false) as ->
      by (unfold Market.matchesType; by rewrite E).
    assert (Market.matchesType "shoot" p = true) as ->
      by (unfold Market.matchesType; by rewrite E).
    rewrite IH. apply Permutation_middle.
  - assert (Market.matchesType "fruit" p = true) as ->
      by (unfold Market.matchesType; by rewrite E).
    assert (Market.matchesType "shoot" p = false) as ->
      by (unfold Market.matchesType; by rewrite E).
    by rewrite IH.
Qed.

End CatalogViews.

(** ** From the product form to the catalog *)

Section CreateAndFind.

#[local] Arguments Js.parseFloat : simpl never.
#[local] Arguments Js.parseInt : simpl never.
#[local] Arguments Js.trim : simpl never.

(** The world a served [handleSubmit] leaves. *)
Lemma handleSubmit_served (w : World) (st : AddProduct.State) (fid uuid now : string) :
  AddProduct.farmId st = Some fid -> fid <> "" ->
  passes_validation (AddProduct.formData st) ->
  backend w (clock w) = Serves uuid now ->
  let payload := payload_of fid (AddProduct.formData st) in
  let w' := (run AddProduct.handleSubmit w st).1 in
  db_products (db w') = (db_products (db w) ++ [products.new_row uuid now payload])%list /\
  db_farm_profiles (db w') = db_farm_profiles (db w) /\
  db_profiles (db w') = db_profiles (db w) /\
  backend w' = backend w /\ clock w' = S (clock w) /\
  trace w' = (trace w ++ [Sent (ReqInsertProduct payload);
                          ToastSuccess "Product added successfully";
                          Navigate "/farm/products"])%list.
Proof.
  intros Hfid Hne Hvalid Hserved. cbv zeta.
  rewrite (handleSubmit_valid w st fid Hfid Hne Hvalid), Hserved. simpl.
  repeat split. by rewrite <- !app_assoc.
Qed.

Lemma serves_shift (w w' : World) (k n : nat) :
  backend w' = backend w -> clock w' = (n + clock w)%nat ->
  serves w' k = serves w (k + n).
Proof.
  intros Hb Hc. unfold serves. rewrite Hb, Hc.
  by replace (k + (n + clock w))%nat with (k + n + clock w)%nat by lia.
Qed.

(** X3.  A product that [handleSubmit] has stored is in the catalog: when
    the store serves the insert of a form that passes the checks and then
    the two requests of [fetchProducts], the loaded list holds the new
    product, as stored. *)
Theorem X3_created_product_is_listed (w : World) (st : AddProduct.State)
    (market : Market.State) (fid uuid now : string) :
  AddProduct.farmId st = Some fid -> fid <> "" ->
  passes_validation (AddProduct.formData st) ->
  backend w (clock w) = Serves uuid now ->
  serves w 1 = true -> serves w 2 = true ->
  let w1 := (run AddProduct.handleSubmit w st).1 in
  let market' := (run Market.fetchProducts w1 market).2 in
  products.new_row uuid now (payload_of fid (AddProduct.formData st))
    ∈ Market.row <$> Market.products market'.
Proof.
  intros Hfid Hne Hvalid Hserved H1 H2. cbv zeta.
  destruct (handleSubmit_served w st fid uuid now Hfid Hne Hvalid Hserved)
    as (Hproducts & _ & _ & Hb & Hc & _).
  set (w1 := (run AddProduct.handleSubmit w st).1) in *.
  rewrite fetchProducts_products.
  rewrite (serves_shift w w1 0 1 Hb), (serves_shift w w1 1 1 Hb) by (by rewrite Hc).
  simpl. rewrite H1, H2. simpl.
  rewrite catalog_rows. apply elem_of_active_products. rewrite Hproducts.
  split; [| done]. apply elem_of_app. right. left.
Qed.

Lemma X3_created_product_is_listed_witness :
  "Kluai Nam Wa" ∈
    products.name <$>
      (Market.row <$>
         Market.products
           (run Market.fetchProducts
              (run AddProduct.handleSubmit (online orchard)
                 (listing "Kluai Nam Wa" "25" "20" "2024-06-01" "")).1
              Market.initial).2).
Proof.
  assert (passes_validation
            (AddProduct.formData (listing "Kluai Nam Wa" "25" "20" "2024-06-01" "")))
    as Hvalid by (by apply (bool_decide_unpack _); vm_compute).
  pose proof (X3_created_product_is_listed (online orchard)
                (listing "Kluai Nam Wa" "25" "20" "2024-06-01" "") Market.initial
                "farm-1" "prod-new" "2024-06-01T09:00:00Z"
                eq_refl ltac:(discriminate) Hvalid eq_refl eq_refl eq_refl) as H.
  cbv zeta in H. apply list_elem_of_fmap. eexists. split; [| exact H]. reflexivity.
Defined.

(** What a served [loadProduct] loads. *)
Lemma loadProduct_served (w : World) (st : ProductDetail.State) (id : string) :
  serves w 0 = true -> serves w 1 = true ->
  ProductDetail.product (run (ProductDetail.loadProduct id) w st).2 =
    match ProductDetail.active_product id (db w) with
    | [p] =>
        match ProductDetail.farm_of (products.farm_id p) (db w) with
        | [] => Some {| ProductDetail.row := p; ProductDetail.farm_profiles := None |}
        | [f] => Some {| ProductDetail.row := p; ProductDetail.farm_profiles := Some f |}
        | _ => ProductDetail.product st
        end
    | _ => ProductDetail.product st
    end.
Proof.
  intros H0 H1.
  apply serves_0 in H0 as (u0 & n0 & H0). apply serves_1 in H1 as (u1 & n1 & H1).
  unfold ProductDetail.loadProduct. unfold_eff. unfold_store. simpl. rewrite H0. simpl.
  destruct (ProductDetail.active_product id (db w)) as [|p [|p' l]]; simpl; [done | | done].
  rewrite H1. simpl.
  destruct (ProductDetail.farm_of (products.farm_id p) (db w)) as [|f [|f' l]]; done.
Qed.

(** X4.  A product that [handleSubmit] has stored is found by its id: with
    unique ids in the store and a fresh id given to the new product, a
    served [loadProduct] of that id after the served insert loads the new
    product, as stored, together with the farm profile whose id the form
    had loaded. *)
Theorem X4_created_product_is_found (w : World) (st : AddProduct.State)
    (detail : ProductDetail.State) (fid uuid now : string) (f : farm_profiles.Row) :
  AddProduct.farmId st = Some fid -> fid <> "" ->
  passes_validation (AddProduct.formData st) ->
  backend w (clock w) = Serves uuid now ->
  serves w 1 = true -> serves w 2 = true ->
  NoDup (products.id <$> db_products (db w)) ->
  uuid ∉ products.id <$> db_products (db w) ->
  NoDup (farm_profiles.id <$> db_farm_profiles (db w)) ->
  f ∈ db_farm_profiles (db w) -> farm_profiles.id f = fid ->
  let w1 := (run AddProduct.handleSubmit w st).1 in
  ProductDetail.product (run (ProductDetail.loadProduct uuid) w1 detail).2 =
    Some {| ProductDetail.row :=
              products.new_row uuid now (payload_of fid (AddProduct.formData st));
            ProductDetail.farm_profiles := Some (ProductDetail.selected f) |}.
Proof.
  intros Hfid Hne Hvalid Hserved H1 H2 Hids Hfresh Hfarms Hf Hfid'. cbv zeta.
  destruct (handleSubmit_served w st fid uuid now Hfid Hne Hvalid Hserved)
    as (Hproducts & Hfp & _ & Hb & Hc & _).
  set (w1 := (run AddProduct.handleSubmit w st).1) in *.
  set (new := products.new_row uuid now (payload_of fid (AddProduct.formData st))) in *.
  rewrite loadProduct_served;
    [| by rewrite (serves_shift w w1 0 1 Hb) by (by rewrite Hc)
     | by rewrite (serves_shift w w1 1 1 Hb) by (by rewrite Hc)].
  assert (ProductDetail.active_product uuid (db w1) = [new]) as ->.
  { unfold ProductDetail.active_product. rewrite Hproducts.
    assert (NoDup (products.id <$> (db_products (db w) ++ [new])%list)) as Hnd.
    { rewrite fmap_app. apply NoDup_app. split; [done |]. split; [| apply NoDup_singleton].
      intros x Hx Hx'. simpl in Hx'. apply list_elem_of_singleton in Hx' as ->. done. }
    replace uuid with (products.id new) at 1 by reflexivity.
    rewrite (filter_key_NoDup products.id _ new Hnd) by (apply elem_of_app; right; left).
    unfold eq_. by rewrite filter_cons_True. }
  unfold ProductDetail.farm_of. rewrite Hfp. simpl products.farm_id.
  rewrite <- Hfid'. by rewrite (filter_key_NoDup farm_profiles.id _ f Hfarms Hf).
Qed.

Lemma X4_created_product_is_found_witness :
  exists p,
    ProductDetail.product
      (run (ProductDetail.loadProduct "prod-new")
         (run AddProduct.handleSubmit (online orchard)
            (listing "Kluai Nam Wa" "25" "20" "2024-06-01" "")).1
         ProductDetail.initial).2 = Some p /\
    products.name (ProductDetail.row p) = "Kluai Nam Wa" /\
    ProductDetail.farm_name <$> ProductDetail.farm_profiles p = Some "Suan Kluai".
Proof.
  assert (passes_validation
            (AddProduct.formData (listing "Kluai Nam Wa" "25" "20" "2024-06-01" "")))
    as Hvalid by (by apply (bool_decide_unpack _); vm_compute).
  assert (NoDup (products.id <$> db_products orchard)) as Hp
    by (by apply (bool_decide_unpack _)).
  assert ("prod-new" ∉ products.id <$> db_products orchard) as Hfresh
    by (by apply (bool_decide_unpack _)).
  assert (NoDup (farm_profiles.id <$> db_farm_profiles orchard)) as Hf
    by (by apply (bool_decide_unpack _)).
  pose proof (X4_created_product_is_found (online orchard)
                (listing "Kluai Nam Wa" "25" "20" "2024-06-01" "")
                ProductDetail.initial "farm-1" "prod-new" "2024-06-01T09:00:00Z"
                suan_kluai eq_refl ltac:(discriminate) Hvalid eq_refl eq_refl eq_refl
                Hp Hfresh Hf ltac:(left) eq_refl) as H.
  cbv zeta in H. eexists. split; [exact H |]. split; reflexivity.
Defined.

End CreateAndFind.

(** ** The farm of the product form *)

Section FarmOfTheForm.

#[local] Arguments Js.parseFloat : simpl never.
#[local] Arguments Js.parseInt : simpl never.
#[local] Arguments Js.trim : simpl never.

Lemma X2_failed_insert_leaves_form_witness :
  let '(w', st') :=
    run AddProduct.handleSubmit (offline orchard)
      (listing "Kluai Nam Wa" "25" "20" "2024-06-01" "") in
  db w' = orchard /\ AddProduct.submitting st' = false.
Proof.
  assert (passes_validation
            (AddProduct.formData (listing "Kluai Nam Wa" "25" "20" "2024-06-01" "")))
    as Hvalid by (by apply (bool_decide_unpack _); vm_compute).
  pose proof (X2_failed_insert_leaves_form (offline orchard)
                (listing "Kluai Nam Wa" "25" "20" "2024-06-01" "") "farm-1"
                unreachable eq_refl ltac:(discriminate) Hvalid eq_refl) as H.
  destruct (run AddProduct.handleSubmit (offline orchard)
              (listing "Kluai Nam Wa" "25" "20" "2024-06-01" "")) as [w' st'].
  destruct H as (Hdb & _ & _ & _ & Hsub). by split.
Defined.

(** X5.  With unique account ids among the farm profiles and the store
    serving the request, [checkFarmProfile] of a signed-in account that
    owns a farm profile loads the [id] of that profile into the form, ends
    the loading state, and neither shows a toast nor leaves the page. *)
Theorem X5_checkFarmProfile_loads_farm_id (w : World) (st : AddProduct.State)
    (account : string) (f : farm_profiles.Row) :
  NoDup (farm_profiles.user_id <$> db_farm_profiles (db w)) ->
  f ∈ db_farm_profiles (db w) -> farm_profiles.user_id f = account ->
  serves w 0 = true ->
  let '(w', st') := run (AddProduct.checkFarmProfile (Some account)) w st in
  AddProduct.farmId st' = Some (farm_profiles.id f) /\
  AddProduct.loading st' = false /\
  AddProduct.formData st' = AddProduct.formData st /\
  db w' = db w /\
  trace w' = (trace w ++ [Sent (ReqSelect "farm_profiles")])%list.
Proof.
  intros Hnd Hf Hacc H0. apply serves_0 in H0 as (u0 & n0 & H0).
  unfold AddProduct.checkFarmProfile, AddProduct.farm_id_of. unfold_eff. unfold_store.
  simpl. rewrite H0. simpl.
  rewrite <- Hacc, (filter_key_NoDup farm_profiles.user_id _ f Hnd Hf). simpl.
  done.
Qed.

Lemma X5_checkFarmProfile_loads_farm_id_witness :
  AddProduct.farmId
    (run (AddProduct.checkFarmProfile (Some "user-1")) (online orchard)
       AddProduct.initial).2 = Some "farm-1".
Proof.
  assert (NoDup (farm_profiles.user_id <$> db_farm_profiles orchard)) as Hnd
    by (by apply (bool_decide_unpack _)).
  pose proof (X5_checkFarmProfile_loads_farm_id (online orchard) AddProduct.initial
                "user-1" suan_kluai Hnd ltac:(left) eq_refl eq_refl) as H.
  destruct (run (AddProduct.checkFarmProfile (Some "user-1")) (online orchard)
              AddProduct.initial) as [w' st'].
  by destruct H as [H _].
Defined.

(** The farm id [checkFarmProfile] leaves when there is no farm profile to
    find: the one the form had. *)
Lemma checkFarmProfile_without_farm (w : World) (st : AddProduct.State)
    (session : option string) :
  (forall account f, session = Some account -> f ∈ db_farm_profiles (db w) ->
     farm_profiles.user_id f <> account) ->
  let '(w', st') := run (AddProduct.checkFarmProfile session) w st in
  AddProduct.farmId st' = AddProduct.farmId st /\
  db w' = db w /\
  exists events,
    trace w' = (trace w ++ events)%list /\
    Forall (fun e => forall payload, e <> Sent (ReqInsertProduct payload)) events /\
    exists path, Navigate path ∈ events.
Proof.
  intros Hnone.
  unfold AddProduct.checkFarmProfile, AddProduct.farm_id_of. unfold_eff. unfold_store.
  simpl. destruct session as [account|]; simpl.
  - destruct (backend w (clock w)); simpl.
    + repeat split. eexists. rewrite <- !app_assoc. split; [reflexivity |].
      split; [repeat constructor; intros; discriminate |].
      eexists. apply elem_of_cons. right. apply elem_of_cons. right. left.
    + rewrite (filter_key_none farm_profiles.user_id _ account)
        by (intros f Hf; by apply (Hnone account)).
      simpl. repeat split. eexists. rewrite <- !app_assoc. split; [reflexivity |].
      split; [repeat constructor; intros; discriminate |].
      eexists. apply elem_of_cons. right. apply elem_of_cons. right. left.
  - repeat split. eexists. split; [reflexivity |].
    split; [repeat constructor; intros; discriminate |]. eexists. left.
Qed.

(** X6.  An account that owns no farm profile, or a visitor without a
    session, cannot create a product: after [checkFarmProfile] on the fresh
    form, whatever the store answers, the visitor is sent away from the
    form, and [handleSubmit] of any form data sends no insert and leaves
    the store as it was. *)
Theorem X6_no_farm_no_insert (w : World) (session : option string)
    (form : AddProduct.FormData) :
  (forall account f, session = Some account -> f ∈ db_farm_profiles (db w) ->
     farm_profiles.user_id f <> account) ->
  let '(w1, st1) := run (AddProduct.checkFarmProfile session) w AddProduct.initial in
  let '(w2, st2) := run AddProduct.handleSubmit w1 (AddProduct.setFormData form st1) in
  db w2 = db w /\
  exists events,
    trace w2 = (trace w ++ events)%list /\
    Forall (fun e => forall payload, e <> Sent (ReqInsertProduct payload)) events /\
    (exists path, Navigate path ∈ events) /\
    ToastError "No farm profile found" ∈ events.
Proof.
  intros Hnone.
  pose proof (checkFarmProfile_without_farm w AddProduct.initial session Hnone) as H.
  destruct (run (AddProduct.checkFarmProfile session) w AddProduct.initial)
    as [w1 st1].
  destruct H as (Hfid & Hdb & events & Htrace & Hevents & Hnav).
  assert (run AddProduct.handleSubmit w1 (AddProduct.setFormData form st1) =
          (emit (ToastError "No farm profile found") w1,
           AddProduct.setFormData form st1)) as ->.
  { unfold AddProduct.handleSubmit. unfold_eff. simpl. by rewrite Hfid. }
  simpl. split; [exact Hdb |].
  exists (events ++ [ToastError "No farm profile found"])%list.
  rewrite Htrace, <- app_assoc. split; [done |].
  split; [apply Forall_app; split; [done | repeat constructor; intros; discriminate] |].
  split.
  - destruct Hnav as [path Hnav]. exists path. apply elem_of_app. by left.
  - apply elem_of_app. right. left.
Qed.

Lemma X6_no_farm_no_insert_witness :
  let '(w1, st1) :=
    run (AddProduct.checkFarmProfile (Some "user-9")) (online orchard)
      AddProduct.initial in
  let '(w2, st2) :=
    run AddProduct.handleSubmit w1
      (AddProduct.setFormData
         (AddProduct.formData (listing "Kluai Nam Wa" "25" "20" "2024-06-01" "")) st1) in
  db w2 = orchard.
Proof.
  pose proof (X6_no_farm_no_insert (online orchard) (Some "user-9")
                (AddProduct.formData (listing "Kluai Nam Wa" "25" "20" "2024-06-01" "")))
    as H.
  destruct (run (AddProduct.checkFarmProfile (Some "user-9")) (online orchard)
              AddProduct.initial) as [w1 st1].
  destruct (run AddProduct.handleSubmit w1 _) as [w2 st2].
  apply H. intros account f [= <-] Hf.
  apply list_elem_of_singleton in Hf as ->. discriminate.
Defined.

End FarmOfTheForm.

(** ** The product detail lookup, continued *)

Section ProductDetailMore.

Lemma elem_of_active_product (id : string) (d : Db) (p : products.Row) :
  p ∈ ProductDetail.active_product id d <->
  p ∈ db_products d /\ products.id p = id /\ products.is_active p = Some true.
Proof.
  unfold ProductDetail.active_product, eq_. rewrite !list_elem_of_filter. tauto.
Qed.



End ProductDetailMore.

(** ** The products of a farm *)

Section ManageProductsMore.

#[local] Instance latest_first_total {R : Type} (column : R -> option string) :
  Total (latest_first column).
Proof.
  intros r1 r2. unfold latest_first, timestamp_ge.
  destruct (column r1) as [x|], (column r2) as [y|]; auto.
  destruct (total String.le x y); auto.
Qed.

#[local] Instance latest_first_trans {R : Type} (column : R -> option string) :
  Transitive (latest_first column).
Proof.
  intros r1 r2 r3. unfold latest_first, timestamp_ge.
  destruct (column r1) as [x|], (column r2) as [y|], (column r3) as [z|]; try done.
  intros Hyx Hzy. by transitivity y.
Qed.

Lemma NoDup_key_inj {R : Type} (key : R -> string) (l : list R) (x y : R) :
  NoDup (key <$> l) -> x ∈ l -> y ∈ l -> key x = key y -> x = y.
Proof.
  intros Hnd Hx Hy E.
  pose proof (filter_key_NoDup key l x Hnd Hx) as Ex.
  pose proof (filter_key_NoDup key l y Hnd Hy) as Ey.
  rewrite E, Ey in Ex. by injection Ex.
Qed.

(** What [toggleActive] does, by the answer of the store. *)
Lemma toggleActive_run (w : World) (st : ManageProducts.State) (pid : string)
    (cs : option bool) :
  let b := negb (ManageProducts.truthy cs) in
  let sent := tick (emit (Sent (ReqUpdateProduct {| products.Update.is_active := b |} pid)) w) in
  run (ManageProducts.toggleActive pid cs) w st =
    match backend w (clock w) with
    | Serves _ _ =>
        (emit (ToastSuccess (if ManageProducts.truthy cs then "Product deactivated"
                             else "Product activated"))
           (set_db {| db_products :=
                        update_where (fun r => bool_decide (products.id r = pid))
                          (products.apply_update {| products.Update.is_active := b |})
                          (db_products (db w));
                      db_farm_profiles := db_farm_profiles (db w);
                      db_profiles := db_profiles (db w) |} sent),
         ManageProducts.setProducts
           ((fun p => if decide (ManageProducts.id p = pid)
                      then ManageProducts.with_is_active b p else p)
            <$> ManageProducts.products st) st)
    | Fails e => (emit (ToastError (message_of e "Failed to update product")) sent, st)
    end.
Proof.
  unfold ManageProducts.toggleActive. unfold_eff. unfold_store. simpl.
  destruct (backend w (clock w)); reflexivity.
Qed.

(** What a confirmed [deleteProduct] does, by the answer of the store. *)
Lemma deleteProduct_run (w : World) (st : ManageProducts.State) (pid : string) :
  let sent := tick (emit (Sent (ReqUpdateProduct {| products.Update.is_active := false |} pid)) w) in
  run (ManageProducts.deleteProduct true pid) w st =
    match backend w (clock w) with
    | Serves _ _ =>
        (emit (ToastSuccess "Product deleted")
           (set_db {| db_products :=
                        update_where (fun r => bool_decide (products.id r = pid))
                          (products.apply_update {| products.Update.is_active := false |})
                          (db_products (db w));
                      db_farm_profiles := db_farm_profiles (db w);
                      db_profiles := db_profiles (db w) |} sent),
         ManageProducts.setProducts
           (filter (fun p => ManageProducts.id p <> pid) (ManageProducts.products st)) st)
    | Fails e => (emit (ToastError (message_of e "Failed to delete product")) sent, st)
    end.
Proof.
  unfold ManageProducts.deleteProduct. unfold_eff. unfold_store. simpl.
  destruct (backend w (clock w)); reflexivity.
Qed.

Lemma elem_of_update_where {R : Type} (matches : R -> bool) (change : R -> R)
    (l : list R) (r' : R) :
  r' ∈ update_where matches change l <->
  exists r, r ∈ l /\ r' = (if matches r then change r else r).
Proof.
  unfold update_where.
  assert (map (fun r => if matches r then change r else r) l =
          (fun r => if matches r then change r else r) <$> l) as -> by reflexivity.
  rewrite list_elem_of_fmap. split; intros (r & H1 & H2); by exists r.
Qed.

(** X13.  The products view stays in agreement with the store through its
    own actions, in every column it shows (name, type, price, quantity,
    unit, harvest date and [is_active]): with unique product ids a reload
    by [loadProducts] keeps the agreement, a failed one included, and
    [toggleActive] and [deleteProduct] keep it whatever the store
    answers. *)
Theorem X13_view_agrees_with_store (w : World) (st : ManageProducts.State) :
  view_agrees st (db w) ->
  (forall pid cs,
     let '(w', st') := run (ManageProducts.toggleActive pid cs) w st in
     view_agrees st' (db w')) /\
  (forall confirmed pid,
     let '(w', st') := run (ManageProducts.deleteProduct confirmed pid) w st in
     view_agrees st' (db w')) /\
  (forall session,
     NoDup (products.id <$> db_products (db w)) ->
     let '(w', st') := run (ManageProducts.loadProducts session) w st in
     view_agrees st' (db w')).
Proof.
  intros Hagree. split; [| split].
  - intros pid cs. pose proof (toggleActive_run w st pid cs) as E. cbv zeta in E.
    rewrite E. destruct (backend w (clock w)); [exact Hagree |].
    intros p r Hp Hr Hid. simpl in Hp, Hr.
    apply list_elem_of_fmap in Hp as (p0 & -> & Hp0).
    apply elem_of_update_where in Hr as (r0 & Hr0 & ->).
    destruct (bool_decide (products.id r0 = pid)) eqn:Er.
    + apply bool_decide_eq_true in Er. simpl in Hid.
      destruct (decide (ManageProducts.id p0 = pid)) as [Ep | Ep].
      * destruct (Hagree p0 r0 Hp0 Hr0 ltac:(congruence))
          as (H1 & H2 & H3 & H4 & H5 & H6 & _).
        destruct r0. simpl in *. done.
      * simpl in Hid. congruence.
    + apply bool_decide_eq_false in Er.
      destruct (decide (ManageProducts.id p0 = pid)) as [Ep | Ep];
        [simpl in Hid; congruence | by apply Hagree].
  - intros [|] pid; [| exact Hagree].
    pose proof (deleteProduct_run w st pid) as E. cbv zeta in E.
    rewrite E. destruct (backend w (clock w)); [exact Hagree |].
    intros p r Hp Hr Hid. simpl in Hp, Hr.
    apply list_elem_of_filter in Hp as [Hne Hp].
    apply elem_of_update_where in Hr as (r0 & Hr0 & ->).
    destruct (bool_decide (products.id r0 = pid)) eqn:Er.
    + apply bool_decide_eq_true in Er. simpl in Hid. congruence.
    + by apply Hagree.
  - intros session Hnd.
    unfold ManageProducts.loadProducts, AddProduct.farm_id_of. unfold_eff. unfold_store.
    simpl. destruct session as [account|]; simpl; [| exact Hagree].
    destruct (backend w (clock w)); simpl; [exact Hagree |].
    destruct (farm_profiles.id <$> eq_ farm_profiles.user_id account (db_farm_profiles (db w)))
      as [|fid [|fid' l]]; simpl; [exact Hagree | | exact Hagree].
    destruct (backend w (S (clock w))); simpl; [exact Hagree |].
    intros p r Hp Hr Hid. simpl in Hp.
    unfold ManageProducts.products_of_farm, order_desc, eq_ in Hp.
    apply list_elem_of_fmap in Hp as (r0 & -> & Hr0).
    rewrite merge_sort_Permutation in Hr0. apply list_elem_of_filter in Hr0 as [_ Hr0].
    simpl in Hid. by rewrite (NoDup_key_inj products.id _ r r0 Hnd Hr Hr0 Hid).
Qed.

Lemma X13_view_agrees_with_store_witness :
  let '(w', st') :=
    run (ManageProducts.toggleActive "prod-1" (Some true)) (online orchard) my_products in
  view_agrees st' (db w') /\
  (fun p => (ManageProducts.name p, ManageProducts.is_active p))
    <$> ManageProducts.products st' = [("Kluai Hom Thong", Some false)] /\
  (fun r => (products.name r, products.is_active r))
    <$> db_products (db w') = [("Kluai Hom Thong", Some false);
                               ("Kluai Khai", Some false)].
Proof.
  assert (view_agrees my_products (db (online orchard))) as H.
  { intros p r Hp Hr Hid. apply list_elem_of_singleton in Hp as ->. simpl in Hr.
    apply elem_of_cons in Hr as [-> | Hr]; [done |].
    apply list_elem_of_singleton in Hr as ->. discriminate Hid. }
  pose proof (proj1 (X13_view_agrees_with_store (online orchard) my_products H)
                "prod-1" (Some true)) as Hafter.
  destruct (run (ManageProducts.toggleActive "prod-1" (Some true)) (online orchard)
              my_products) as [w' st'] eqn:E.
  split; [exact Hafter |].
  vm_compute in E. injection E as <- <-. split; reflexivity.
Defined.

Lemma apply_update_twice (b : bool) (r : products.Row) :
  products.is_active r = Some b ->
  products.apply_update {| products.Update.is_active := b |}
    (products.apply_update {| products.Update.is_active := negb b |} r) = r.
Proof. destruct r. simpl. by intros ->. Qed.

Lemma with_is_active_twice (b : bool) (p : ManageProducts.Product) :
  ManageProducts.is_active p = Some b ->
  ManageProducts.with_is_active b (ManageProducts.with_is_active (negb b) p) = p.
Proof. destruct p. simpl. by intros ->. Qed.

(** X14.  Two presses of the toggle undo each other: when the store and
    the view hold [is_active = b] for a product and the store serves both
    updates, [toggleActive] with [b] followed by [toggleActive] with the
    opposite leaves the store and the list of the view as they were. *)
Theorem X14_toggle_twice_restores (w : World) (st : ManageProducts.State)
    (pid : string) (b : bool) :
  (forall r, r ∈ db_products (db w) -> products.id r = pid ->
     products.is_active r = Some b) ->
  (forall p, p ∈ ManageProducts.products st -> ManageProducts.id p = pid ->
     ManageProducts.is_active p = Some b) ->
  serves w 0 = true -> serves w 1 = true ->
  let '(w1, st1) := run (ManageProducts.toggleActive pid (Some b)) w st in
  let '(w2, st2) := run (ManageProducts.toggleActive pid (Some (negb b))) w1 st1 in
  db w2 = db w /\
  ManageProducts.products st2 = ManageProducts.products st /\
  (forall r, r ∈ db_products (db w1) -> products.id r = pid ->
     products.is_active r = Some (negb b)).
Proof.
  intros Hrows Hview H0 H1.
  apply serves_0 in H0 as (u0 & n0 & H0). apply serves_1 in H1 as (u1 & n1 & H1).
  pose proof (toggleActive_run w st pid (Some b)) as E. cbv zeta in E.
  rewrite E, H0. clear E.
  match goal with |- let '(_, _) := run _ ?w1 ?st1 in _ =>
    pose proof (toggleActive_run w1 st1 pid (Some (negb b))) as E end.
  cbv zeta in E. rewrite E. clear E. simpl. rewrite H1. simpl.
  rewrite negb_involutive. split; [| split].
  - destruct (db w) as [ps fs us]. simpl in *. f_equal.
    unfold update_where. rewrite map_map.
    induction ps as [|r ps IH]; simpl; [done |].
    rewrite IH by (intros r' Hr'; apply Hrows; by right). f_equal.
    destruct (bool_decide (products.id r = pid)) eqn:Er; simpl; rewrite Er; [| done].
    apply apply_update_twice, Hrows; [left | by apply bool_decide_eq_true in Er].
  - rewrite <- list_fmap_compose.
    induction (ManageProducts.products st) as [|p ps IH]; [done |]. csimpl.
    rewrite IH by (intros p' Hp'; apply Hview; by right). f_equal.
    destruct (decide (ManageProducts.id p = pid)) as [Ep | Ep]; simpl.
    + rewrite decide_True by done. apply with_is_active_twice, Hview; [left | done].
    + by rewrite decide_False.
  - intros r Hr Hid. apply elem_of_update_where in Hr as (r0 & Hr0 & ->).
    destruct (bool_decide (products.id r0 = pid)) eqn:Er; [done |].
    apply bool_decide_eq_false in Er. done.
Qed.

Lemma X14_toggle_twice_restores_witness :
  let '(w1, st1) :=
    run (ManageProducts.toggleActive "prod-1" (Some true)) (online orchard) my_products in
  let '(w2, st2) := run (ManageProducts.toggleActive "prod-1" (Some false)) w1 st1 in
  db w2 = orchard.
Proof.
  pose proof (X14_toggle_twice_restores (online orchard) my_products "prod-1" true) as H.
  simpl negb in H.
  destruct (run (ManageProducts.toggleActive "prod-1" (Some true)) (online orchard)
              my_products) as [w1 st1].
  destruct (run (ManageProducts.toggleActive "prod-1" (Some false)) w1 st1) as [w2 st2].
  apply H; try reflexivity.
  - intros r Hr Hid. simpl in Hr.
    apply elem_of_cons in Hr as [-> | Hr]; [reflexivity |].
    apply list_elem_of_singleton in Hr as ->. discriminate Hid.
  - intros p Hp _. apply list_elem_of_singleton in Hp as ->. reflexivity.
Defined.

(** X15.  [deleteProduct] is all or nothing.  Declined in the dialog, it
    does nothing at all.  Confirmed and failed by the store, it shows the
    error and leaves the store and the view as they were.  Confirmed and
    served, it takes the product out of the list of the view, keeping the
    other products in their order, it shows "Product deleted", and every
    row of that id in the store is inactive. *)
Theorem X15_deleteProduct_all_or_nothing (w : World) (st : ManageProducts.State)
    (pid : string) :
  run (ManageProducts.deleteProduct false pid) w st = (w, st) /\
  let '(w', st') := run (ManageProducts.deleteProduct true pid) w st in
  (serves w 0 = false ->
   db w' = db w /\ st' = st /\
   exists msg,
     trace w' = (trace w ++
                 [Sent (ReqUpdateProduct {| products.Update.is_active := false |} pid);
                  ToastError msg])%list) /\
  (serves w 0 = true ->
   ManageProducts.products st' =
     filter (fun p => ManageProducts.id p <> pid) (ManageProducts.products st) /\
   ManageProducts.farmId st' = ManageProducts.farmId st /\
   trace w' = (trace w ++
               [Sent (ReqUpdateProduct {| products.Update.is_active := false |} pid);
                ToastSuccess "Product deleted"])%list /\
   forall r, r ∈ db_products (db w') -> products.id r = pid ->
     products.is_active r = Some false).
Proof.
  split; [reflexivity |].
  pose proof (deleteProduct_run w st pid) as E. cbv zeta in E. rewrite E. clear E.
  unfold serves. simpl. destruct (backend w (clock w)); simpl.
  - split; [| done]. intros _. repeat split. eexists. by rewrite <- app_assoc.
  - split; [done |]. intros _. split; [done |]. split; [done |].
    split; [by rewrite <- app_assoc |].
    intros r Hr Hid. apply elem_of_update_where in Hr as (r0 & Hr0 & ->).
    destruct (bool_decide (products.id r0 = pid)) eqn:Er; [done |].
    apply bool_decide_eq_false in Er. done.
Qed.

Lemma X15_deleteProduct_all_or_nothing_witness :
  db (run (ManageProducts.deleteProduct true "prod-1") (offline orchard) my_products).1
    = orchard /\
  ManageProducts.products
    (run (ManageProducts.deleteProduct true "prod-1") (online orchard) my_products).2 = [].
Proof.
  split.
  - pose proof (X15_deleteProduct_all_or_nothing (offline orchard) my_products "prod-1")
      as [_ H].
    destruct (run (ManageProducts.deleteProduct true "prod-1") (offline orchard)
                my_products) as [w' st'].
    destruct H as [H _]. cbn [fst]. by destruct (H eq_refl) as [Hdb _].
  - pose proof (X15_deleteProduct_all_or_nothing (online orchard) my_products "prod-1")
      as [_ H].
    destruct (run (ManageProducts.deleteProduct true "prod-1") (online orchard)
                my_products) as [w' st'].
    destruct H as [_ H]. cbn [snd]. by destruct (H eq_refl) as [-> _].
Defined.

(** The world a served, confirmed [deleteProduct] leaves. *)
Lemma deleteProduct_served (w : World) (st : ManageProducts.State) (pid : string) :
  serves w 0 = true ->
  let w' := (run (ManageProducts.deleteProduct true pid) w st).1 in
  db_products (db w') =
    update_where (fun r => bool_decide (products.id r = pid))
      (products.apply_update {| products.Update.is_active := false |})
      (db_products (db w)) /\
  db_farm_profiles (db w') = db_farm_profiles (db w) /\
  db_profiles (db w') = db_profiles (db w) /\
  backend w' = backend w /\ clock w' = S (clock w).
Proof.
  intros H0. apply serves_0 in H0 as (u0 & n0 & H0). cbv zeta.
  pose proof (deleteProduct_run w st pid) as E. cbv zeta in E. rewrite E, H0.
  simpl. done.
Qed.

Lemma loadProduct_not_found (w : World) (st : ProductDetail.State) (id : string) :
  serves w 0 = true -> ProductDetail.active_product id (db w) = [] ->
  run (ProductDetail.loadProduct id) w st =
    (emit (Navigate "/market")
       (emit (ToastError "Product not found")
          (tick (emit (Sent (ReqSelect "products")) w))),
     ProductDetail.setLoading false st).
Proof.
  intros H0 Hnone. apply serves_0 in H0 as (u0 & n0 & H0).
  unfold ProductDetail.loadProduct. unfold_eff. unfold_store. simpl.
  rewrite H0. simpl. by rewrite Hnone.
Qed.

(** X16.  A deleted product is gone from the market: after a confirmed
    [deleteProduct] that the store has served, a served [fetchProducts]
    lists no product of that id, and a [loadProduct] of that id ends with
    "Product not found" and loads nothing. *)
Theorem X16_deleted_product_leaves_market (w : World) (st : ManageProducts.State)
    (market : Market.State) (detail : ProductDetail.State) (pid : string) :
  serves w 0 = true -> serves w 1 = true -> serves w 2 = true ->
  let w1 := (run (ManageProducts.deleteProduct true pid) w st).1 in
  Forall (fun p => products.id (Market.row p) <> pid)
    (Market.products (run Market.fetchProducts w1 market).2) /\
  let '(w2, detail') := run (ProductDetail.loadProduct pid) w1 detail in
  ProductDetail.product detail' = ProductDetail.product detail /\
  trace w2 = (trace w1 ++ [Sent (ReqSelect "products");
                           ToastError "Product not found";
                           Navigate "/market"])%list.
Proof.
  intros H0 H1 H2. cbv zeta.
  destruct (deleteProduct_served w st pid H0) as (Hproducts & _ & _ & Hb & Hc).
  set (w1 := (run (ManageProducts.deleteProduct true pid) w st).1) in *.
  assert (forall r, r ∈ db_products (db w1) -> products.id r = pid ->
            products.is_active r = Some false) as Hinactive.
  { intros r Hr Hid. rewrite Hproducts in Hr.
    apply elem_of_update_where in Hr as (r0 & Hr0 & ->).
    destruct (bool_decide (products.id r0 = pid)) eqn:Er; [done |].
    apply bool_decide_eq_false in Er. done. }
  assert (serves w1 0 = true) as H10
    by (by rewrite (serves_shift w w1 0 1 Hb) by (by rewrite Hc)).
  assert (serves w1 1 = true) as H11
    by (by rewrite (serves_shift w w1 1 1 Hb) by (by rewrite Hc)).
  split.
  - rewrite fetchProducts_products, H10, H11. simpl.
    apply Forall_forall. intros p Hp Hid.
    assert (Market.row p ∈ Market.active_products (db w1)) as Hrow
      by (rewrite <- catalog_rows; apply list_elem_of_fmap; by exists p).
    apply elem_of_active_products in Hrow as [Hrow Hactive].
    rewrite (Hinactive _ Hrow Hid) in Hactive. discriminate Hactive.
  - rewrite loadProduct_not_found; [| done |].
    + simpl. split; [done |]. by rewrite <- !app_assoc.
    + destruct (ProductDetail.active_product pid (db w1)) as [|r l] eqn:E; [done |].
      assert (r ∈ ProductDetail.active_product pid (db w1)) as Hr by (rewrite E; left).
      apply elem_of_active_product in Hr as (Hr & Hid & Hactive).
      rewrite (Hinactive _ Hr Hid) in Hactive. discriminate Hactive.
Qed.

Lemma X16_deleted_product_leaves_market_witness :
  Forall (fun p => products.id (Market.row p) <> "prod-1")
    (Market.products
       (run Market.fetchProducts
          (run (ManageProducts.deleteProduct true "prod-1") (online orchard)
             my_products).1
          Market.initial).2).
Proof.
  exact (proj1 (X16_deleted_product_leaves_market (online orchard) my_products
                  Market.initial ProductDetail.initial "prod-1"
                  eq_refl eq_refl eq_refl)).
Defined.

(** What a served [loadProducts] of an account with a farm profile loads. *)
Lemma loadProducts_served (w : World) (st : ManageProducts.State)
    (account : string) (f : farm_profiles.Row) :
  NoDup (farm_profiles.user_id <$> db_farm_profiles (db w)) ->
  f ∈ db_farm_profiles (db w) -> farm_profiles.user_id f = account ->
  serves w 0 = true -> serves w 1 = true ->
  run (ManageProducts.loadProducts (Some account)) w st =
    (tick (emit (Sent (ReqSelect "products"))
             (tick (emit (Sent (ReqSelect "farm_profiles")) w))),
     ManageProducts.setLoading false
       (ManageProducts.setProducts
          (ManageProducts.products_of_farm (farm_profiles.id f) (db w))
          (ManageProducts.setFarmId (Some (farm_profiles.id f)) st))).
Proof.
  intros Hnd Hf Hacc H0 H1.
  apply serves_0 in H0 as (u0 & n0 & H0). apply serves_1 in H1 as (u1 & n1 & H1).
  unfold ManageProducts.loadProducts, AddProduct.farm_id_of. unfold_eff. unfold_store.
  simpl. rewrite H0. simpl.
  rewrite <- Hacc, (filter_key_NoDup farm_profiles.user_id _ f Hnd Hf). simpl.
  rewrite H1. reflexivity.
Qed.

(** X17.  A deleted product comes back on reload: after a confirmed and
    served [deleteProduct] the view no longer lists the product, and a
    served [loadProducts] of the account that owns the farm of the product
    lists it again, as inactive. *)
Theorem X17_deleted_product_reappears_inactive (w : World)
    (st : ManageProducts.State) (account : string) (f : farm_profiles.Row)
    (r : products.Row) :
  NoDup (farm_profiles.user_id <$> db_farm_profiles (db w)) ->
  f ∈ db_farm_profiles (db w) -> farm_profiles.user_id f = account ->
  r ∈ db_products (db w) -> products.farm_id r = farm_profiles.id f ->
  serves w 0 = true -> serves w 1 = true -> serves w 2 = true ->
  let '(w1, st1) := run (ManageProducts.deleteProduct true (products.id r)) w st in
  let '(w2, st2) := run (ManageProducts.loadProducts (Some account)) w1 st1 in
  Forall (fun p => ManageProducts.id p <> products.id r) (ManageProducts.products st1) /\
  exists p,
    p ∈ ManageProducts.products st2 /\
    ManageProducts.id p = products.id r /\
    ManageProducts.name p = products.name r /\
    ManageProducts.is_active p = Some false.
Proof.
  intros Hnd Hf Hacc Hr Hfarm H0 H1 H2.
  destruct (deleteProduct_served w st (products.id r) H0) as (Hproducts & Hfp & _ & Hb & Hc).
  pose proof (deleteProduct_run w st (products.id r)) as E. cbv zeta in E.
  destruct (serves_0 w H0) as (u0 & n0 & H0').
  destruct (run (ManageProducts.deleteProduct true (products.id r)) w st) as [w1 st1].
  rewrite H0' in E. injection E as Ew Est. simpl in Hproducts, Hfp, Hb, Hc.
  rewrite loadProducts_served with (f := f);
    [| by rewrite Hfp | by rewrite Hfp | done
     | by rewrite (serves_shift w w1 0 1 Hb) by (by rewrite Hc)
     | by rewrite (serves_shift w w1 1 1 Hb) by (by rewrite Hc)].
  split.
  - rewrite Est. simpl. apply Forall_forall. intros p Hp.
    by apply list_elem_of_filter in Hp as [Hne _].
  - exists (ManageProducts.selected
              (products.apply_update {| products.Update.is_active := false |} r)).
    split; [| done]. simpl.
    unfold ManageProducts.products_of_farm, order_desc, eq_.
    apply list_elem_of_fmap. eexists. split; [reflexivity |].
    rewrite merge_sort_Permutation. apply list_elem_of_filter. split; [done |].
    rewrite Hproducts. apply elem_of_update_where. exists r. split; [done |].
    by rewrite bool_decide_eq_true_2.
Qed.

Lemma X17_deleted_product_reappears_inactive_witness :
  let '(w1, st1) :=
    run (ManageProducts.deleteProduct true "prod-1") (online orchard) my_products in
  let '(w2, st2) := run (ManageProducts.loadProducts (Some "user-1")) w1 st1 in
  exists p, p ∈ ManageProducts.products st2 /\
            ManageProducts.name p = "Kluai Hom Thong" /\
            ManageProducts.is_active p = Some false.
Proof.
  assert (NoDup (farm_profiles.user_id <$> db_farm_profiles (db (online orchard))))
    as Hnd by (by apply (bool_decide_unpack _)).
  pose proof (X17_deleted_product_reappears_inactive (online orchard) my_products
                "user-1" suan_kluai kluai_hom Hnd ltac:(left) eq_refl ltac:(left)
                eq_refl eq_refl eq_refl eq_refl) as H.
  simpl products.id in H.
  destruct (run (ManageProducts.deleteProduct true "prod-1") (online orchard)
              my_products) as [w1 st1].
  destruct (run (ManageProducts.loadProducts (Some "user-1")) w1 st1) as [w2 st2].
  destruct H as (_ & p & Hp & _ & Hname & Hactive). by exists p.
Defined.

(** X18.  With unique account ids among the farm profiles and the store
    serving the two requests, [loadProducts] of an account that owns a farm
    profile loads the products of that farm and no others, active or not,
    each as often as the store holds it, latest created first, and notes
    the id of the farm. *)
Theorem X18_loadProducts_lists_own_products (w : World) (st : ManageProducts.State)
    (account : string) (f : farm_profiles.Row) :
  NoDup (farm_profiles.user_id <$> db_farm_profiles (db w)) ->
  f ∈ db_farm_profiles (db w) -> farm_profiles.user_id f = account ->
  serves w 0 = true -> serves w 1 = true ->
  let '(w', st') := run (ManageProducts.loadProducts (Some account)) w st in
  ManageProducts.farmId st' = Some (farm_profiles.id f) /\
  ManageProducts.loading st' = false /\
  db w' = db w /\
  exists rows,
    ManageProducts.products st' = ManageProducts.selected <$> rows /\
    rows ≡ₚ filter (fun r => products.farm_id r = farm_profiles.id f)
              (db_products (db w)) /\
    StronglySorted (latest_first products.created_at) rows.
Proof.
  intros Hnd Hf Hacc H0 H1.
  rewrite (loadProducts_served w st account f Hnd Hf Hacc H0 H1).
  split; [done |]. split; [done |]. split; [done |].
  exists (order_desc products.created_at
            (eq_ products.farm_id (farm_profiles.id f) (db_products (db w)))).
  split; [done |]. unfold order_desc, eq_.
  split; [apply merge_sort_Permutation | apply StronglySorted_merge_sort; apply _].
Qed.

Lemma X18_loadProducts_lists_own_products_witness :
  ManageProducts.name <$>
    ManageProducts.products
      (run (ManageProducts.loadProducts (Some "user-1")) (online orchard)
         my_products).2
  ≡ₚ ["Kluai Hom Thong"; "Kluai Khai"].
Proof.
  assert (NoDup (farm_profiles.user_id <$> db_farm_profiles (db (online orchard))))
    as Hnd by (by apply (bool_decide_unpack _)).
  pose proof (X18_loadProducts_lists_own_products (online orchard) my_products
                "user-1" suan_kluai Hnd ltac:(left) eq_refl eq_refl eq_refl) as H.
  destruct (run (ManageProducts.loadProducts (Some "user-1")) (online orchard)
              my_products) as [w' st'].
  cbn [snd]. destruct H as (_ & _ & _ & rows & -> & Hperm & _).
  rewrite <- list_fmap_compose, Hperm. reflexivity.
Defined.

End ManageProductsMore.

(** ** The profile view *)

Section UpdateProfileMore.

#[local] Arguments Js.trim : simpl never.

(** X19.  [saveProfile] writes the name, phone and address of the loaded
    profile and nothing else: row by row the profiles table after it is
    the table before it, but for the rows of the id of the loaded profile,
    which get the trimmed name, and the trimmed phone and address or null
    when these are empty, and keep their other columns; the other tables
    are as they were.  With a name that is blank it sends nothing and
    changes nothing, and without a loaded profile it does nothing. *)
Theorem X19_saveProfile_writes_own_profile (w : World) (st : UpdateProfile.State) :
  let form := UpdateProfile.profileForm st in
  let '(w', st') := run UpdateProfile.saveProfile w st in
  Forall2 (fun r r' =>
             r' = r \/
             exists t, UpdateProfile.profile st = Some t /\
                       profiles.id r = profiles.id t /\
                       Js.trim (UpdateProfile.full_name form) <> "" /\
                       r' = saved_profile form r)
    (db_profiles (db w)) (db_profiles (db w')) /\
  db_products (db w') = db_products (db w) /\
  db_farm_profiles (db w') = db_farm_profiles (db w) /\
  (Js.trim (UpdateProfile.full_name form) = "" ->
   db w' = db w /\ st' = st /\
   (trace w' = trace w \/ trace w' = (trace w ++ [ToastError "Name is required"])%list)) /\
  (UpdateProfile.profile st = None -> w' = w /\ st' = st).
Proof.
  assert (forall (P : relation profiles.Row) l, (forall r, P r r) -> Forall2 P l l)
    as Hsame by (intros P l H; induction l; constructor; auto).
  unfold UpdateProfile.saveProfile. unfold_eff. unfold_store. simpl.
  destruct (UpdateProfile.profile st) as [t|]; simpl.
  2: { repeat split; auto. }
  destruct (Js.truthy (Js.trim (UpdateProfile.full_name _))) eqn:Hname; simpl.
  2: { repeat split; eauto; try done. }
  apply truthy_true_iff in Hname.
  destruct (backend w (clock w)); simpl.
  - split; [apply Hsame; auto |]. repeat split; try done.
  - split; [| repeat split; done].
    apply Forall2_update_where; [by left |].
    intros r Hr. apply bool_decide_eq_true in Hr. right. by exists t.
Qed.

Lemma X19_saveProfile_writes_own_profile_witness :
  let st :=
    {| UpdateProfile.loading := false; UpdateProfile.saving := false;
       UpdateProfile.profile := Some somchai; UpdateProfile.farmProfile := None;
       UpdateProfile.isFarm := false;
       UpdateProfile.profileForm :=
         {| UpdateProfile.full_name := "   "; UpdateProfile.phone := "";
            UpdateProfile.address := "" |};
       UpdateProfile.farmForm :=
         {| UpdateProfile.farm_name := ""; UpdateProfile.farm_location := "";
            UpdateProfile.farm_description := "" |} |} in
  db (run UpdateProfile.saveProfile (online village) st).1 = village.
Proof.
  intros st.
  pose proof (X19_saveProfile_writes_own_profile (online village) st) as H.
  cbv zeta in H.
  destruct (run UpdateProfile.saveProfile (online village) st) as [w' st'].
  destruct H as (_ & _ & _ & H & _). by destruct (H eq_refl) as [Hdb _].
Defined.

(** X20.  What [saveFarmProfile] stores is tidy: row by row the
    farm-profile table after it is the table before it, but for the rows
    of the id of the loaded farm profile, which get the trimmed name and
    location, neither of them empty, and the trimmed description, or null
    when it is empty; and when the store fails the update, the store is
    as it was and the error is shown. *)
Theorem X20_saveFarmProfile_stores_trimmed (w : World) (st : UpdateProfile.State) :
  let form := UpdateProfile.farmForm st in
  let '(w', st') := run UpdateProfile.saveFarmProfile w st in
  Forall2 (fun r r' =>
             r' = r \/
             exists t, UpdateProfile.farmProfile st = Some t /\
                       farm_profiles.id r = farm_profiles.id t /\
                       r' = saved_farm_profile form r /\
                       farm_profile_normal r')
    (db_farm_profiles (db w)) (db_farm_profiles (db w')) /\
  (forall t, UpdateProfile.farmProfile st = Some t ->
     Js.trim (UpdateProfile.farm_name form) <> "" ->
     Js.trim (UpdateProfile.farm_location form) <> "" ->
     serves w 0 = false ->
     db w' = db w /\
     exists payload msg,
       trace w' = (trace w ++ [Sent (ReqUpdateFarmProfile payload (farm_profiles.id t));
                               ToastError msg])%list).
Proof.
  assert (forall (P : relation farm_profiles.Row) l, (forall r, P r r) -> Forall2 P l l)
    as Hsame by (intros P l H; induction l; constructor; auto).
  unfold serves, UpdateProfile.saveFarmProfile. unfold_eff. unfold_store. simpl.
  destruct (UpdateProfile.farmProfile st) as [t|]; simpl.
  2: { split; [apply Hsame; auto | done]. }
  destruct (Js.truthy (Js.trim (UpdateProfile.farm_name _))) eqn:Hname; simpl.
  2: { split; [apply Hsame; auto |]. apply truthy_false_iff in Hname.
       intros t' _ H. by destruct H. }
  destruct (Js.truthy (Js.trim (UpdateProfile.farm_location _))) eqn:Hloc; simpl.
  2: { split; [apply Hsame; auto |]. apply truthy_false_iff in Hloc.
       intros t' _ _ H. by destruct H. }
  apply truthy_true_iff in Hname, Hloc.
  destruct (backend w (clock w)); simpl.
  - split; [apply Hsame; auto |]. intros t' [= <-] _ _ _. split; [done |].
    eexists _, _. by rewrite <- app_assoc.
  - split; [| done].
    apply Forall2_update_where; [by left |].
    intros r Hr. apply bool_decide_eq_true in Hr. right. exists t.
    split; [done |]. split; [done |]. split; [reflexivity |].
    unfold farm_profile_normal. simpl.
    split; [apply trim_idempotent |]. split; [done |].
    split; [apply trim_idempotent |]. split; [done |].
    unfold Js.or_null.
    destruct (Js.trim (UpdateProfile.farm_description _)) as [|c d] eqn:Ed; simpl; [done |].
    split; [| done]. rewrite <- Ed. apply trim_idempotent.
Qed.

Lemma X20_saveFarmProfile_stores_trimmed_witness :
  db (run UpdateProfile.saveFarmProfile (offline orchard)
        (farm_form "Suan Kluai Hom" "Ranong" "")).1 = orchard.
Proof.
  pose proof (X20_saveFarmProfile_stores_trimmed (offline orchard)
                (farm_form "Suan Kluai Hom" "Ranong" "")) as H.
  cbv zeta in H.
  destruct (run UpdateProfile.saveFarmProfile (offline orchard)
              (farm_form "Suan Kluai Hom" "Ranong" "")) as [w' st'].
  destruct H as [_ H].
  by destruct (H suan_kluai eq_refl ltac:(discriminate) ltac:(discriminate) eq_refl)
    as [Hdb _].
Defined.

Lemma update_where_fixed {R : Type} (key : R -> string) (change : R -> R)
    (l : list R) (r : R) :
  NoDup (key <$> l) -> r ∈ l -> change r = r ->
  update_where (fun x => bool_decide (key x = key r)) change l = l.
Proof.
  intros Hnd Hr Hfix. unfold update_where.
  assert (forall x, x ∈ l ->
            (if bool_decide (key x = key r) then change x else x) = x) as H.
  { intros x Hx. destruct (bool_decide (key x = key r)) eqn:E; [| done].
    apply bool_decide_eq_true in E.
    by rewrite (NoDup_key_inj key l x r Hnd Hx Hr E). }
  clear Hnd Hr. induction l as [|x l IH]; simpl; [done |].
  rewrite H by left. f_equal. apply IH. intros y Hy. apply H. by right.
Qed.

Lemma saved_farm_profile_normal (f : farm_profiles.Row) :
  farm_profile_normal f ->
  farm_profiles.apply_update
    {| farm_profiles.Update.farm_name := Js.trim (farm_profiles.farm_name f);
       farm_profiles.Update.farm_location := Js.trim (farm_profiles.farm_location f);
       farm_profiles.Update.farm_description :=
         Js.or_null (Js.trim (UpdateProfile.or_empty (farm_profiles.farm_description f))) |}
    f = f.
Proof.
  destruct f as [ca desc img loc name id rt tr ts ua uid ver].
  unfold farm_profile_normal, farm_profiles.apply_update. simpl.
  intros (Hname & _ & Hloc & _ & Hdesc). rewrite Hname, Hloc. f_equal.
  destruct desc as [d|]; simpl; [| reflexivity].
  destruct Hdesc as [-> Hne]. unfold Js.or_null. by destruct d.
Qed.

(** What a served [loadProfiles] of an account with a farm profile leaves
    in the farm part of the view. *)
Lemma loadProfiles_farm (w : World) (st : UpdateProfile.State) (account : string)
    (f : farm_profiles.Row) :
  NoDup (profiles.id <$> db_profiles (db w)) ->
  NoDup (farm_profiles.user_id <$> db_farm_profiles (db w)) ->
  f ∈ db_farm_profiles (db w) -> farm_profiles.user_id f = account ->
  serves w 0 = true -> serves w 1 = true ->
  let '(w', st') := run (UpdateProfile.loadProfiles (Some account)) w st in
  UpdateProfile.farmProfile st' = Some f /\
  UpdateProfile.isFarm st' = true /\
  UpdateProfile.farmForm st' =
    {| UpdateProfile.farm_name := farm_profiles.farm_name f;
       UpdateProfile.farm_location := farm_profiles.farm_location f;
       UpdateProfile.farm_description :=
         UpdateProfile.or_empty (farm_profiles.farm_description f) |} /\
  UpdateProfile.loading st' = false /\
  w' = tick (emit (Sent (ReqSelect "farm_profiles"))
               (tick (emit (Sent (ReqSelect "profiles")) w))).
Proof.
  intros Hprofiles Hnd Hf Hacc H0 H1.
  apply serves_0 in H0 as (u0 & n0 & H0). apply serves_1 in H1 as (u1 & n1 & H1).
  unfold UpdateProfile.loadProfiles, UpdateProfile.profile_of,
    UpdateProfile.farm_profile_of. unfold_eff. unfold_store.
  simpl. rewrite H0. simpl.
  destruct (filter_key_at_most_one profiles.id (db_profiles (db w)) account Hprofiles)
    as [[E _] | (p & E & _)]; rewrite E; simpl; rewrite H1; simpl;
    rewrite <- Hacc, (filter_key_NoDup farm_profiles.user_id _ f Hnd Hf); simpl; done.
Qed.

(** X21.  Saving what was loaded changes nothing: with unique keys and
    the store serving the three requests, [loadProfiles] of the account of
    a farm profile that is stored tidy, followed by [saveFarmProfile] with
    the form untouched, leaves the store as it was and reports the
    update. *)
Theorem X21_load_then_save_farm_profile (w : World) (account : string)
    (f : farm_profiles.Row) :
  NoDup (profiles.id <$> db_profiles (db w)) ->
  NoDup (farm_profiles.user_id <$> db_farm_profiles (db w)) ->
  NoDup (farm_profiles.id <$> db_farm_profiles (db w)) ->
  f ∈ db_farm_profiles (db w) -> farm_profiles.user_id f = account ->
  farm_profile_normal f ->
  serves w 0 = true -> serves w 1 = true -> serves w 2 = true ->
  let '(w1, st1) :=
    run (UpdateProfile.loadProfiles (Some account)) w UpdateProfile.initial in
  let '(w2, st2) := run UpdateProfile.saveFarmProfile w1 st1 in
  db w2 = db w /\
  last (trace w2) = Some (ToastSuccess "Farm profile updated") /\
  UpdateProfile.saving st2 = false.
Proof.
  intros Hprofiles Hnd Hids Hf Hacc Hnormal H0 H1 H2.
  pose proof (loadProfiles_farm w UpdateProfile.initial account f
                Hprofiles Hnd Hf Hacc H0 H1) as H.
  destruct (run (UpdateProfile.loadProfiles (Some account)) w UpdateProfile.initial)
    as [w1 st1].
  destruct H as (Hfp & _ & Hform & _ & ->).
  unfold serves in H2. simpl in H2.
  destruct (backend w (S (S (clock w)))) as [|u2 n2] eqn:E2; [done |].
  destruct Hnormal as (Hname & Hname' & Hloc & Hloc' & Hdesc).
  unfold UpdateProfile.saveFarmProfile. unfold_eff. unfold_store. simpl.
  rewrite Hfp, Hform. simpl. rewrite Hname, Hloc.
  assert (Js.truthy (farm_profiles.farm_name f) = true) as ->
    by (by apply truthy_true_iff).
  assert (Js.truthy (farm_profiles.farm_location f) = true) as ->
    by (by apply truthy_true_iff).
  simpl. rewrite E2. simpl. split; [| split; [by rewrite last_snoc | done]].
  rewrite <- Hname at 1. rewrite <- Hloc at 1.
  rewrite (update_where_fixed farm_profiles.id _ _ f Hids Hf).
  - by destruct (db w).
  - rewrite Hname, Hloc. rewrite <- Hname at 1. rewrite <- Hloc at 1.
    apply saved_farm_profile_normal. done.
Qed.

Lemma X21_load_then_save_farm_profile_witness :
  let '(w1, st1) :=
    run (UpdateProfile.loadProfiles (Some "user-1")) (online village)
      UpdateProfile.initial in
  let '(w2, st2) := run UpdateProfile.saveFarmProfile w1 st1 in
  db w2 = village.
Proof.
  assert (NoDup (profiles.id <$> db_profiles village)) as Hp
    by (by apply (bool_decide_unpack _)).
  assert (NoDup (farm_profiles.user_id <$> db_farm_profiles village)) as Hu
    by (by apply (bool_decide_unpack _)).
  assert (NoDup (farm_profiles.id <$> db_farm_profiles village)) as Hi
    by (by apply (bool_decide_unpack _)).
  assert (farm_profile_normal suan_kluai) as Hnormal
    by (by apply (bool_decide_unpack _); vm_compute).
  pose proof (X21_load_then_save_farm_profile (online village) "user-1" suan_kluai
                Hp Hu Hi ltac:(left) eq_refl Hnormal eq_refl eq_refl eq_refl) as H.
  destruct (run (UpdateProfile.loadProfiles (Some "user-1")) (online village)
              UpdateProfile.initial) as [w1 st1].
  destruct (run UpdateProfile.saveFarmProfile w1 st1) as [w2 st2].
  by destruct H as [H _].
Defined.

(** X22.  The profile view gives no way to write a farm profile to an
    account that owns none: after [loadProfiles] on the fresh view,
    whatever the store answers, the view is not in farm mode and
    [saveFarmProfile], whatever is put into the farm form, does nothing at
    all. *)
Theorem X22_no_farm_profile_no_farm_write (w : World) (session : option string)
    (form : UpdateProfile.FarmForm) :
  (forall account f, session = Some account -> f ∈ db_farm_profiles (db w) ->
     farm_profiles.user_id f <> account) ->
  let '(w1, st1) := run (UpdateProfile.loadProfiles session) w UpdateProfile.initial in
  UpdateProfile.isFarm st1 = false /\
  UpdateProfile.farmProfile st1 = None /\
  db w1 = db w /\
  run UpdateProfile.saveFarmProfile w1 (UpdateProfile.setFarmForm form st1) =
    (w1, UpdateProfile.setFarmForm form st1).
Proof.
  intros Hnone.
  assert (forall w1 st1, UpdateProfile.farmProfile st1 = None ->
            run UpdateProfile.saveFarmProfile w1 (UpdateProfile.setFarmForm form st1) =
              (w1, UpdateProfile.setFarmForm form st1)) as Hsave.
  { intros w1 st1 E. unfold UpdateProfile.saveFarmProfile. unfold_eff. simpl.
    by rewrite E. }
  unfold UpdateProfile.loadProfiles, UpdateProfile.profile_of,
    UpdateProfile.farm_profile_of. unfold_eff. unfold_store.
  simpl. destruct session as [account|]; simpl; [| repeat split; by apply Hsave].
  destruct (backend w (clock w)); simpl; [repeat split; by apply Hsave |].
  assert (eq_ farm_profiles.user_id account (db_farm_profiles (db w)) = []) as Efarm
    by (apply filter_key_none; intros f Hf; by apply (Hnone account)).
  destruct (eq_ profiles.id account (db_profiles (db w))) as [|p [|p' l]]; simpl;
    try (repeat split; by apply Hsave);
    (destruct (backend w (S (clock w))); simpl;
     [repeat split; by apply Hsave |]);
    rewrite Efarm; simpl; repeat split; by apply Hsave.
Qed.

Lemma X22_no_farm_profile_no_farm_write_witness :
  UpdateProfile.isFarm
    (run (UpdateProfile.loadProfiles (Some "user-2")) (online village)
       UpdateProfile.initial).2 = false.
Proof.
  pose proof (X22_no_farm_profile_no_farm_write (online village) (Some "user-2")
                {| UpdateProfile.farm_name := "Suan Malee";
                   UpdateProfile.farm_location := "Bangkok";
                   UpdateProfile.farm_description := "" |}) as H.
  destruct (run (UpdateProfile.loadProfiles (Some "user-2")) (online village)
              UpdateProfile.initial) as [w1 st1].
  apply H. intros account f [= <-] Hf.
  apply list_elem_of_singleton in Hf as ->. discriminate.
Defined.

End UpdateProfileMore.

(** ** The colour of a status *)

Section StatusColours.

Lemma own_value (table : list (string * string)) (key v : string) :
  JsObject.own table key = Some v -> (key, v) ∈ table.
Proof.
  induction table as [|[k v'] table IH]; simpl; [done |].
  destruct (JsObject.own table key) as [v0|].
  - intros [= ->]. right. by apply IH.
  - destruct (decide (k = key)) as [-> | _]; [| done]. intros [= ->]. left.
Qed.

(** X23.  On the farm's orders page every status of the enumeration has a
    colour of its own, none of them the gray of the fallback, and any other
    status string gets the gray, unless it is the name of a member that
    every object inherits, for which the result is no string. *)
Theorem X23_FarmOrders_status_colours :
  (forall s : Enums.order_status,
     exists c, FarmOrders.getStatusColor (Enums.order_status_str s) = JsObject.Str c /\
               c <> gray) /\
  (forall s s' : Enums.order_status,
     FarmOrders.getStatusColor (Enums.order_status_str s) =
       FarmOrders.getStatusColor (Enums.order_status_str s') -> s = s') /\
  (forall status : string,
     status ∉ Enums.order_status_str <$> Constants.order_status ->
     FarmOrders.getStatusColor status =
       if decide (status ∈ JsObject.inherited) then JsObject.Inherited status
       else JsObject.Str gray).
Proof.
  split; [| split].
  - intros []; eexists; (split; [vm_compute; reflexivity | discriminate]).
  - intros [] [] H; try reflexivity; vm_compute in H; discriminate H.
  - intros status Hstatus. unfold FarmOrders.getStatusColor, JsObject.get_or, JsObject.get.
    destruct (JsObject.own FarmOrders.colors status) as [v|] eqn:E.
    + apply own_value in E. exfalso. apply Hstatus.
      apply (list_elem_of_fmap_2 fst) in E. exact E.
    + by destruct (decide (status ∈ JsObject.inherited)).
Qed.

(** X24.  The buyer's dashboard colours five of the six statuses, each as
    the farm's orders page does, and has no colour for "reviewed": of the
    statuses of the enumeration, a reviewed order, and only that, shows in
    the gray of the fallback. *)
Theorem X24_Dashboard_status_colours (s : Enums.order_status) :
  (s <> Enums.reviewed ->
   Dashboard.getStatusColor (Enums.order_status_str s) =
     FarmOrders.getStatusColor (Enums.order_status_str s)) /\
  (Dashboard.getStatusColor (Enums.order_status_str s) = JsObject.Str gray <->
   s = Enums.reviewed).
Proof.
  destruct s; (split; [intros H; try done; vm_compute; reflexivity |]);
    (split; [intros H; try reflexivity; vm_compute in H; discriminate H
            | intros H; try done; discriminate H]).
Qed.

Lemma X24_Dashboard_status_colours_witness :
  Dashboard.getStatusColor "pending" = JsObject.Str "bg-yellow-100 text-yellow-800".
Proof.
  destruct (X24_Dashboard_status_colours Enums.pending) as [H _].
  exact (H ltac:(discriminate)).
Defined.

Lemma X23_FarmOrders_status_colours_witness :
  FarmOrders.getStatusColor "refunded" = JsObject.Str gray.
Proof.
  destruct X23_FarmOrders_status_colours as (_ & _ & H).
  rewrite H; [reflexivity |]. by apply (bool_decide_unpack _).
Defined.

End StatusColours.

(** ** The figures of a farm *)

Section FarmDashboardMore.

Lemma count_if_fmap_filter {A B : Type} (g : A -> B) (keep : B -> bool)
    (P Q : A -> Prop) `{!forall x, Decision (P x)} `{!forall x, Decision (Q x)}
    (l : list A) :
  (forall x, keep (g x) = true <-> Q x) ->
  length (List.filter keep (g <$> filter P l)) =
  length (filter (fun x => P x /\ Q x) l).
Proof.
  intros Hkeep. induction l as [|x l IH]; [done |].
  rewrite !filter_cons. destruct (decide (P x)) as [HP | HP].
  - csimpl. destruct (keep (g x)) eqn:E.
    + rewrite decide_True by (split; [done | by apply Hkeep]). simpl. by rewrite IH.
    + rewrite decide_False; [exact IH |].
      intros [_ HQ]. apply Hkeep in HQ. congruence.
  - rewrite decide_False by tauto. exact IH.
Qed.

Lemma length_filter_and {A : Type} (P Q : A -> Prop)
    `{!forall x, Decision (P x)} `{!forall x, Decision (Q x)} (l : list A) :
  (length (filter (fun x => P x /\ Q x) l) <= length (filter P l))%nat.
Proof.
  induction l as [|x l IH]; [done |]. rewrite !filter_cons.
  destruct (decide (P x /\ Q x)) as [[HP HQ] | Hno].
  - rewrite decide_True by done. simpl. lia.
  - destruct (decide (P x)); simpl; lia.
Qed.

(** X25.  With unique account ids among the farm profiles and the store
    serving the three requests, [loadFarmData] of an account that owns a
    farm profile shows that profile and counts what belongs to its farm:
    all its products, those of them whose [is_active] is true, all its
    orders, and those of them that are pending; so the active products are
    never more than the products, nor the pending orders more than the
    orders. *)
Theorem X25_loadFarmData_counts (w : World) (st : FarmDashboard.State)
    (account : string) (table : list orders.Row) (f : farm_profiles.Row) :
  NoDup (farm_profiles.user_id <$> db_farm_profiles (db w)) ->
  f ∈ db_farm_profiles (db w) -> farm_profiles.user_id f = account ->
  serves w 0 = true -> serves w 1 = true -> serves w 2 = true ->
  let '(w', st') := run (FarmDashboard.loadFarmData (Some account) table) w st in
  let own_product p := products.farm_id p = farm_profiles.id f in
  let own_order o := orders.farm_id o = farm_profiles.id f in
  let stats := FarmDashboard.stats st' in
  FarmDashboard.farm st' = Some f /\
  FarmDashboard.loading st' = false /\
  FarmDashboard.totalProducts stats =
    length (filter own_product (db_products (db w))) /\
  FarmDashboard.activeProducts stats =
    length (filter (fun p => own_product p /\ products.is_active p = Some true)
              (db_products (db w))) /\
  FarmDashboard.totalOrders stats = length (filter own_order table) /\
  FarmDashboard.pendingOrders stats =
    length (filter (fun o => own_order o /\ orders.status o = Enums.pending) table) /\
  (FarmDashboard.activeProducts stats <= FarmDashboard.totalProducts stats)%nat /\
  (FarmDashboard.pendingOrders stats <= FarmDashboard.totalOrders stats)%nat /\
  db w' = db w.
Proof.
  intros Hnd Hf Hacc H0 H1 H2.
  apply serves_0 in H0 as (u0 & n0 & H0). apply serves_1 in H1 as (u1 & n1 & H1).
  unfold serves in H2. simpl in H2.
  destruct (backend w (S (S (clock w)))) as [|u2 n2] eqn:E2; [done |].
  unfold FarmDashboard.loadFarmData, FarmDashboard.farm_of_account,
    FarmDashboard.product_flags, FarmDashboard.order_statuses. unfold_eff. unfold_store.
  simpl. rewrite H0. simpl.
  rewrite <- Hacc, (filter_key_NoDup farm_profiles.user_id _ f Hnd Hf). simpl.
  rewrite H1. simpl. rewrite E2. simpl.
  assert (length (List.filter (fun p : string * option bool => ManageProducts.truthy p.2)
                    ((fun p => (products.id p, products.is_active p))
                     <$> eq_ products.farm_id (farm_profiles.id f) (db_products (db w)))) =
          length (filter (fun p => products.farm_id p = farm_profiles.id f /\
                                   products.is_active p = Some true)
                    (db_products (db w)))) as Hactive.
  { unfold eq_. apply count_if_fmap_filter. intros p. simpl.
    destruct (products.is_active p) as [[|]|]; simpl; split; congruence. }
  assert (length (List.filter (fun o : string * string => bool_decide (o.2 = "pending"))
                    ((fun o => (orders.id o, Enums.order_status_str (orders.status o)))
                     <$> eq_ orders.farm_id (farm_profiles.id f) table)) =
          length (filter (fun o => orders.farm_id o = farm_profiles.id f /\
                                   orders.status o = Enums.pending) table)) as Hpending.
  { unfold eq_. apply count_if_fmap_filter. intros o. simpl.
    rewrite bool_decide_eq_true. destruct (orders.status o); simpl; split; congruence. }
  rewrite Hactive, Hpending, !length_fmap. unfold eq_.
  repeat split; try done; apply length_filter_and.
Qed.

Lemma X25_loadFarmData_counts_witness :
  FarmDashboard.stats
    (run (FarmDashboard.loadFarmData (Some "user-1") ledger) (online orchard)
       FarmDashboard.initial).2 =
  {| FarmDashboard.totalProducts := 2; FarmDashboard.activeProducts := 1;
     FarmDashboard.totalOrders := 2; FarmDashboard.pendingOrders := 1 |}.
Proof.
  assert (NoDup (farm_profiles.user_id <$> db_farm_profiles (db (online orchard))))
    as Hnd by (by apply (bool_decide_unpack _)).
  pose proof (X25_loadFarmData_counts (online orchard) FarmDashboard.initial "user-1"
                ledger suan_kluai Hnd ltac:(left) eq_refl eq_refl eq_refl eq_refl) as H.
  destruct (run (FarmDashboard.loadFarmData (Some "user-1") ledger) (online orchard)
              FarmDashboard.initial) as [w' st'].
  cbv zeta in H. cbn [snd].
  destruct H as (_ & _ & H1 & H2 & H3 & H4 & _).
  destruct (FarmDashboard.stats st') as [a b c d]. simpl in *.
  rewrite H1, H2, H3, H4. reflexivity.
Defined.

End FarmDashboardMore.

(** ** The orders of a farm *)

Section FarmOrdersMore.

#[local] Existing Instances latest_first_total latest_first_trans.

Lemma Eff_bind_inr {S A B : Type} (m : Eff S A) (k : A -> Eff S B)
    (ws ws' : World * S) (a : A) :
  m ws = (ws', inr a) -> (m ≫= k) ws = k a ws'.
Proof. intros E. unfold mbind, Eff_bind. by rewrite E. Qed.

Lemma try_catch_finally_inr {S : Type} (body : Eff S unit)
    (handler : PostgrestError -> Eff S unit) (cleanup : Eff S unit)
    (ws ws' : World * S) :
  body ws = (ws', inr tt) -> try_catch_finally body handler cleanup ws = cleanup ws'.
Proof. intros E. unfold try_catch_finally. by rewrite E. Qed.

Lemma with_buyer_all (l : list FarmOrders.Order) (w : World) (st : FarmOrders.State) :
  exists w' outs,
    mapM FarmOrders.with_buyer l (w, st) = (w', st, inr outs) /\
    db w' = db w /\
    (exists selects,
       trace w' = (trace w ++ selects)%list /\
       Forall (fun e => exists table, e = Sent (ReqSelect table)) selects) /\
    Forall2 (buyer_attached (db w)) l outs.
Proof.
  revert w. induction l as [|order l IH]; intros w.
  - exists w, []. repeat split; [| constructor].
    exists []. split; [by rewrite app_nil_r | constructor].
  - assert (exists w1 profile,
              FarmOrders.with_buyer order (w, st) = (w1, st, inr (FarmOrders.with_profile profile order)) /\
              db w1 = db w /\
              trace w1 = (trace w ++ [Sent (ReqSelect "profiles")])%list /\
              forall name, profile = Some name ->
                exists pr, pr ∈ db_profiles (db w) /\
                           profiles.id pr = FarmOrders.user_id order /\
                           name = profiles.full_name pr)
      as (w1 & profile & E1 & Hdb1 & Htrace1 & Hprofile).
    { unfold FarmOrders.with_buyer, FarmOrders.full_name_of. unfold_eff. unfold_store. simpl.
      destruct (backend w (clock w)); simpl.
      - eexists _, None. repeat split. intros name H. discriminate H.
      - destruct (profiles.full_name <$> eq_ profiles.id (FarmOrders.user_id order)
                                            (db_profiles (db w)))
          as [|name [|name' names]] eqn:E; simpl.
        + eexists _, None. repeat split. intros ? H. discriminate H.
        + eexists _, (Some name). repeat split. intros ? [= <-].
          assert (name ∈ profiles.full_name <$> eq_ profiles.id (FarmOrders.user_id order)
                                                  (db_profiles (db w))) as Hin
            by (rewrite E; left).
          apply list_elem_of_fmap in Hin as (pr & -> & Hpr).
          unfold eq_ in Hpr. apply list_elem_of_filter in Hpr as [Hid Hpr].
          by exists pr.
        + eexists _, None. repeat split. intros ? H. discriminate H. }
    destruct (IH w1) as (w' & outs & E & Hdb & (selects & Htrace & Hselects) & Hall).
    exists w', (FarmOrders.with_profile profile order :: outs).
    split; [| split; [| split]].
    + change (mapM FarmOrders.with_buyer (order :: l) (w, st)) with
        ((y ← FarmOrders.with_buyer order;
          k ← mapM FarmOrders.with_buyer l; mret (y :: k)) (w, st)).
      refine (eq_trans (Eff_bind_inr _ _ _ _ _ E1) _).
      refine (eq_trans (Eff_bind_inr _ _ _ _ _ E) _). reflexivity.
    + by rewrite Hdb.
    + exists (Sent (ReqSelect "profiles") :: selects).
      split; [rewrite Htrace, Htrace1, <- app_assoc; reflexivity |].
      constructor; [by eexists | done].
    + constructor; [by exists profile |]. by rewrite <- Hdb1.
Qed.

(** X26.  With unique account ids among the farm profiles and the store
    serving the first two requests, [loadOrders] of an account that owns a
    farm profile loads the orders of that farm and no others, latest
    first, each with its selected columns and the name of the product of
    the id it references (none when there is no such product); the lookups
    of the buyers' profiles cannot make it fail: whatever the store answers
    to them, every order is loaded, with the name of the profile of its
    buyer or with none, and no error is shown. *)
Theorem X26_loadOrders_survives_profile_failures (w : World)
    (st : FarmOrders.State) (account : string) (table : list orders.Row)
    (f : farm_profiles.Row) :
  NoDup (farm_profiles.user_id <$> db_farm_profiles (db w)) ->
  f ∈ db_farm_profiles (db w) -> farm_profiles.user_id f = account ->
  serves w 0 = true -> serves w 1 = true ->
  let '(w', st') := run (FarmOrders.loadOrders (Some account) table) w st in
  FarmOrders.loading st' = false /\
  db w' = db w /\
  (exists selects,
     trace w' = (trace w ++ selects)%list /\
     Forall (fun e => exists table, e = Sent (ReqSelect table)) selects) /\
  exists rows,
    rows ≡ₚ filter (fun o => orders.farm_id o = farm_profiles.id f) table /\
    StronglySorted (latest_first orders.created_at) rows /\
    Forall2 (fun r order =>
               FarmOrders.id order = orders.id r /\
               FarmOrders.user_id order = orders.user_id r /\
               FarmOrders.status order = Enums.order_status_str (orders.status r) /\
               FarmOrders.total_price order = orders.total_price r /\
               FarmOrders.quantity order = orders.quantity r /\
               FarmOrders.created_at order = orders.created_at r /\
               FarmOrders.products order =
                 products.name <$>
                   head (filter (fun p => products.id p = orders.product_id r)
                           (db_products (db w))) /\
               (FarmOrders.profiles order = None \/
                exists pr, pr ∈ db_profiles (db w) /\
                           profiles.id pr = orders.user_id r /\
                           FarmOrders.profiles order = Some (profiles.full_name pr)))
      rows (FarmOrders.orders st').
Proof.
  intros Hnd Hf Hacc H0 H1.
  apply serves_0 in H0 as (u0 & n0 & H0). apply serves_1 in H1 as (u1 & n1 & H1).
  set (w1 := tick (emit (Sent (ReqSelect "farm_profiles")) w)).
  set (w2 := tick (emit (Sent (ReqSelect "orders")) w1)).
  destruct (with_buyer_all (FarmOrders.orders_of_farm table (farm_profiles.id f) (db w))
              w2 st) as (w' & outs & E & Hdb & (selects & Htrace & Hselects) & Hall).
  assert (run (FarmOrders.loadOrders (Some account) table) w st =
          (w', FarmOrders.setLoading false (FarmOrders.setOrders outs st))) as ->.
  { unfold run, Handler, FarmOrders.loadOrders.
    rewrite try_catch_finally_inr with (ws' := (w', FarmOrders.setOrders outs st));
      [reflexivity |].
    eapply eq_trans; [apply Eff_bind_inr with (ws' := (w1, st)) |].
    { unfold await, await_maybeSingle, send, AddProduct.farm_id_of. simpl.
      rewrite H0. simpl.
      rewrite <- Hacc, (filter_key_NoDup farm_profiles.user_id _ f Hnd Hf). reflexivity. }
    simpl. eapply eq_trans; [apply Eff_bind_inr with (ws' := (w1, st)); reflexivity |].
    eapply eq_trans; [apply Eff_bind_inr with (ws' := (w2, st)) |].
    { unfold await, await_rows, send. simpl. rewrite H1. reflexivity. }
    simpl. eapply eq_trans; [apply Eff_bind_inr with (ws' := (w2, st)); reflexivity |].
    eapply eq_trans; [apply Eff_bind_inr; exact E |]. reflexivity. }
  simpl.
  split; [done |]. split; [done |]. split.
  - exists (Sent (ReqSelect "farm_profiles") :: Sent (ReqSelect "orders") :: selects).
    split; [rewrite Htrace; simpl; by rewrite <- !app_assoc |].
    repeat constructor; try by eexists. done.
  - exists (order_desc orders.created_at
              (eq_ orders.farm_id (farm_profiles.id f) table)).
    unfold order_desc, eq_.
    split; [apply merge_sort_Permutation |].
    split; [apply StronglySorted_merge_sort; apply _ |].
    unfold FarmOrders.orders_of_farm, order_desc, eq_ in Hall. simpl in Hall.
    rewrite Forall2_fmap_l in Hall. eapply Forall2_impl; [exact Hall |].
    intros r order (profile & -> & Hprofile). simpl.
    repeat split. destruct profile as [name|]; [right | by left].
    destruct (Hprofile name eq_refl) as (pr & Hpr & Hid & ->). by exists pr.
Qed.

Lemma X26_loadOrders_survives_profile_failures_witness :
  let '(w', st') :=
    run (FarmOrders.loadOrders (Some "user-1") ledger) (flaky village)
      FarmOrders.initial in
  FarmOrders.loading st' = false /\
  length (FarmOrders.orders st') = 2%nat /\
  (fun o => (FarmOrders.id o, FarmOrders.product_cell o, FarmOrders.customer_cell o))
    <$> FarmOrders.orders st' =
    [("order-1", "Kluai Hom Thong", "Unknown"); ("order-2", "Kluai Khai", "Unknown")].
Proof.
  assert (NoDup (farm_profiles.user_id <$> db_farm_profiles (db (flaky village))))
    as Hnd by (by apply (bool_decide_unpack _)).
  pose proof (X26_loadOrders_survives_profile_failures (flaky village)
                FarmOrders.initial "user-1" ledger suan_kluai Hnd ltac:(left)
                eq_refl eq_refl eq_refl) as H.
  destruct (run (FarmOrders.loadOrders (Some "user-1") ledger) (flaky village)
              FarmOrders.initial) as [w' st'] eqn:E.
  destruct H as (Hloading & _ & _ & rows & Hperm & _ & Hall).
  split; [exact Hloading |]. split.
  - rewrite <- (Forall2_length _ _ _ Hall), Hperm. reflexivity.
  - vm_compute in E. injection E as <- <-. reflexivity.
Defined.

End FarmOrdersMore.

(** ** Reading handlers *)

Section Readers.

Ltac only_reads_leaf :=
  eexists; split;
  [ rewrite <- ?app_assoc; reflexivity
  | repeat constructor; intros r H;
    first [discriminate H | injection H as <-; by eexists] ].

(** X27.  The handlers that load a view only read the store: whatever the
    session, the store contents and the answers of the store, after
    [fetchProducts], [loadProduct], [checkFarmProfile], [loadProducts],
    [loadProfiles], [loadFarmData] and [loadOrders] the store holds what it
    held, and every request they have sent is a selection. *)
Theorem X27_loaders_only_read (w : World) :
  (forall st, only_reads w (run Market.fetchProducts w st).1) /\
  (forall id st, only_reads w (run (ProductDetail.loadProduct id) w st).1) /\
  (forall session st, only_reads w (run (AddProduct.checkFarmProfile session) w st).1) /\
  (forall session st, only_reads w (run (ManageProducts.loadProducts session) w st).1) /\
  (forall session st, only_reads w (run (UpdateProfile.loadProfiles session) w st).1) /\
  (forall session table st,
     only_reads w (run (FarmDashboard.loadFarmData session table) w st).1) /\
  (forall session table st,
     only_reads w (run (FarmOrders.loadOrders session table) w st).1).
Proof.
  unfold only_reads. repeat split.
  - apply fetchProducts_db.
  - unfold Market.fetchProducts. unfold_eff. unfold_store. simpl.
    destruct (backend w (clock w)); simpl; [only_reads_leaf |].
    destruct (backend w (S (clock w))); simpl; only_reads_leaf.
  - apply loadProduct_db.
  - unfold ProductDetail.loadProduct. unfold_eff. unfold_store. simpl.
    destruct (backend w (clock w)); simpl; [only_reads_leaf |].
    destruct (ProductDetail.active_product id (db w)) as [|p [|p' l]]; simpl;
      [only_reads_leaf | | only_reads_leaf].
    destruct (backend w (S (clock w))); simpl; [only_reads_leaf |].
    destruct (ProductDetail.farm_of (products.farm_id p) (db w)) as [|f [|f' l]];
      simpl; only_reads_leaf.
  - apply checkFarmProfile_db.
  - unfold AddProduct.checkFarmProfile. unfold_eff. unfold_store. simpl.
    destruct session as [account|]; simpl; [| only_reads_leaf].
    destruct (backend w (clock w)); simpl; [only_reads_leaf |].
    destruct (AddProduct.farm_id_of account (db w)) as [|f [|f' l]]; simpl;
      only_reads_leaf.
  - unfold ManageProducts.loadProducts. unfold_eff. unfold_store. simpl.
    destruct session as [account|]; simpl; [| reflexivity].
    destruct (backend w (clock w)); simpl; [reflexivity |].
    destruct (AddProduct.farm_id_of account (db w)) as [|f [|f' l]]; simpl;
      try reflexivity.
    destruct (backend w (S (clock w))); reflexivity.
  - unfold ManageProducts.loadProducts. unfold_eff. unfold_store. simpl.
    destruct session as [account|]; simpl; [| only_reads_leaf].
    destruct (backend w (clock w)); simpl; [only_reads_leaf |].
    destruct (AddProduct.farm_id_of account (db w)) as [|f [|f' l]]; simpl;
      [only_reads_leaf | | only_reads_leaf].
    destruct (backend w (S (clock w))); simpl; only_reads_leaf.
  - unfold UpdateProfile.loadProfiles. unfold_eff. unfold_store. simpl.
    destruct session as [account|]; simpl; [| reflexivity].
    destruct (backend w (clock w)); simpl; [reflexivity |].
    destruct (UpdateProfile.profile_of account (db w)) as [|p [|p' l]]; simpl;
      try reflexivity;
      (destruct (backend w (S (clock w))); simpl; [reflexivity |]);
      destruct (UpdateProfile.farm_profile_of account (db w)) as [|f [|f' l']];
      reflexivity.
  - unfold UpdateProfile.loadProfiles. unfold_eff. unfold_store. simpl.
    destruct session as [account|]; simpl; [| only_reads_leaf].
    destruct (backend w (clock w)); simpl; [only_reads_leaf |].
    destruct (UpdateProfile.profile_of account (db w)) as [|p [|p' l]]; simpl;
      try only_reads_leaf;
      (destruct (backend w (S (clock w))); simpl; [only_reads_leaf |]);
      destruct (UpdateProfile.farm_profile_of account (db w)) as [|f [|f' l']];
      simpl; only_reads_leaf.
  - unfold FarmDashboard.loadFarmData. unfold_eff. unfold_store. simpl.
    destruct session as [account|]; simpl; [| reflexivity].
    destruct (backend w (clock w)); simpl; [reflexivity |].
    destruct (FarmDashboard.farm_of_account account (db w)) as [|f [|f' l]]; simpl;
      try reflexivity.
    destruct (backend w (S (clock w))); simpl; [reflexivity |].
    destruct (backend w (S (S (clock w)))); reflexivity.
  - unfold FarmDashboard.loadFarmData. unfold_eff. unfold_store. simpl.
    destruct session as [account|]; simpl; [| only_reads_leaf].
    destruct (backend w (clock w)); simpl; [only_reads_leaf |].
    destruct (FarmDashboard.farm_of_account account (db w)) as [|f [|f' l]]; simpl;
      [only_reads_leaf | | only_reads_leaf].
    destruct (backend w (S (clock w))); simpl; [only_reads_leaf |].
    destruct (backend w (S (S (clock w)))); simpl; only_reads_leaf.
  - pose proof (fun fid =>
      with_buyer_all (FarmOrders.orders_of_farm table fid (db w))
        (tick (emit (Sent (ReqSelect "orders"))
                 (tick (emit (Sent (ReqSelect "farm_profiles")) w)))) st) as Hmap.
    unfold FarmOrders.loadOrders. unfold_eff. unfold_store. simpl.
    destruct session as [account|]; simpl; [| reflexivity].
    destruct (backend w (clock w)); simpl; [reflexivity |].
    destruct (AddProduct.farm_id_of account (db w)) as [|fid [|f' l]]; simpl;
      try reflexivity.
    destruct (backend w (S (clock w))); simpl; [reflexivity |].
    destruct (Hmap fid) as (w' & outs & E & Hdb & _). simpl in E.
    rewrite E. simpl. exact Hdb.
  - pose proof (fun fid =>
      with_buyer_all (FarmOrders.orders_of_farm table fid (db w))
        (tick (emit (Sent (ReqSelect "orders"))
                 (tick (emit (Sent (ReqSelect "farm_profiles")) w)))) st) as Hmap.
    unfold FarmOrders.loadOrders. unfold_eff. unfold_store. simpl.
    destruct session as [account|]; simpl; [| only_reads_leaf].
    destruct (backend w (clock w)); simpl; [only_reads_leaf |].
    destruct (AddProduct.farm_id_of account (db w)) as [|fid [|f' l]]; simpl;
      [only_reads_leaf | | only_reads_leaf].
    destruct (backend w (S (clock w))); simpl; [only_reads_leaf |].
    destruct (Hmap fid) as (w' & outs & E & _ & (selects & Htrace & Hselects) & _).
    simpl in E. rewrite E. simpl.
    exists (Sent (ReqSelect "farm_profiles") :: Sent (ReqSelect "orders") :: selects).
    split; [rewrite Htrace; simpl; by rewrite <- !app_assoc |].
    constructor; [intros r [= <-]; by eexists |].
    constructor; [intros r [= <-]; by eexists |].
    eapply Forall_impl; [exact Hselects |].
    intros e [t ->] r [= <-]. by eexists.
Qed.

End Readers.
